(** * praxis.utils.helpers: soil-grid client, grid generation and surface interpolation

    A shallow embedding of the four functions of [praxis/utils/helpers.py]:
    [get_all_soilgrid_for_points], [format_soilgrid_response],
    [polygon_binning_to_points] and [interpolate_point_measures].

    Python floats are idealised as exact rationals ([Q]); a float that may be
    NaN is an [option Q] with [None] for NaN.  The third-party libraries the
    functions call (pyproj, shapely, numpy, scipy, geopandas, requests) are
    not part of the repository: the coordinate transformation is a parameter
    (with a linear stand-in and a rational rendering of the Mercator
    formulas to run it), and so are the network and the frame library that
    the soil-grid functions use (with a recording library and a small
    stand-in to run them); the others are modelled after their documented
    behaviour, each in a module of its own. *)

From Stdlib Require Import ZArith QArith Qminmax Qround Qabs Qreduction Lqa Lia.
From Stdlib Require Import List Bool String PeanoNat Ascii DecimalString.
Import ListNotations.
Open Scope Q_scope.

(** ** Errors and results *)

(** The Python exceptions that the two functions can let escape. *)
Inductive exn : Type :=
| KeyError (key : string)      (* pandas: label absent from an index *)
| ValueError (msg : string)    (* scipy: ill-formed arguments *)
| QhullError.                  (* scipy.spatial: degenerate triangulation *)

Inductive result (A : Type) : Type :=
| Ok (a : A)
| Raise (e : exn).
Arguments Ok {A} a.
Arguments Raise {A} e.

Definition bind {A B : Type} (r : result A) (k : A -> result B) : result B :=
  match r with
  | Ok a => k a
  | Raise e => Raise e
  end.

Notation "x <- r ;; k" := (bind r (fun x => k))
  (at level 61, r at next level, right associativity).

(** ** Planar geometry *)

Definition point : Type := (Q * Q)%type.

Definition Qltb (x y : Q) : bool := negb (Qle_bool y x).

(** Twice the signed area of the triangle [a b c]. *)
Definition orient (a b c : point) : Q :=
  (fst b - fst a) * (snd c - snd a) - (snd b - snd a) * (fst c - fst a).

Module Shapely.

(** A polygon is its exterior ring, the list of its vertices; the ring is
    closed by the edge from the last vertex back to the first. *)
Definition Polygon : Type := list point.

Definition edges (poly : Polygon) : list (point * point) :=
  match poly with
  | [] => []
  | v0 :: rest => combine poly (rest ++ [v0])
  end.

(** [Polygon.bounds]: (minx, miny, maxx, maxy); an empty geometry has NaN
    bounds, rendered as [None]. *)
Definition bounds (poly : Polygon) : option (Q * Q * Q * Q) :=
  match poly with
  | [] => None
  | v0 :: rest =>
      Some (fold_left (fun b v =>
                         let '(minx, miny, maxx, maxy) := b in
                         (Qmin minx (fst v), Qmin miny (snd v),
                          Qmax maxx (fst v), Qmax maxy (snd v)))
                      rest (fst v0, snd v0, fst v0, snd v0))
  end.

Definition on_segment (a b p : point) : bool :=
  Qeq_bool (orient a b p) 0
  && Qle_bool (Qmin (fst a) (fst b)) (fst p) && Qle_bool (fst p) (Qmax (fst a) (fst b))
  && Qle_bool (Qmin (snd a) (snd b)) (snd p) && Qle_bool (snd p) (Qmax (snd a) (snd b)).

Definition on_boundary (poly : Polygon) (p : point) : bool :=
  existsb (fun e => on_segment (fst e) (snd e) p) (edges poly).

(** The edge [a b] straddles the horizontal line through [p] and meets it
    strictly to the right of [p]. *)
Definition crosses (a b p : point) : bool :=
  negb (Bool.eqb (Qltb (snd p) (snd a)) (Qltb (snd p) (snd b)))
  && Qltb (fst p)
          (fst a + (snd p - snd a) * (fst b - fst a) / (snd b - snd a)).

Definition crossings (poly : Polygon) (p : point) : nat :=
  List.length (filter (fun e => crosses (fst e) (snd e) p) (edges poly)).

(** [Polygon.contains(Point)]: true exactly for the points of the
    polygon's interior; a point of the boundary is not contained. *)
Definition contains (poly : Polygon) (p : point) : bool :=
  negb (on_boundary poly p) && Nat.odd (crossings poly p).

End Shapely.

(** ** Coordinate reference systems *)

(** What [to_crs] does to a coordinate pair, in each direction between
    EPSG:4326 (degrees) and EPSG:3857 (metres).  pyproj computes it; the
    development is parametric in it. *)
Record Transformer : Type := {
  to_3857 : point -> point;
  to_4326 : point -> point
}.

(** [to_crs] transforms a geometry vertex by vertex. *)
Definition to_crs (f : point -> point) (poly : Shapely.Polygon) : Shapely.Polygon :=
  map f poly.

(** ** The grid generator *)

(** The inner loop,
    [while y < maxy: point = Point(x, y); if contains: append; y += resolution_m].
    [None] when the fuel runs out before the loop condition fails. *)
Fixpoint inner_while (fuel : nat) (poly : Shapely.Polygon) (x y maxy resolution_m : Q)
         (grid_points : list point) : option (list point) :=
  match fuel with
  | O => None
  | S fuel' =>
      if Qltb y maxy then
        let point := (x, y) in
        let grid_points' :=
          if Shapely.contains poly point then grid_points ++ [point] else grid_points in
        inner_while fuel' poly x (y + resolution_m) maxy resolution_m grid_points'
      else Some grid_points
  end.

(** The outer loop, [while x < maxx: y = miny; <inner loop>; x += resolution_m]. *)
Fixpoint outer_while (fuel : nat) (poly : Shapely.Polygon) (x miny maxx maxy resolution_m : Q)
         (grid_points : list point) : option (list point) :=
  match fuel with
  | O => None
  | S fuel' =>
      if Qltb x maxx then
        match inner_while fuel' poly x miny maxy resolution_m grid_points with
        | None => None
        | Some grid_points' =>
            outer_while fuel' poly (x + resolution_m) miny maxx maxy resolution_m grid_points'
        end
      else Some grid_points
  end.

(** The planar points collected by the two loops ([grid_points] in the
    source, before the transformation back to EPSG:4326).  NaN bounds make
    both loop conditions false. *)
Definition grid_points_3857 (fuel : nat) (target_3857 : Shapely.Polygon) (resolution_m : Q)
  : option (list point) :=
  match Shapely.bounds target_3857 with
  | None => Some []
  | Some (minx, miny, maxx, maxy) =>
      outer_while fuel target_3857 minx miny maxx maxy resolution_m []
  end.

(** [polygon_binning_to_points gdf resolution_m].  The frame [gdf] is its
    geometry column; [gdf.geometry[0]] raises [KeyError] on an empty frame.
    The outer [option] is [None] when [fuel] iterations were not enough for
    the loops to finish. *)
Definition polygon_binning_to_points (T : Transformer) (fuel : nat)
           (gdf : list Shapely.Polygon) (resolution_m : Q)
  : option (result (list point)) :=
  match gdf with
  | [] => Some (Raise (KeyError "0"))
  | target_polygon :: _ =>
      let target_3857 := to_crs (to_3857 T) target_polygon in
      match grid_points_3857 fuel target_3857 resolution_m with
      | None => None
      | Some grid_points => Some (Ok (map (to_4326 T) grid_points))
      end
  end.

(** A linear stand-in for the projection pair (one degree is [k] metres on
    both axes), used to run the generator on concrete inputs. *)
Definition scale_transformer (k : Q) : Transformer :=
  {| to_3857 := fun p => (k * fst p, k * snd p);
     to_4326 := fun p => (fst p / k, snd p / k) |}.

Definition unit_square : Shapely.Polygon := [(0, 0); (1, 0); (1, 1); (0, 1)].







(** ** Floats that may be NaN *)

Definition num : Type := option Q.
Definition NaN : num := None.

Definition nlift2 (f : Q -> Q -> Q) (a b : num) : num :=
  match a, b with
  | Some x, Some y => Some (f x y)
  | _, _ => NaN
  end.

Definition nadd : num -> num -> num := nlift2 Qplus.
Definition nsub : num -> num -> num := nlift2 Qminus.
Definition nmul : num -> num -> num := nlift2 Qmult.
Definition ndiv : num -> num -> num := nlift2 Qdiv.

Definition of_nat (i : nat) : Q := inject_Z (Z.of_nat i).

(** ** Frames *)

(** A GeoDataFrame: the geometry column (points, with coordinates in [C]),
    the numeric attribute columns in order, and the reference-system tag. *)
Record GeoDataFrame (C : Type) : Type := {
  geometry : list (C * C);
  columns : list (string * list num);
  crs : option Z
}.
Arguments geometry {C} g.
Arguments columns {C} g.
Arguments crs {C} g.

(** Every column has one value per row. *)
Definition well_formed {C : Type} (gdf : GeoDataFrame C) : Prop :=
  forall name col, In (name, col) (columns gdf) ->
                   List.length col = List.length (geometry gdf).

Fixpoint lookup (name : string) (cols : list (string * list num)) : option (list num) :=
  match cols with
  | [] => None
  | (k, v) :: rest => if String.eqb k name then Some v else lookup name rest
  end.

(** [gdf[measure].values] *)
Definition getitem {C : Type} (gdf : GeoDataFrame C) (measure : string) : result (list num) :=
  match lookup measure (columns gdf) with
  | Some values => Ok values
  | None => Raise (KeyError measure)
  end.

(** [d[key] = value] on a Python dict: an existing key keeps its place. *)
Fixpoint dict_set (d : list (string * list num)) (key : string) (value : list num)
  : list (string * list num) :=
  match d with
  | [] => [(key, value)]
  | (k, v) :: rest =>
      if String.eqb k key then (k, value) :: rest else (k, v) :: dict_set rest key value
  end.

Module Geopandas.

Definition nanmin (xs : list Q) : num :=
  match xs with
  | [] => NaN
  | x :: rest => Some (fold_left Qmin rest x)
  end.

Definition nanmax (xs : list Q) : num :=
  match xs with
  | [] => NaN
  | x :: rest => Some (fold_left Qmax rest x)
  end.

(** [gdf.total_bounds]: (minx, miny, maxx, maxy) over all the points; four
    NaN for an empty frame. *)
Definition total_bounds (pts : list point) : num * num * num * num :=
  (nanmin (map fst pts), nanmin (map snd pts),
   nanmax (map fst pts), nanmax (map snd pts)).

End Geopandas.

Module Numpy.

(** One axis of [np.mgrid[start:stop:nj]]: [n] nodes, the stop value
    included; node [i] is [i * step + start] with
    [step = (stop - start) / (n - 1)] (and [step = 1] when [n = 1]). *)
Definition axis (start stop : num) (n : nat) : list num :=
  let step :=
    if Nat.eqb n 1 then Some 1
    else ndiv (nsub stop start) (Some (of_nat (n - 1))) in
  map (fun i => nadd (nmul (Some (of_nat i)) step) start) (seq 0 n).

(** [zip(grid_x.flatten(), grid_y.flatten())] for
    [grid_x, grid_y = np.mgrid[xmin:xmax:nj, ymin:ymax:nj]]: row-major, the
    second axis varying fastest. *)
Definition mgrid_flat (xmin xmax ymin ymax : num) (n : nat) : list (num * num) :=
  flat_map (fun x => map (fun y => (x, y)) (axis ymin ymax n)) (axis xmin xmax n).

End Numpy.

Module Scipy.

(** A simplex of a planar triangulation: three indices into the points. *)
Definition simplex : Type := (nat * nat * nat)%type.

Definition vertex (pts : list point) (i : nat) : point := nth i pts (0, 0).

(** All index triples [i < j < k < n]. *)
Definition triples (n : nat) : list simplex :=
  flat_map (fun i =>
    flat_map (fun j =>
      map (fun k => (i, j, k)) (seq (S j) (n - S j)))
      (seq (S i) (n - S i)))
    (seq 0 n).

Definition flat (pts : list point) (s : simplex) : bool :=
  let '(i, j, k) := s in
  Qeq_bool (orient (vertex pts i) (vertex pts j) (vertex pts k)) 0.

(** The in-circle determinant of [d] against the circle through [a b c],
    multiplied by the orientation of [a b c]: negative exactly when [d]
    is strictly inside the circle. *)
Definition in_circle (a b c d : point) : Q :=
  let bx := fst b - fst a in let by_ := snd b - snd a in
  let cx := fst c - fst a in let cy := snd c - snd a in
  let dx := fst d - fst a in let dy := snd d - snd a in
  let b2 := bx * bx + by_ * by_ in
  let c2 := cx * cx + cy * cy in
  let d2 := dx * dx + dy * dy in
  (d2 * (bx * cy - by_ * cx) - dy * (bx * c2 - b2 * cx) + dx * (by_ * c2 - b2 * cy))
  * (bx * cy - by_ * cx).

Definition circumcircle_empty (pts : list point) (s : simplex) : bool :=
  let '(i, j, k) := s in
  forallb (fun d => Qle_bool 0 (in_circle (vertex pts i) (vertex pts j) (vertex pts k) d)) pts.

(** [scipy.spatial.Delaunay(points)], as Qhull is used by the
    interpolator: an error without points, an error when no three points
    span a triangle, and otherwise the triangles whose circumcircle holds
    no input point in its interior.  Where four or more points lie on one
    circle, or two records share a location, Qhull keeps one of several
    possible sets of such triangles; the list here holds them all, and
    [find_simplex] takes the first that holds the query point. *)
Definition Delaunay (pts : list point) : result (list simplex) :=
  match pts with
  | [] => Raise (ValueError "No points given")
  | _ :: _ =>
      match filter (fun s => negb (flat pts s)) (triples (List.length pts)) with
      | [] => Raise QhullError
      | candidates => Ok (filter (circumcircle_empty pts) candidates)
      end
  end.

(** Barycentric coordinates of [q] in the triangle [a b c]. *)
Definition barycentric (a b c q : point) : Q * Q * Q :=
  let o := orient a b c in
  (orient q b c / o, orient a q c / o, orient a b q / o).

Definition inside (pts : list point) (q : point) (s : simplex) : bool :=
  let '(i, j, k) := s in
  let '(c0, c1, c2) := barycentric (vertex pts i) (vertex pts j) (vertex pts k) q in
  Qle_bool 0 c0 && Qle_bool 0 c1 && Qle_bool 0 c2.

(** [tri.find_simplex(q)]: a simplex that holds [q], if there is one. *)
Definition find_simplex (pts : list point) (simplices : list simplex) (q : point)
  : option simplex :=
  find (inside pts q) simplices.

(** [LinearNDInterpolator.__call__] at one query point: the barycentric
    combination of the values at the vertices of the simplex that holds
    the point, and [fill_value = nan] when no simplex does. *)
Definition evaluate (pts : list point) (values : list num) (simplices : list simplex)
           (xi : num * num) : num :=
  match xi with
  | (Some x, Some y) =>
      match find_simplex pts simplices (x, y) with
      | None => NaN
      | Some (i, j, k) =>
          let '(c0, c1, c2) :=
            barycentric (vertex pts i) (vertex pts j) (vertex pts k) (x, y) in
          nadd (nadd (nadd (Some 0) (nmul (Some c0) (nth i values NaN)))
                     (nmul (Some c1) (nth j values NaN)))
               (nmul (Some c2) (nth k values NaN))
      end
  | _ => NaN
  end.

(** [griddata(points, values, xi, method='linear')] *)
Definition griddata (points : list point) (values : list num) (xi : list (num * num))
  : result (list num) :=
  if negb (Nat.eqb (List.length values) (List.length points)) then
    Raise (ValueError "different number of values and points")
  else
    tri <- Delaunay points ;;
    Ok (map (evaluate points values tri) xi).

End Scipy.

(** ** The surface interpolator *)

(** The loop [for measure in selected_measures], threading the dict
    [interpolated_data]. *)
Fixpoint for_measures (gdf : GeoDataFrame Q) (points : list point) (grid : list (num * num))
         (selected_measures : list string) (interpolated_data : list (string * list num))
  : result (list (string * list num)) :=
  match selected_measures with
  | [] => Ok interpolated_data
  | measure :: rest =>
      values <- getitem gdf measure ;;
      interpolated_values <- Scipy.griddata points values grid ;;
      for_measures gdf points grid rest (dict_set interpolated_data measure interpolated_values)
  end.

(** The body of [interpolate_point_measures] for [n] steps per axis. *)
Definition interpolate_on (n : nat) (gdf : GeoDataFrame Q) (selected_measures : list string)
  : result (GeoDataFrame num) :=
  let '(xmin, ymin, xmax, ymax) := Geopandas.total_bounds (geometry gdf) in
  let grid := Numpy.mgrid_flat xmin xmax ymin ymax n in
  let points := geometry gdf in
  interpolated_data <- for_measures gdf points grid selected_measures [] ;;
  Ok {| geometry := grid; columns := interpolated_data; crs := crs gdf |}.

(** [interpolate_point_measures gdf selected_measures], with the [500j]
    steps of the source. *)
Definition interpolate_point_measures : GeoDataFrame Q -> list string -> result (GeoDataFrame num) :=
  interpolate_on 500.

(** ** Notions used by the statements *)

(** Two coordinate pairs denote the same point. *)
Definition peq (p q : point) : Prop := fst p == fst q /\ snd p == snd q.

(** No three of the points span a triangle: the collection has fewer than
    three non-collinear points. *)
Definition collinear_set (pts : list point) : Prop :=
  forall a b c, In a pts -> In b pts -> In c pts -> orient a b c == 0.

Definition has_triangle (pts : list point) : Prop :=
  exists a b c, In a pts /\ In b pts /\ In c pts /\ ~ orient a b c == 0.

(** The convex hull of a collection: the smallest set that holds its points
    and, with two points, the segment between them. *)
Inductive in_hull (pts : list point) : point -> Prop :=
| hull_point : forall p q, In p pts -> peq p q -> in_hull pts q
| hull_segment : forall a b t q,
    in_hull pts a -> in_hull pts b -> 0 <= t -> t <= 1 ->
    fst q == (1 - t) * fst a + t * fst b ->
    snd q == (1 - t) * snd a + t * snd b ->
    in_hull pts q.

(** Squared distance from [p] to [x]; the component of [x - p] along
    [q - p] (times the length of [q - p]); and by how much the first exceeds
    the second, which is negative exactly inside the circle of diameter
    [p q]. *)
Definition dist2 (p x : point) : Q :=
  (fst x - fst p) * (fst x - fst p) + (snd x - snd p) * (snd x - snd p).

Definition along (p q x : point) : Q :=
  (fst q - fst p) * (fst x - fst p) + (snd q - snd p) * (snd x - snd p).

Definition excess (p q x : point) : Q := dist2 p x - along p q x.

(** The first requested attribute that the frame does not have. *)
Definition first_absent {C : Type} (gdf : GeoDataFrame C) (measures : list string)
  : option string :=
  find (fun m => match lookup m (columns gdf) with None => true | Some _ => false end) measures.

(** Node [k] of a grid is the point [(x, y)]. *)
Definition node_at (grid : list (num * num)) (k : nat) (x y : Q) : Prop :=
  exists x' y', nth_error grid k = Some (Some x', Some y') /\ x' == x /\ y' == y.

(** The value of attribute [m] at node [k] of an output frame. *)
Definition value_at (out : GeoDataFrame num) (m : string) (k : nat) : option num :=
  match lookup m (columns out) with
  | Some col => nth_error col k
  | None => None
  end.

(** The flattened lattice that [interpolate_on n] builds over the bounds of
    a frame. *)
Definition lattice (n : nat) (gdf : GeoDataFrame Q) : list (num * num) :=
  let '(xmin, ymin, xmax, ymax) := Geopandas.total_bounds (geometry gdf) in
  Numpy.mgrid_flat xmin xmax ymin ymax n.

(** ** Sample frames *)

Definition three_points : GeoDataFrame Q :=
  {| geometry := [(0, 0); (1, 0); (0, 1)];
     columns := [("temp"%string, [Some 10; Some 20; Some 30])];
     crs := Some 4326%Z |}.

Definition two_points : GeoDataFrame Q :=
  {| geometry := [(0, 0); (1, 1)];
     columns := [("temp"%string, [Some 10; Some 20])];
     crs := Some 4326%Z |}.

Definition one_point : GeoDataFrame Q :=
  {| geometry := [(0, 0)];
     columns := [("temp"%string, [Some 10])];
     crs := Some 4326%Z |}.

Definition no_points : GeoDataFrame Q :=
  {| geometry := []; columns := []; crs := Some 4326%Z |}.

(** Two records at the same location with different values. *)
Definition coincident_points : GeoDataFrame Q :=
  {| geometry := [(0, 0); (0, 0); (1, 0); (0, 1)];
     columns := [("temp"%string, [Some 10; Some 99; Some 20; Some 30])];
     crs := Some 4326%Z |}.

(** A record whose attribute is NaN. *)
Definition gap_points : GeoDataFrame Q :=
  {| geometry := [(0, 0); (1, 0); (0, 1)];
     columns := [("temp"%string, [Some 10; NaN; Some 30])];
     crs := Some 4326%Z |}.

(** A frame with a second attribute. *)
Definition three_points_with_clay : GeoDataFrame Q :=
  {| geometry := [(0, 0); (1, 0); (0, 1)];
     columns := [("clay"%string, [Some 5; Some 6; Some 7]);
                 ("temp"%string, [Some 10; Some 20; Some 30])];
     crs := Some 4326%Z |}.

(** ** Notions for the lattice, the columns and the values of an output *)




(** The keys of a dict filled by assigning the keys [ms] in turn: each key
    once, at the place of its first assignment. *)
Fixpoint first_occurrences (ms : list string) : list string :=
  match ms with
  | [] => []
  | m :: rest => m :: filter (fun k => negb (String.eqb k m)) (first_occurrences rest)
  end.

(** The values of a column sample the plane [a x + b y + c] at the points. *)
Definition samples_plane (a b c : Q) (pts : list point) (values : list num) : Prop :=
  forall i p, nth_error pts i = Some p ->
              exists v, nth_error values i = Some (Some v) /\ v == a * fst p + b * snd p + c.

(** [k] is not among [keys]. *)
Definition absent (keys : list string) (k : string) : bool :=
  negb (existsb (String.eqb k) keys).

(** ** Python values and their accessors *)

Module Py.

(** What [response.json()] returns: [None], a bool, a number, a str, a
    list, or a dict with str keys in insertion order. *)
#[warnings="-register-all"] Inductive json : Type :=
| JNull
| JBool (b : bool)
| JNum (q : Q)
| JStr (s : string)
| JArr (elements : list json)
| JObj (fields : list (string * json)).

(** A subscript: [obj['key']] or [obj[0]]. *)
Inductive subscript : Type :=
| Key (k : string)
| Index (i : Z).

Inductive error : Type :=
| IndexError                        (* sequence index out of range *)
| KeyError (key : subscript)        (* key absent from a dict *)
| TypeError                         (* not subscriptable, not iterable, wrong index type *)
| AttributeError                    (* no such method on the object *)
| JSONDecodeError                   (* requests: the body is not JSON *)
| RequestException (msg : string)   (* requests: the request itself failed *)
| LibraryError (msg : string).      (* raised inside shapely, geopandas or pandas *)

Inductive outcome (A : Type) : Type :=
| Return (a : A)
| Throw (e : error).
Arguments Return {A} a.
Arguments Throw {A} e.

Definition bind {A B : Type} (r : outcome A) (k : A -> outcome B) : outcome B :=
  match r with
  | Return a => k a
  | Throw e => Throw e
  end.

Fixpoint get (k : string) (fields : list (string * json)) : option json :=
  match fields with
  | [] => None
  | (k', v) :: rest => if String.eqb k' k then Some v else get k rest
  end.

(** Position [i] of a sequence of [n] elements, counting from the end when
    [i] is negative. *)
Definition position (i : Z) (n : nat) : option nat :=
  if (0 <=? i)%Z then
    if (i <? Z.of_nat n)%Z then Some (Z.to_nat i) else None
  else
    if (0 <=? i + Z.of_nat n)%Z then Some (Z.to_nat (i + Z.of_nat n)) else None.

Definition chars (s : string) : list json :=
  map (fun c => JStr (String c EmptyString)) (list_ascii_of_string s).

Definition at_position (xs : list json) (i : Z) : outcome json :=
  match position i (List.length xs) with
  | Some n =>
      match nth_error xs n with
      | Some v => Return v
      | None => Throw IndexError
      end
  | None => Throw IndexError
  end.

(** [obj[k]] *)
Definition getitem (obj : json) (k : subscript) : outcome json :=
  match obj, k with
  | JObj fields, Key key =>
      match get key fields with
      | Some v => Return v
      | None => Throw (KeyError k)
      end
  | JObj _, Index _ => Throw (KeyError k)
  | JArr xs, Index i => at_position xs i
  | JStr s, Index i => at_position (chars s) i
  | _, _ => Throw TypeError
  end.

(** [for x in obj]: the elements of a list, the keys of a dict, the
    characters of a str. *)
Definition iter (obj : json) : outcome (list json) :=
  match obj with
  | JArr xs => Return xs
  | JObj fields => Return (map (fun kv => JStr (fst kv)) fields)
  | JStr s => Return (chars s)
  | _ => Throw TypeError
  end.

(** [obj.items()] *)
Definition items (obj : json) : outcome (list (string * json)) :=
  match obj with
  | JObj fields => Return fields
  | _ => Throw AttributeError
  end.

(** [obj.keys()] *)
Definition keys (obj : json) : outcome (list string) :=
  match obj with
  | JObj fields => Return (map fst fields)
  | _ => Throw AttributeError
  end.

(** A list comprehension [[f x for x in xs]]: the elements in order, the
    first exception ends it. *)
Fixpoint comprehension {A B : Type} (f : A -> outcome B) (xs : list A) : outcome (list B) :=
  match xs with
  | [] => Return []
  | x :: rest =>
      bind (f x) (fun y => bind (comprehension f rest) (fun ys => Return (y :: ys)))
  end.

End Py.

Notation "x <~ r ;; k" := (Py.bind r (fun x => k))
  (at level 61, r at next level, right associativity).

(** ** The soil-grid service *)

Module Requests.

(** A GET request: the address and the query parameters. *)
Record Request : Type := {
  url : string;
  params : list (string * Q)
}.

(** A reply: the status code and the body, [None] when it is not JSON. *)
Record Response : Type := {
  status_code : Z;
  body : option Py.json
}.

(** [response.json()] *)
Definition json (response : Response) : Py.outcome Py.json :=
  match body response with
  | Some data => Py.Return data
  | None => Py.Throw Py.JSONDecodeError
  end.

(** The service and the network in one run: what the [n]-th call of
    [requests.get] gives for the request it sends. *)
Definition Network : Type := nat -> Request -> Py.outcome Response.

End Requests.

(** What a run leaves behind: the requests sent and the lines printed. *)
Record World : Type := {
  sent : list Requests.Request;
  stdout : list string
}.

(** [requests.get(url, params=params)] *)
Definition requests_get (net : Requests.Network) (w : World) (request : Requests.Request)
  : Py.outcome Requests.Response * World :=
  (net (List.length (sent w)) request,
   {| sent := sent w ++ [request]; stdout := stdout w |}).

Definition print (w : World) (line : string) : World :=
  {| sent := sent w; stdout := stdout w ++ [line] |}.

(** [str(n)] for an int. *)
Definition str (n : Z) : string := NilZero.string_of_int (Z.to_int n).

(** The address of the service. *)
Definition url : string := "https://isqaper.isric.org/isqaper-rest/api/1.0/query".

(** The loop [for point in points.geometry] of
    [get_all_soilgrid_for_points], threading the list [api_responses]. *)
Fixpoint for_points (net : Requests.Network) (points : list point) (w : World)
         (api_responses : list Py.json) : Py.outcome (list Py.json) * World :=
  match points with
  | [] => (Py.Return api_responses, w)
  | point :: rest =>
      let lon := fst point in
      let lat := snd point in
      let params := [("lon"%string, lon); ("lat"%string, lat)] in
      let '(response, w) :=
        requests_get net w {| Requests.url := url; Requests.params := params |} in
      match response with
      | Py.Throw e => (Py.Throw e, w)
      | Py.Return response =>
          if (Requests.status_code response =? 200)%Z then
            match Requests.json response with
            | Py.Throw e => (Py.Throw e, w)
            | Py.Return data => for_points net rest w (api_responses ++ [data])
            end
          else
            for_points net rest
                       (print w ("Error: " ++ str (Requests.status_code response)))
                       api_responses
      end
  end.

(** [get_all_soilgrid_for_points points]: the series [points] is the list
    of its points. *)
Definition get_all_soilgrid_for_points (net : Requests.Network) (points : list point)
           (w : World) : Py.outcome (list Py.json) * World :=
  for_points net points w [].

(** ** Formatting the replies *)

(** The calls into shapely and geopandas that [format_soilgrid_response]
    makes: [Point(coord)], [GeoDataFrame(geometry=..., crs=CRS.from_epsg(4326))]
    and [gdf[label] = values]. *)
Record Frames : Type := {
  Geometry : Type;
  Frame : Type;
  Point : list Py.json -> Py.outcome Geometry;
  new_frame : list Geometry -> Py.outcome Frame;
  setitem : Frame -> Py.json -> list Py.json -> Py.outcome Frame
}.

(** [api_response['features'][0]['properties']['properties']] *)
Definition feature_properties (api_response : Py.json) : Py.outcome Py.json :=
  features <~ Py.getitem api_response (Py.Key "features") ;;
  feature <~ Py.getitem features (Py.Index 0) ;;
  properties <~ Py.getitem feature (Py.Key "properties") ;;
  Py.getitem properties (Py.Key "properties").

(** [[feat['geometry']['coordinates'] for feat in api_response['features']]] *)
Definition feature_coordinates (api_response : Py.json) : Py.outcome (list Py.json) :=
  features <~ Py.getitem api_response (Py.Key "features") ;;
  feats <~ Py.iter features ;;
  Py.comprehension
    (fun feat =>
       geometry <~ Py.getitem feat (Py.Key "geometry") ;;
       Py.getitem geometry (Py.Key "coordinates"))
    feats.

(** [x['metadata']['short_description']] *)
Definition short_description (x : Py.json) : Py.outcome Py.json :=
  metadata <~ Py.getitem x (Py.Key "metadata") ;;
  Py.getitem metadata (Py.Key "short_description").

Section Format.

Variable L : Frames.
Variable api_responses : list Py.json.

(** The inner loop [for nested_key, nested_value in feat_value.items()]. *)
Fixpoint for_nested (feat_key : string) (nested : list (string * Py.json)) (gdf : Frame L)
  : Py.outcome (Frame L) :=
  match nested with
  | [] => Py.Return gdf
  | (nested_key, nested_value) :: rest =>
      values <~ Py.comprehension
                  (fun api_response =>
                     properties <~ feature_properties api_response ;;
                     group <~ Py.getitem properties (Py.Key feat_key) ;;
                     entry <~ Py.getitem group (Py.Key nested_key) ;;
                     Py.getitem entry (Py.Key "value"))
                  api_responses ;;
      label <~ short_description nested_value ;;
      gdf <~ setitem L gdf label values ;;
      for_nested feat_key rest gdf
  end.

(** The outer loop [for feat_key, feat_value in ....items()]. *)
Fixpoint for_features (features : list (string * Py.json)) (gdf : Frame L)
  : Py.outcome (Frame L) :=
  match features with
  | [] => Py.Return gdf
  | (feat_key, feat_value) :: rest =>
      feat_keys <~ Py.keys feat_value ;;
      if existsb (String.eqb "metadata") feat_keys then
        values <~ Py.comprehension
                    (fun api_response =>
                       properties <~ feature_properties api_response ;;
                       entry <~ Py.getitem properties (Py.Key feat_key) ;;
                       Py.getitem entry (Py.Key "value"))
                    api_responses ;;
        label <~ short_description feat_value ;;
        gdf <~ setitem L gdf label values ;;
        for_features rest gdf
      else
        nested <~ Py.items feat_value ;;
        gdf <~ for_nested feat_key nested gdf ;;
        for_features rest gdf
  end.

(** [format_soilgrid_response api_responses] *)
Definition format_soilgrid_response : Py.outcome (Frame L) :=
  coordinates <~ Py.comprehension feature_coordinates api_responses ;;
  geometries <~ Py.comprehension (Point L) coordinates ;;
  gdf <~ new_frame L geometries ;;
  first <~ match api_responses with
           | [] => Py.Throw Py.IndexError
           | api_response :: _ => Py.Return api_response
           end ;;
  properties <~ feature_properties first ;;
  features <~ Py.items properties ;;
  for_features features gdf.

End Format.

(** ** Notions for the soil-grid functions *)

(** The request that the loop sends for a point. *)
Definition request_for (p : point) : Requests.Request :=
  {| Requests.url := url;
     Requests.params := [("lon"%string, fst p); ("lat"%string, snd p)] |}.

(** [response.status_code == 200] *)
Definition accepted (response : Requests.Response) : bool :=
  (Requests.status_code response =? 200)%Z.

(** The bodies of the accepted replies, and the lines printed for the
    others. *)
Definition bodies (responses : list Requests.Response) : list Py.json :=
  flat_map (fun response =>
              match Requests.body response with
              | Some data => [data]
              | None => []
              end)
           (filter accepted responses).

Definition error_lines (responses : list Requests.Response) : list string :=
  map (fun response => ("Error: " ++ str (Requests.status_code response))%string)
      (filter (fun response => negb (accepted response)) responses).

(** The replies [responses] are what the network gives, call after call
    from call number [n], for the requests of [points]. *)
Fixpoint answers (net : Requests.Network) (n : nat) (points : list point)
         (responses : list Requests.Response) : Prop :=
  match points, responses with
  | [], [] => True
  | p :: points', response :: responses' =>
      net n (request_for p) = Py.Return response /\ answers net (S n) points' responses'
  | _, _ => False
  end.

(** A library that only records what it is given: the coordinate lists
    passed to [Point] and the column assignments, in order. *)
Record Recorded : Type := {
  given : list (list Py.json);
  assigned : list (Py.json * list Py.json)
}.

Definition recorder : Frames :=
  {| Geometry := list Py.json;
     Frame := Recorded;
     Point := fun coord => Py.Return coord;
     new_frame := fun geometries => Py.Return {| given := geometries; assigned := [] |};
     setitem := fun gdf label values =>
                  Py.Return {| given := given gdf;
                               assigned := assigned gdf ++ [(label, values)] |} |}.

(** [gdf[label] = values] for each of the assignments in turn. *)
Fixpoint assign_all (L : Frames) (gdf : Frame L) (assignments : list (Py.json * list Py.json))
  : Py.outcome (Frame L) :=
  match assignments with
  | [] => Py.Return gdf
  | (label, values) :: rest =>
      gdf <~ setitem L gdf label values ;;
      assign_all L gdf rest
  end.

(** ['metadata' in x.keys()] holds. *)
Definition has_metadata (x : Py.json) : bool :=
  match x with
  | Py.JObj fields => existsb (String.eqb "metadata") (map fst fields)
  | _ => false
  end.

(** The entry of a response that a column is read from: the property
    [feat_key], or the entry [nested_key] of the group [feat_key]. *)
Definition entry_at (feat_key : string) (nested_key : option string) (api_response : Py.json)
  : Py.outcome Py.json :=
  properties <~ feature_properties api_response ;;
  entry <~ Py.getitem properties (Py.Key feat_key) ;;
  match nested_key with
  | None => Py.Return entry
  | Some nested_key => Py.getitem entry (Py.Key nested_key)
  end.

Definition value_in (feat_key : string) (nested_key : option string) (api_response : Py.json)
  : Py.outcome Py.json :=
  entry <~ entry_at feat_key nested_key api_response ;;
  Py.getitem entry (Py.Key "value").

(** The columns that the properties of the first response call for: one
    for a property that carries metadata, and one for each entry of a
    property that does not. *)
Definition column_sources (features : list (string * Py.json))
  : list (string * option string * Py.json) :=
  flat_map (fun kv =>
              if has_metadata (snd kv) then [(fst kv, None, snd kv)]
              else match snd kv with
                   | Py.JObj nested =>
                       map (fun nkv => (fst kv, Some (fst nkv), snd nkv)) nested
                   | _ => []
                   end)
           features.

(** The assignment [(label, values)] is the column of the source
    [(feat_key, nested_key, source)]: the label is the short description of
    the source, and the values are read, response by response, at the
    place of the source. *)
Definition column_of (api_responses : list Py.json)
           (s : string * option string * Py.json) (a : Py.json * list Py.json) : Prop :=
  short_description (snd s) = Py.Return (fst a) /\
  Forall2 (fun api_response v => value_in (fst (fst s)) (snd (fst s)) api_response = Py.Return v)
          api_responses (snd a).

(** ** Sample replies *)

(** A reply of the shape that [format_soilgrid_response] reads: one
    feature, a property with metadata and a group of such properties. *)
Definition described (description : string) (value : Q) : Py.json :=
  Py.JObj [("metadata"%string, Py.JObj [("short_description"%string, Py.JStr description)]);
           ("value"%string, Py.JNum value)].

Definition sample_response (lon lat ph clay sand : Q) : Py.json :=
  Py.JObj
    [("type"%string, Py.JStr "FeatureCollection");
     ("features"%string,
      Py.JArr
        [Py.JObj
           [("geometry"%string,
             Py.JObj [("type"%string, Py.JStr "Point");
                      ("coordinates"%string, Py.JArr [Py.JNum lon; Py.JNum lat])]);
            ("properties"%string,
             Py.JObj
               [("properties"%string,
                 Py.JObj
                   [("ph"%string, described "pH in water" ph);
                    ("texture"%string,
                     Py.JObj [("clay"%string, described "Clay content" clay);
                              ("sand"%string, described "Sand content" sand)])])])]])].

(** A network that answers the first and the third call, rejects the
    second, answers the fourth with a body that is not JSON, and is down
    afterwards. *)
Definition sample_network : Requests.Network :=
  fun n request =>
    match n with
    | 0%nat => Py.Return {| Requests.status_code := 200;
                            Requests.body := Some (sample_response 5 52 (13 # 2) 20 40) |}
    | 1%nat => Py.Return {| Requests.status_code := 404; Requests.body := None |}
    | 2%nat => Py.Return {| Requests.status_code := 200;
                            Requests.body := Some (sample_response 6 53 7 30 50) |}
    | 3%nat => Py.Return {| Requests.status_code := 200; Requests.body := None |}
    | _ => Py.Throw (Py.RequestException "connection refused")
    end.

(** A network that rejects every call. *)
Definition unavailable : Requests.Network :=
  fun n request => Py.Return {| Requests.status_code := 503; Requests.body := None |}.

(** Nothing sent and nothing printed yet. *)
Definition quiet : World := {| sent := []; stdout := [] |}.

Definition sample_points : list point := [(5, 52); (5, 53); (6, 53)].

(** A small stand-in for shapely and geopandas, used to run the formatter:
    a point from one coordinate pair, columns under string labels. *)
Record Table : Type := {
  table_points : list point;
  table_columns : list (string * list Py.json)
}.

(** A column under an existing label is replaced in place, a new one is
    added last. *)
Fixpoint set_column (cols : list (string * list Py.json)) (label : string)
         (values : list Py.json) : list (string * list Py.json) :=
  match cols with
  | [] => [(label, values)]
  | (k, v) :: rest =>
      if String.eqb k label then (k, values) :: rest
      else (k, v) :: set_column rest label values
  end.

Definition table : Frames :=
  {| Geometry := point;
     Frame := Table;
     Point := fun coord =>
                match coord with
                | [Py.JArr [Py.JNum x; Py.JNum y]] => Py.Return (x, y)
                | _ => Py.Throw (Py.LibraryError "Point() takes one coordinate pair")
                end;
     new_frame := fun geometries =>
                    Py.Return {| table_points := geometries; table_columns := [] |};
     setitem := fun gdf label values =>
                  match label with
                  | Py.JStr name =>
                      if Nat.eqb (List.length values) (List.length (table_points gdf)) then
                        Py.Return {| table_points := table_points gdf;
                                     table_columns := set_column (table_columns gdf) name values |}
                      else Py.Throw (Py.LibraryError "Length of values does not match length of index")
                  | _ => Py.Throw (Py.LibraryError "label")
                  end |}.

(** * Properties *)

(** ** Arithmetic helpers *)

Lemma Qltb_lt (x y : Q) : Qltb x y = true <-> x < y.
Proof.
  unfold Qltb. rewrite negb_true_iff. split; intro H.
  - apply Qnot_le_lt. intro L. apply Qle_bool_iff in L. congruence.
  - destruct (Qle_bool y x) eqn:E; trivial.
    apply Qle_bool_iff in E. lra.
Qed.


Lemma of_nat_S (n : nat) : of_nat (S n) == of_nat n + 1.
Proof.
  unfold of_nat. rewrite Nat2Z.inj_succ. unfold Z.succ.
  rewrite inject_Z_plus. reflexivity.
Qed.

Lemma of_nat_0 : of_nat 0 == 0.
Proof. reflexivity. Qed.



(** ** Points up to equality of their coordinates *)

Lemma orient_peq (a b c a' b' c' : point) :
  peq a a' -> peq b b' -> peq c c' -> orient a b c == orient a' b' c'.
Proof.
  intros [Ha1 Ha2] [Hb1 Hb2] [Hc1 Hc2]. unfold orient.
  rewrite Ha1, Ha2, Hb1, Hb2, Hc1, Hc2. reflexivity.
Qed.

Lemma peq_refl (p : point) : peq p p.
Proof. split; reflexivity. Qed.

Lemma peq_sym (p q : point) : peq p q -> peq q p.
Proof. intros [H1 H2]. split; symmetry; assumption. Qed.




(** ** The loops of the grid generator *)

Section Loops.

Variable poly : Shapely.Polygon.
Variables maxy resolution_m : Q.

(** More fuel does not change what the inner loop returns. *)
Lemma inner_while_mono :
  forall fuel fuel' x y acc out,
    (fuel <= fuel')%nat ->
    inner_while fuel poly x y maxy resolution_m acc = Some out ->
    inner_while fuel' poly x y maxy resolution_m acc = Some out.
Proof.
  induction fuel as [|fuel IH]; intros fuel' x y acc out Hle H; [discriminate|].
  destruct fuel' as [|fuel']; [lia|].
  simpl in *. destruct (Qltb y maxy); [|exact H].
  apply IH; [lia | exact H].
Qed.

(** What the inner loop appends: nodes of the column [x], at whole
    multiples of the resolution above [y], below [maxy], each of them
    contained in the polygon. *)
Lemma inner_while_spec :
  forall fuel x y acc out,
    inner_while fuel poly x y maxy resolution_m acc = Some out ->
    exists added,
      out = acc ++ added /\
      Forall (fun p => Shapely.contains poly p = true /\ fst p = x /\
                       snd p < maxy /\
                       exists j : nat, snd p == y + of_nat j * resolution_m) added.
Proof.
  induction fuel as [|fuel IH]; intros x y acc out H; [discriminate|].
  simpl in H. destruct (Qltb y maxy) eqn:Hy.
  - apply IH in H. destruct H as (added & -> & Hall).
    assert (Hshift : Forall (fun p => Shapely.contains poly p = true /\ fst p = x /\
                       snd p < maxy /\
                       exists j : nat, snd p == y + of_nat j * resolution_m) added).
    { eapply Forall_impl; [|exact Hall]. cbv beta.
      intros p (Hc & Hx & Hm & j & Hj). repeat split; trivial.
      exists (S j). rewrite Hj, of_nat_S. ring. }
    destruct (Shapely.contains poly (x, y)) eqn:Hc.
    + exists ((x, y) :: added). split; [rewrite <- app_assoc; reflexivity|].
      constructor; [|exact Hshift]. simpl. repeat split; trivial.
      * apply Qltb_lt; exact Hy.
      * exists O. rewrite of_nat_0. ring.
    + exists added. split; [reflexivity | exact Hshift].
  - injection H as <-. exists []. split; [symmetry; apply app_nil_r | constructor].
Qed.




Variables miny maxx : Q.

Lemma outer_while_mono :
  forall fuel fuel' x acc out,
    (fuel <= fuel')%nat ->
    outer_while fuel poly x miny maxx maxy resolution_m acc = Some out ->
    outer_while fuel' poly x miny maxx maxy resolution_m acc = Some out.
Proof.
  induction fuel as [|fuel IH]; intros fuel' x acc out Hle H; [discriminate|].
  destruct fuel' as [|fuel']; [lia|].
  simpl in *. destruct (Qltb x maxx); [|exact H].
  destruct (inner_while fuel poly x miny maxy resolution_m acc) as [acc'|] eqn:Hin;
    [|discriminate].
  rewrite (inner_while_mono fuel fuel' x miny acc acc') by (trivial; lia).
  apply IH; [lia | exact H].
Qed.

(** What the two loops append: lattice nodes [(x + i r, miny + j r)] inside
    the bounding box, each of them contained in the polygon. *)
Lemma outer_while_spec :
  forall fuel x acc out,
    outer_while fuel poly x miny maxx maxy resolution_m acc = Some out ->
    exists added,
      out = acc ++ added /\
      Forall (fun p => Shapely.contains poly p = true /\
                       fst p < maxx /\ snd p < maxy /\
                       exists i j : nat,
                         fst p == x + of_nat i * resolution_m /\
                         snd p == miny + of_nat j * resolution_m) added.
Proof.
  induction fuel as [|fuel IH]; intros x acc out H; [discriminate|].
  simpl in H. destruct (Qltb x maxx) eqn:Hx.
  - destruct (inner_while fuel poly x miny maxy resolution_m acc) as [acc'|] eqn:Hin;
      [|discriminate].
    apply inner_while_spec in Hin. destruct Hin as (col & -> & Hcol).
    apply IH in H. destruct H as (added & -> & Hall).
    exists (col ++ added). split; [rewrite app_assoc; reflexivity|].
    apply Forall_app. split.
    + eapply Forall_impl; [|exact Hcol]. cbv beta.
      intros p (Hc & Hpx & Hm & j & Hj). repeat split; trivial.
      * rewrite Hpx. apply Qltb_lt; exact Hx.
      * exists O, j. split; [|exact Hj].
        rewrite Hpx, of_nat_0. ring.
    + eapply Forall_impl; [|exact Hall]. cbv beta.
      intros p (Hc & Hbx & Hby & i & j & Hi & Hj). repeat split; trivial.
      exists (S i), j. split; [|exact Hj].
      rewrite Hi, of_nat_S. ring.
  - injection H as <-. exists []. split; [symmetry; apply app_nil_r | constructor].
Qed.




End Loops.

(** ** The grid generator *)

Lemma grid_points_3857_mono (fuel fuel' : nat) (poly : Shapely.Polygon) (r : Q) (out : list point) :
  (fuel <= fuel')%nat ->
  grid_points_3857 fuel poly r = Some out ->
  grid_points_3857 fuel' poly r = Some out.
Proof.
  unfold grid_points_3857. intros Hle.
  destruct (Shapely.bounds poly) as [[[[minx miny] maxx] maxy]|]; [|trivial].
  apply outer_while_mono; exact Hle.
Qed.

(** The result of the loops does not depend on the fuel that was enough. *)
Lemma grid_points_3857_fuel_irrelevant (fuel1 fuel2 : nat) (poly : Shapely.Polygon) (r : Q)
      (out1 out2 : list point) :
  grid_points_3857 fuel1 poly r = Some out1 ->
  grid_points_3857 fuel2 poly r = Some out2 ->
  out1 = out2.
Proof.
  intros H1 H2.
  apply (grid_points_3857_mono fuel1 (Nat.max fuel1 fuel2)) in H1; [|lia].
  apply (grid_points_3857_mono fuel2 (Nat.max fuel1 fuel2)) in H2; [|lia].
  congruence.
Qed.


(** Every collected node is a lattice node anchored at the minimum corner
    of the bounding box, and the polygon contains it. *)
Lemma grid_points_3857_spec (fuel : nat) (poly : Shapely.Polygon) (r : Q) (out : list point) :
  grid_points_3857 fuel poly r = Some out ->
  forall n, In n out ->
    Shapely.contains poly n = true /\
    exists minx miny maxx maxy (i j : nat),
      Shapely.bounds poly = Some (minx, miny, maxx, maxy) /\
      fst n == minx + of_nat i * r /\ snd n == miny + of_nat j * r /\
      fst n < maxx /\ snd n < maxy.
Proof.
  unfold grid_points_3857.
  destruct (Shapely.bounds poly) as [[[[minx miny] maxx] maxy]|].
  - intro H. apply outer_while_spec in H. destruct H as (added & -> & Hall).
    simpl. intros n Hn. rewrite Forall_forall in Hall.
    destruct (Hall n Hn) as (Hc & Hx & Hy & i & j & Hi & Hj).
    split; [exact Hc|]. exists minx, miny, maxx, maxy, i, j. tauto.
  - intros [= <-] n [].
Qed.

Lemma grid_points_3857_contained (fuel : nat) (poly : Shapely.Polygon) (r : Q) (out : list point) :
  grid_points_3857 fuel poly r = Some out ->
  forall n, In n out -> Shapely.contains poly n = true.
Proof.
  intros H n Hn. apply (grid_points_3857_spec fuel poly r out H n Hn).
Qed.


(** The function is the planar stage followed by the transformation back. *)
Lemma polygon_binning_to_points_stages (T : Transformer) (fuel : nat)
      (P : Shapely.Polygon) (rest : list Shapely.Polygon) (r : Q) (out : list point) :
  polygon_binning_to_points T fuel (P :: rest) r = Some (Ok out) <->
  exists nodes,
    grid_points_3857 fuel (to_crs (to_3857 T) P) r = Some nodes /\
    out = map (to_4326 T) nodes.
Proof.
  unfold polygon_binning_to_points.
  destruct (grid_points_3857 fuel (to_crs (to_3857 T) P) r) as [nodes|]; split.
  - intros [= <-]. eauto.
  - intros (nodes' & [= <-] & ->). reflexivity.
  - discriminate.
  - intros (nodes' & [=] & _).
Qed.




(** *** The geographic frame *)

Section Visits.

Variable poly : Shapely.Polygon.
Variables maxy resolution_m : Q.


Variables miny maxx : Q.


End Visits.

















(** C8. Two runs on the same polygon and resolution return the same points
    in the same order: the outcome does not depend on how many loop
    iterations either run was allowed. *)
Theorem polygon_binning_deterministic :
  forall (T : Transformer) (gdf : list Shapely.Polygon) (r : Q)
         (fuel1 fuel2 : nat) (res1 res2 : result (list point)),
    polygon_binning_to_points T fuel1 gdf r = Some res1 ->
    polygon_binning_to_points T fuel2 gdf r = Some res2 ->
    res1 = res2.
Proof.
  intros T gdf r fuel1 fuel2 res1 res2. unfold polygon_binning_to_points.
  destruct gdf as [|P rest]; [congruence|].
  destruct (grid_points_3857 fuel1 (to_crs (to_3857 T) P) r) as [n1|] eqn:H1; [|discriminate].
  destruct (grid_points_3857 fuel2 (to_crs (to_3857 T) P) r) as [n2|] eqn:H2; [|discriminate].
  intros [= <-] [= <-].
  rewrite (grid_points_3857_fuel_irrelevant _ _ _ _ _ _ H1 H2). reflexivity.
Qed.

Lemma polygon_binning_deterministic_witness :
  exists res1 res2,
    polygon_binning_to_points (scale_transformer 100) 9 [unit_square] 40 = Some res1 /\
    polygon_binning_to_points (scale_transformer 100) 30 [unit_square] 40 = Some res2 /\
    res1 = res2.
Proof.
  eexists. eexists.
  split; [vm_compute; reflexivity|].
  split; [vm_compute; reflexivity|].
  apply (polygon_binning_deterministic (scale_transformer 100) [unit_square] 40 9 30);
    vm_compute; reflexivity.
Defined.

(** The containment test on the unit square: an interior point, a corner, a
    point of an edge and an outer point. *)
Example contains_unit_square :
  Shapely.contains unit_square (1 # 2, 1 # 3) = true /\
  Shapely.contains unit_square (0, 0) = false /\
  Shapely.contains unit_square (1, 1 # 2) = false /\
  Shapely.contains unit_square (1 # 2, 0) = false /\
  Shapely.contains unit_square (3 # 2, 1 # 2) = false /\
  Shapely.contains unit_square (-1 # 2, 1 # 2) = false.
Proof. repeat split. Qed.

(** C10. The containment test is boundary-exclusive: the returned points
    are the images of the collected lattice nodes, a node on the boundary of
    the projected polygon is never among them, and each of them is in the
    polygon's interior. *)
Theorem polygon_binning_excludes_boundary :
  forall (T : Transformer) (fuel : nat) (P : Shapely.Polygon) (rest : list Shapely.Polygon)
         (r : Q) (out : list point),
    polygon_binning_to_points T fuel (P :: rest) r = Some (Ok out) ->
    exists nodes,
      grid_points_3857 fuel (to_crs (to_3857 T) P) r = Some nodes /\
      out = map (to_4326 T) nodes /\
      (forall n, Shapely.on_boundary (to_crs (to_3857 T) P) n = true -> ~ In n nodes) /\
      (forall n, In n nodes ->
                 Shapely.on_boundary (to_crs (to_3857 T) P) n = false /\
                 Nat.odd (Shapely.crossings (to_crs (to_3857 T) P) n) = true).
Proof.
  intros T fuel P rest r out H.
  apply polygon_binning_to_points_stages in H. destruct H as (nodes & Hn & ->).
  exists nodes. split; [exact Hn | split; [reflexivity|]].
  assert (Hin : forall n, In n nodes ->
                   Shapely.on_boundary (to_crs (to_3857 T) P) n = false /\
                   Nat.odd (Shapely.crossings (to_crs (to_3857 T) P) n) = true).
  { intros n Hin. pose proof (grid_points_3857_contained _ _ _ _ Hn n Hin) as Hc.
    unfold Shapely.contains in Hc. apply andb_true_iff in Hc. destruct Hc as [Hb Ho].
    apply negb_true_iff in Hb. tauto. }
  split; [|exact Hin].
  intros n Hb Hn'. apply Hin in Hn'. destruct Hn' as [Hb' _]. congruence.
Qed.

Lemma polygon_binning_excludes_boundary_witness :
  exists nodes,
    grid_points_3857 30 (to_crs (to_3857 (scale_transformer 100)) unit_square) 50 = Some nodes /\
    [(50 / 100, 50 / 100)] = map (to_4326 (scale_transformer 100)) nodes /\
    (forall n, Shapely.on_boundary (to_crs (to_3857 (scale_transformer 100)) unit_square) n = true ->
               ~ In n nodes) /\
    (forall n, In n nodes ->
               Shapely.on_boundary (to_crs (to_3857 (scale_transformer 100)) unit_square) n = false /\
               Nat.odd (Shapely.crossings (to_crs (to_3857 (scale_transformer 100)) unit_square) n)
               = true).
Proof.
  apply (polygon_binning_excludes_boundary (scale_transformer 100) 30 unit_square [] 50).
  vm_compute. reflexivity.
Defined.

(** ** The lattice of the interpolator *)

Lemma axis_length (start stop : num) (n : nat) :
  List.length (Numpy.axis start stop n) = n.
Proof.
  unfold Numpy.axis. rewrite length_map, length_seq. reflexivity.
Qed.

Lemma axis_nth_error (start stop : num) (n i : nat) :
  (i < n)%nat ->
  nth_error (Numpy.axis start stop n) i
  = Some (nadd (nmul (Some (of_nat i))
                     (if Nat.eqb n 1 then Some 1
                      else ndiv (nsub stop start) (Some (of_nat (n - 1)))))
               start).
Proof.
  intro Hi. unfold Numpy.axis.
  rewrite nth_error_map, nth_error_seq.
  destruct (Nat.ltb_spec i n); [reflexivity | lia].
Qed.

(** Rows of equal length, laid end to end. *)
Lemma flat_map_rows_length {A B : Type} (f : A -> list B) (n : nat) (l : list A) :
  (forall a, List.length (f a) = n) ->
  List.length (flat_map f l) = (List.length l * n)%nat.
Proof.
  intro Hf. induction l as [|a l IH]; [reflexivity|].
  simpl. rewrite length_app, Hf, IH. reflexivity.
Qed.

Lemma flat_map_rows_nth_error {A B : Type} (f : A -> list B) (n : nat) (l : list A) :
  (forall a, List.length (f a) = n) ->
  forall i j a,
    nth_error l i = Some a -> (j < n)%nat ->
    nth_error (flat_map f l) (i * n + j) = nth_error (f a) j.
Proof.
  intro Hf. induction l as [|a0 l IH]; intros i j a Hi Hj.
  - destruct i; discriminate.
  - destruct i as [|i]; simpl in Hi.
    + injection Hi as ->. simpl. rewrite nth_error_app1; [reflexivity | rewrite Hf; exact Hj].
    + cbn [flat_map]. rewrite nth_error_app2; rewrite Hf; [|simpl; lia].
      replace (S i * n + j - n)%nat with (i * n + j)%nat by (simpl; lia).
      apply IH; assumption.
Qed.

Lemma mgrid_flat_length (xmin xmax ymin ymax : num) (n : nat) :
  List.length (Numpy.mgrid_flat xmin xmax ymin ymax n) = (n * n)%nat.
Proof.
  unfold Numpy.mgrid_flat.
  rewrite (flat_map_rows_length _ n).
  - rewrite axis_length. reflexivity.
  - intro a. rewrite length_map. apply axis_length.
Qed.

(** Node [i * n + j] of the flattened lattice pairs node [i] of the first
    axis with node [j] of the second. *)
Lemma mgrid_flat_nth_error (xmin xmax ymin ymax : num) (n i j : nat) (x y : num) :
  nth_error (Numpy.axis xmin xmax n) i = Some x ->
  nth_error (Numpy.axis ymin ymax n) j = Some y ->
  nth_error (Numpy.mgrid_flat xmin xmax ymin ymax n) (i * n + j) = Some (x, y).
Proof.
  intros Hx Hy. unfold Numpy.mgrid_flat.
  assert (Hj : (j < n)%nat).
  { rewrite <- (axis_length ymin ymax n). apply nth_error_Some. congruence. }
  rewrite (flat_map_rows_nth_error _ n _ (fun a => eq_trans (length_map _ _) (axis_length _ _ _))
             i j x Hx Hj).
  rewrite nth_error_map, Hy. reflexivity.
Qed.

(** The four corners of a lattice with at least two steps per axis. *)
Lemma mgrid_flat_corners (xmin xmax ymin ymax : Q) (n : nat) :
  (2 <= n)%nat ->
  let grid := Numpy.mgrid_flat (Some xmin) (Some xmax) (Some ymin) (Some ymax) n in
  node_at grid 0 xmin ymin /\
  node_at grid (n - 1) xmin ymax /\
  node_at grid ((n - 1) * n) xmax ymin /\
  node_at grid ((n - 1) * n + (n - 1)) xmax ymax.
Proof.
  intros Hn grid.
  assert (Hne : Nat.eqb n 1 = false) by (apply Nat.eqb_neq; lia).
  assert (Hd : ~ of_nat (n - 1) == 0).
  { unfold of_nat. change 0 with (inject_Z 0). rewrite inject_Z_injective. lia. }
  assert (H0 : forall a b, nth_error (Numpy.axis (Some a) (Some b) n) 0
                           = Some (Some (of_nat 0 * ((b - a) / of_nat (n - 1)) + a))).
  { intros a b. rewrite axis_nth_error by lia. rewrite Hne. reflexivity. }
  assert (H1 : forall a b, nth_error (Numpy.axis (Some a) (Some b) n) (n - 1)
                           = Some (Some (of_nat (n - 1) * ((b - a) / of_nat (n - 1)) + a))).
  { intros a b. rewrite axis_nth_error by lia. rewrite Hne. reflexivity. }
  assert (E0 : forall a b, of_nat 0 * ((b - a) / of_nat (n - 1)) + a == a).
  { intros a b. rewrite of_nat_0. field. exact Hd. }
  assert (E1 : forall a b, of_nat (n - 1) * ((b - a) / of_nat (n - 1)) + a == b).
  { intros a b. field. exact Hd. }
  unfold node_at, grid. repeat split.
  - eexists. eexists. split; [|split; [apply (E0 xmin xmax) | apply (E0 ymin ymax)]].
    apply (mgrid_flat_nth_error _ _ _ _ n 0 0); apply H0.
  - eexists. eexists. split; [|split; [apply (E0 xmin xmax) | apply (E1 ymin ymax)]].
    apply (mgrid_flat_nth_error _ _ _ _ n 0 (n - 1)); [apply H0 | apply H1].
  - eexists. eexists. split; [|split; [apply (E1 xmin xmax) | apply (E0 ymin ymax)]].
    replace ((n - 1) * n)%nat with ((n - 1) * n + 0)%nat by lia.
    apply (mgrid_flat_nth_error _ _ _ _ n (n - 1) 0); [apply H1 | apply H0].
  - eexists. eexists. split; [|split; [apply (E1 xmin xmax) | apply (E1 ymin ymax)]].
    apply (mgrid_flat_nth_error _ _ _ _ n (n - 1) (n - 1)); apply H1.
Qed.

(** Without bounds every node of the lattice is undefined. *)
Lemma mgrid_flat_nan (n : nat) :
  Forall (fun g => g = (NaN, NaN)) (Numpy.mgrid_flat NaN NaN NaN NaN n).
Proof.
  assert (Hax : Forall (fun x => x = NaN) (Numpy.axis NaN NaN n)).
  { unfold Numpy.axis. apply Forall_forall. intros x Hx.
    apply in_map_iff in Hx. destruct Hx as (i & <- & _).
    destruct (Nat.eqb n 1); reflexivity. }
  unfold Numpy.mgrid_flat. apply Forall_forall. intros g Hg.
  apply in_flat_map in Hg. destruct Hg as (x & Hx & Hg).
  apply in_map_iff in Hg. destruct Hg as (y & <- & Hy).
  rewrite Forall_forall in Hax. rewrite (Hax x Hx), (Hax y Hy). reflexivity.
Qed.

(** ** The bounding box *)

Lemma fold_left_Qmin_le (l : list Q) (x : Q) :
  fold_left Qmin l x <= x /\ forall a, In a l -> fold_left Qmin l x <= a.
Proof.
  revert x. induction l as [|b l IH]; intro x; simpl.
  - split; [lra | intros a []].
  - destruct (IH (Qmin x b)) as [H1 H2].
    pose proof (Q.le_min_l x b). pose proof (Q.le_min_r x b).
    split; [lra|]. intros a [<-|Ha]; [lra | auto].
Qed.

Lemma fold_left_Qmax_ge (l : list Q) (x : Q) :
  x <= fold_left Qmax l x /\ forall a, In a l -> a <= fold_left Qmax l x.
Proof.
  revert x. induction l as [|b l IH]; intro x; simpl.
  - split; [lra | intros a []].
  - destruct (IH (Qmax x b)) as [H1 H2].
    pose proof (Q.le_max_l x b). pose proof (Q.le_max_r x b).
    split; [lra|]. intros a [<-|Ha]; [lra | auto].
Qed.

Lemma nanmin_spec (xs : list Q) :
  xs <> [] -> exists m, Geopandas.nanmin xs = Some m /\ forall a, In a xs -> m <= a.
Proof.
  destruct xs as [|x l]; [congruence|]. intros _.
  exists (fold_left Qmin l x). split; [reflexivity|].
  destruct (fold_left_Qmin_le l x) as [H1 H2]. intros a [<-|Ha]; auto.
Qed.

Lemma nanmax_spec (xs : list Q) :
  xs <> [] -> exists m, Geopandas.nanmax xs = Some m /\ forall a, In a xs -> a <= m.
Proof.
  destruct xs as [|x l]; [congruence|]. intros _.
  exists (fold_left Qmax l x). split; [reflexivity|].
  destruct (fold_left_Qmax_ge l x) as [H1 H2]. intros a [<-|Ha]; auto.
Qed.

(** The bounds of a non-empty collection are numbers, and the box they
    define holds every point of the collection. *)
Lemma total_bounds_spec (pts : list point) :
  pts <> [] ->
  exists xmin ymin xmax ymax,
    Geopandas.total_bounds pts = (Some xmin, Some ymin, Some xmax, Some ymax) /\
    forall p, In p pts -> xmin <= fst p <= xmax /\ ymin <= snd p <= ymax.
Proof.
  intro Hne. unfold Geopandas.total_bounds.
  assert (Hx : map fst pts <> []) by (destruct pts; [congruence | discriminate]).
  assert (Hy : map snd pts <> []) by (destruct pts; [congruence | discriminate]).
  destruct (nanmin_spec _ Hx) as (xmin & -> & Hxmin).
  destruct (nanmin_spec _ Hy) as (ymin & -> & Hymin).
  destruct (nanmax_spec _ Hx) as (xmax & -> & Hxmax).
  destruct (nanmax_spec _ Hy) as (ymax & -> & Hymax).
  exists xmin, ymin, xmax, ymax. split; [reflexivity|].
  intros p Hp.
  pose proof (in_map fst _ _ Hp). pose proof (in_map snd _ _ Hp).
  repeat split; auto.
Qed.

(** ** Columns and dicts *)

Lemma lookup_dict_set_same (d : list (string * list num)) (k : string) (v : list num) :
  lookup k (dict_set d k v) = Some v.
Proof.
  induction d as [|[k' v'] d IH]; simpl.
  - rewrite String.eqb_refl. reflexivity.
  - destruct (String.eqb k' k) eqn:E; simpl; rewrite E; [reflexivity | exact IH].
Qed.

Lemma lookup_dict_set_other (d : list (string * list num)) (k k' : string) (v : list num) :
  k' <> k -> lookup k' (dict_set d k v) = lookup k' d.
Proof.
  intro Hne. induction d as [|[k0 v0] d IH]; simpl.
  - destruct (String.eqb_spec k k'); [congruence | reflexivity].
  - destruct (String.eqb_spec k0 k) as [->|Hk]; simpl.
    + destruct (String.eqb_spec k k'); [congruence | reflexivity].
    + destruct (String.eqb k0 k'); [reflexivity | exact IH].
Qed.

Lemma in_dict_set (d : list (string * list num)) (k : string) (v : list num)
      (name : string) (col : list num) :
  In (name, col) (dict_set d k v) -> (name, col) = (k, v) \/ In (name, col) d.
Proof.
  induction d as [|[k0 v0] d IH]; simpl.
  - intros [H|[]]. left. congruence.
  - destruct (String.eqb_spec k0 k) as [->|Hk]; simpl.
    + intros [H|H]; [left; congruence | right; right; exact H].
    + intros [H|H]; [right; left; exact H|].
      destruct (IH H); [left | right; right]; assumption.
Qed.

Lemma lookup_in (cols : list (string * list num)) (name : string) (col : list num) :
  lookup name cols = Some col -> In (name, col) cols.
Proof.
  induction cols as [|[k v] cols IH]; simpl; [discriminate|].
  destruct (String.eqb_spec k name) as [->|Hk].
  - intros [= ->]. left. reflexivity.
  - intro H. right. exact (IH H).
Qed.

(** ** Triangulation *)

Lemma triples_spec (n i j k : nat) :
  In (i, j, k) (Scipy.triples n) <-> (i < j /\ j < k /\ k < n)%nat.
Proof.
  unfold Scipy.triples. rewrite in_flat_map. split.
  - intros (i' & Hi & H). apply in_flat_map in H. destruct H as (j' & Hj & H).
    apply in_map_iff in H. destruct H as (k' & [= -> -> ->] & Hk).
    apply in_seq in Hi, Hj, Hk. lia.
  - intros (Hij & Hjk & Hkn). exists i. split; [apply in_seq; lia|].
    apply in_flat_map. exists j. split; [apply in_seq; lia|].
    apply in_map_iff. exists k. split; [reflexivity | apply in_seq; lia].
Qed.

Lemma vertex_in (pts : list point) (i : nat) :
  (i < List.length pts)%nat -> In (Scipy.vertex pts i) pts.
Proof. intro Hi. apply nth_In. exact Hi. Qed.

Lemma in_vertex (pts : list point) (a : point) :
  In a pts -> exists i, (i < List.length pts)%nat /\ Scipy.vertex pts i = a.
Proof. intro Ha. apply (In_nth pts a (0, 0)) in Ha. exact Ha. Qed.

Lemma orient_swap12 (a b c : point) : orient b a c == - orient a b c.
Proof. unfold orient. ring. Qed.

Lemma orient_swap23 (a b c : point) : orient a c b == - orient a b c.
Proof. unfold orient. ring. Qed.

Lemma orient_same12 (a c : point) : orient a a c == 0.
Proof. unfold orient. ring. Qed.

Lemma orient_same13 (a b : point) : orient a b a == 0.
Proof. unfold orient. ring. Qed.

Lemma orient_same23 (a b : point) : orient a b b == 0.
Proof. unfold orient. ring. Qed.

Lemma flat_false (pts : list point) (i j k : nat) :
  Scipy.flat pts (i, j, k) = false <->
  ~ orient (Scipy.vertex pts i) (Scipy.vertex pts j) (Scipy.vertex pts k) == 0.
Proof.
  unfold Scipy.flat. rewrite <- Qeq_bool_iff.
  destruct (Qeq_bool _ _); split; congruence.
Qed.

(** Three points that span a triangle sit at three distinct indices; in
    increasing order these form a triple that is not flat. *)
Lemma has_triangle_triple (pts : list point) :
  has_triangle pts ->
  exists s, In s (Scipy.triples (List.length pts)) /\ Scipy.flat pts s = false.
Proof.
  intros (a & b & c & Ha & Hb & Hc & Ho).
  apply in_vertex in Ha, Hb, Hc.
  destruct Ha as (i & Hi & <-), Hb as (j & Hj & <-), Hc as (k & Hk & <-).
  assert (Hij : i <> j) by (intros ->; apply Ho, orient_same12).
  assert (Hik : i <> k) by (intros ->; apply Ho, orient_same13).
  assert (Hjk : j <> k) by (intros ->; apply Ho, orient_same23).
  set (A := Scipy.vertex pts i) in *. set (B := Scipy.vertex pts j) in *.
  set (C := Scipy.vertex pts k) in *.
  pose proof (orient_swap12 A B C). pose proof (orient_swap23 A B C).
  pose proof (orient_swap12 A C B). pose proof (orient_swap23 B A C).
  pose proof (orient_swap12 B C A). pose proof (orient_swap23 C A B).
  pose proof (orient_swap12 C A B). pose proof (orient_swap23 B C A).
  assert (Cases : (i < j < k \/ i < k < j \/ j < i < k \/ j < k < i \/ k < i < j \/ k < j < i)%nat)
    by lia.
  destruct Cases as [Hc|[Hc|[Hc|[Hc|[Hc|Hc]]]]].
  - exists (i, j, k). split; [apply triples_spec; lia | apply flat_false; exact Ho].
  - exists (i, k, j). split; [apply triples_spec; lia | apply flat_false; fold A B C; lra].
  - exists (j, i, k). split; [apply triples_spec; lia | apply flat_false; fold A B C; lra].
  - exists (j, k, i). split; [apply triples_spec; lia | apply flat_false; fold A B C; lra].
  - exists (k, i, j). split; [apply triples_spec; lia | apply flat_false; fold A B C; lra].
  - exists (k, j, i). split; [apply triples_spec; lia | apply flat_false; fold A B C; lra].
Qed.

Lemma collinear_set_all_flat (pts : list point) :
  collinear_set pts ->
  filter (fun s => negb (Scipy.flat pts s)) (Scipy.triples (List.length pts)) = [].
Proof.
  intro Hcol.
  destruct (filter _ _) as [|[[i j] k] l] eqn:E; [reflexivity|].
  assert (Hin : In (i, j, k) (filter (fun s => negb (Scipy.flat pts s))
                                     (Scipy.triples (List.length pts))))
    by (rewrite E; left; reflexivity).
  apply filter_In in Hin. destruct Hin as [Ht Hf].
  apply triples_spec in Ht. apply negb_true_iff, flat_false in Hf.
  exfalso. apply Hf. apply Hcol; apply vertex_in; lia.
Qed.

(** The three outcomes of the triangulation. *)
Lemma Delaunay_no_points : Scipy.Delaunay [] = Raise (ValueError "No points given").
Proof. reflexivity. Qed.

Lemma Delaunay_degenerate (pts : list point) :
  pts <> [] -> collinear_set pts -> Scipy.Delaunay pts = Raise QhullError.
Proof.
  intros Hne Hcol. destruct pts as [|p pts]; [congruence|].
  unfold Scipy.Delaunay. rewrite (collinear_set_all_flat _ Hcol). reflexivity.
Qed.

Lemma Delaunay_ok (pts : list point) :
  has_triangle pts ->
  Scipy.Delaunay pts
  = Ok (filter (Scipy.circumcircle_empty pts)
               (filter (fun s => negb (Scipy.flat pts s)) (Scipy.triples (List.length pts)))).
Proof.
  intro Ht. pose proof (has_triangle_triple pts Ht) as (s & Hs & Hf).
  destruct pts as [|p pts]; [destruct Hs|].
  unfold Scipy.Delaunay.
  destruct (filter (fun s => negb (Scipy.flat (p :: pts) s)) _) as [|s0 l] eqn:E; [|reflexivity].
  assert (Hin : In s (filter (fun s => negb (Scipy.flat (p :: pts) s))
                             (Scipy.triples (List.length (p :: pts))))).
  { apply filter_In. split; [exact Hs | rewrite Hf; reflexivity]. }
  rewrite E in Hin. destruct Hin.
Qed.

(** What a successful triangulation returns: triangles on three distinct
    input points, not flat, with no input point inside the circumcircle. *)
Lemma Delaunay_simplices (pts : list point) (tri : list Scipy.simplex) :
  Scipy.Delaunay pts = Ok tri ->
  forall i j k, In (i, j, k) tri ->
    (i < j /\ j < k /\ k < List.length pts)%nat /\
    ~ orient (Scipy.vertex pts i) (Scipy.vertex pts j) (Scipy.vertex pts k) == 0 /\
    forall d, In d pts ->
              0 <= Scipy.in_circle (Scipy.vertex pts i) (Scipy.vertex pts j)
                                   (Scipy.vertex pts k) d.
Proof.
  intros H i j k Hin. destruct pts as [|p pts]; [discriminate|].
  unfold Scipy.Delaunay in H.
  destruct (filter (fun s => negb (Scipy.flat (p :: pts) s)) _) as [|s0 l] eqn:E;
    [discriminate|].
  cbv beta iota in H. assert (Htri : tri = filter (Scipy.circumcircle_empty (p :: pts)) (s0 :: l))
    by congruence.
  rewrite Htri, <- E in Hin.
  apply filter_In in Hin. destruct Hin as [Hin Hc].
  apply filter_In in Hin. destruct Hin as [Ht Hf].
  apply triples_spec in Ht. apply negb_true_iff, flat_false in Hf.
  split; [exact Ht | split; [exact Hf|]].
  intros d Hd. unfold Scipy.circumcircle_empty in Hc.
  rewrite forallb_forall in Hc. apply Qle_bool_iff. apply Hc. exact Hd.
Qed.

(** Either no three points span a triangle, or some three do. *)
Lemma collinear_or_triangle (pts : list point) : collinear_set pts \/ has_triangle pts.
Proof.
  destruct (filter (fun s => negb (Scipy.flat pts s)) (Scipy.triples (List.length pts)))
    as [|[[i j] k] l] eqn:E.
  - left. intros a b c Ha Hb Hc.
    destruct (Qeq_dec (orient a b c) 0) as [Hz|Hnz]; [exact Hz|].
    exfalso. destruct (has_triangle_triple pts) as (s & Hs & Hf).
    { exists a, b, c. tauto. }
    assert (Hin : In s (filter (fun s => negb (Scipy.flat pts s))
                               (Scipy.triples (List.length pts)))).
    { apply filter_In. split; [exact Hs | rewrite Hf; reflexivity]. }
    rewrite E in Hin. destruct Hin.
  - right.
    assert (Hin : In (i, j, k) (filter (fun s => negb (Scipy.flat pts s))
                                       (Scipy.triples (List.length pts))))
      by (rewrite E; left; reflexivity).
    apply filter_In in Hin. destruct Hin as [Ht Hf].
    apply triples_spec in Ht. apply negb_true_iff, flat_false in Hf.
    exists (Scipy.vertex pts i), (Scipy.vertex pts j), (Scipy.vertex pts k).
    repeat split; try (apply vertex_in; lia). exact Hf.
Qed.

(** ** The interpolation loop *)

Lemma interpolate_on_unfold (n : nat) (gdf : GeoDataFrame Q) (ms : list string) :
  interpolate_on n gdf ms
  = (interpolated_data <- for_measures gdf (geometry gdf) (lattice n gdf) ms [] ;;
     Ok {| geometry := lattice n gdf; columns := interpolated_data; crs := crs gdf |}).
Proof.
  unfold interpolate_on, lattice.
  destruct (Geopandas.total_bounds (geometry gdf)) as [[[xmin ymin] xmax] ymax].
  reflexivity.
Qed.

Lemma griddata_well_formed (pts : list point) (values : list num) (xi : list (num * num)) :
  List.length values = List.length pts ->
  Scipy.griddata pts values xi
  = (tri <- Scipy.Delaunay pts ;; Ok (map (Scipy.evaluate pts values tri) xi)).
Proof.
  intro Hlen. unfold Scipy.griddata. rewrite Hlen, Nat.eqb_refl. reflexivity.
Qed.

Section ForMeasures.

Variable gdf : GeoDataFrame Q.
Variable grid : list (num * num).
Hypothesis Hwf : well_formed gdf.

Lemma lookup_length (m : string) (values : list num) :
  lookup m (columns gdf) = Some values -> List.length values = List.length (geometry gdf).
Proof. intro H. apply (Hwf m). apply lookup_in. exact H. Qed.

(** A requested attribute that the frame lacks raises [KeyError] as soon
    as the loop reaches it. *)
Lemma for_measures_key_error (m : string) (rest : list string) data :
  lookup m (columns gdf) = None ->
  for_measures gdf (geometry gdf) grid (m :: rest) data = Raise (KeyError m).
Proof. intro H. simpl. unfold getitem. rewrite H. reflexivity. Qed.

(** A failing triangulation is raised at the first attribute present. *)
Lemma for_measures_triangulation_error (m : string) (rest : list string) data values e :
  lookup m (columns gdf) = Some values ->
  Scipy.Delaunay (geometry gdf) = Raise e ->
  for_measures gdf (geometry gdf) grid (m :: rest) data = Raise e.
Proof.
  intros H He. simpl. unfold getitem. rewrite H. simpl.
  rewrite (griddata_well_formed _ _ _ (lookup_length _ _ H)), He. reflexivity.
Qed.

Lemma for_measures_step (m : string) (rest : list string) data values tri :
  lookup m (columns gdf) = Some values ->
  Scipy.Delaunay (geometry gdf) = Ok tri ->
  for_measures gdf (geometry gdf) grid (m :: rest) data
  = for_measures gdf (geometry gdf) grid rest
                 (dict_set data m (map (Scipy.evaluate (geometry gdf) values tri) grid)).
Proof.
  intros H Ht. simpl. unfold getitem. rewrite H. simpl.
  rewrite (griddata_well_formed _ _ _ (lookup_length _ _ H)), Ht. reflexivity.
Qed.

(** With a triangulation, the loop stops at the first absent attribute. *)
Lemma for_measures_first_absent tri :
  Scipy.Delaunay (geometry gdf) = Ok tri ->
  forall ms m data,
    first_absent gdf ms = Some m ->
    for_measures gdf (geometry gdf) grid ms data = Raise (KeyError m).
Proof.
  intros Ht. induction ms as [|m0 ms IH]; intros m data Hfa; [discriminate|].
  unfold first_absent in Hfa. simpl in Hfa.
  destruct (lookup m0 (columns gdf)) as [values|] eqn:Hl.
  - rewrite (for_measures_step _ _ _ _ _ Hl Ht). apply IH. exact Hfa.
  - injection Hfa as <-. apply for_measures_key_error. exact Hl.
Qed.

(** With a triangulation and every attribute present the loop succeeds,
    and the dict maps each requested attribute to its interpolated
    column. *)
Lemma for_measures_ok tri :
  Scipy.Delaunay (geometry gdf) = Ok tri ->
  forall ms data,
    (forall m, In m ms -> lookup m (columns gdf) <> None) ->
    exists data',
      for_measures gdf (geometry gdf) grid ms data = Ok data' /\
      (forall m, In m ms ->
                 exists values,
                   lookup m (columns gdf) = Some values /\
                   lookup m data' = Some (map (Scipy.evaluate (geometry gdf) values tri) grid)) /\
      (forall m, ~ In m ms -> lookup m data' = lookup m data) /\
      (forall name col, In (name, col) data' ->
                        In (name, col) data \/ List.length col = List.length grid).
Proof.
  intros Ht. induction ms as [|m0 ms IH]; intros data Hall.
  - exists data. repeat split; try tauto. intros m [].
  - destruct (lookup m0 (columns gdf)) as [values|] eqn:Hl;
      [|exfalso; apply (Hall m0); [left; reflexivity | exact Hl]].
    rewrite (for_measures_step _ _ _ _ _ Hl Ht).
    destruct (IH (dict_set data m0 (map (Scipy.evaluate (geometry gdf) values tri) grid)))
      as (data' & Hrun & Hreq & Hother & Hcols).
    { intros m Hm. apply Hall. right. exact Hm. }
    exists data'. split; [exact Hrun|]. split; [|split].
    + intros m [<-|Hm]; [|apply Hreq; exact Hm].
      destruct (in_dec string_dec m0 ms) as [Hin|Hnin]; [apply Hreq; exact Hin|].
      exists values. split; [exact Hl|].
      rewrite (Hother m0 Hnin). apply lookup_dict_set_same.
    + intros m Hm. rewrite Hother by (intro; apply Hm; right; assumption).
      apply lookup_dict_set_other. intros ->. apply Hm. left. reflexivity.
    + intros name col Hin. apply Hcols in Hin. destruct Hin as [Hin|Hlen]; [|right; exact Hlen].
      apply in_dict_set in Hin. destruct Hin as [[= -> ->]|Hin]; [right | left; exact Hin].
      apply length_map.
Qed.

(** A loop that succeeds on at least one attribute had a triangulation
    and found every attribute. *)
Lemma for_measures_ok_inv :
  forall ms data data',
    for_measures gdf (geometry gdf) grid ms data = Ok data' ->
    ms <> [] ->
    (exists tri, Scipy.Delaunay (geometry gdf) = Ok tri) /\
    (forall m, In m ms -> lookup m (columns gdf) <> None).
Proof.
  induction ms as [|m0 ms IH]; intros data data' H Hne; [congruence|].
  destruct (lookup m0 (columns gdf)) as [values|] eqn:Hl;
    [|rewrite (for_measures_key_error _ _ _ Hl) in H; discriminate].
  destruct (Scipy.Delaunay (geometry gdf)) as [tri|e] eqn:Ht;
    [|rewrite (for_measures_triangulation_error _ _ _ _ _ Hl Ht) in H; discriminate].
  split; [eauto|].
  intros m [<-|Hm]; [congruence|].
  rewrite (for_measures_step _ _ _ _ _ Hl Ht) in H.
  destruct ms as [|m1 ms]; [destruct Hm|].
  apply (IH _ _ H); [discriminate | exact Hm].
Qed.

End ForMeasures.

(** ** The surface interpolator *)

(** Without requested attributes the function returns the bare lattice. *)
Lemma interpolate_on_nil (n : nat) (gdf : GeoDataFrame Q) :
  interpolate_on n gdf []
  = Ok {| geometry := lattice n gdf; columns := []; crs := crs gdf |}.
Proof. rewrite interpolate_on_unfold. reflexivity. Qed.

(** The function succeeds when the frame is well formed, its points admit a
    triangulation and every requested attribute is a column. *)
Lemma interpolate_on_succeeds (n : nat) (gdf : GeoDataFrame Q) (ms : list string) :
  well_formed gdf ->
  has_triangle (geometry gdf) ->
  (forall m, In m ms -> lookup m (columns gdf) <> None) ->
  exists out, interpolate_on n gdf ms = Ok out.
Proof.
  intros Hwf Ht Hall. rewrite interpolate_on_unfold.
  destruct (for_measures_ok gdf (lattice n gdf) Hwf _ (Delaunay_ok _ Ht) ms [] Hall)
    as (data' & -> & _).
  simpl. eauto.
Qed.

(** The shape of every successful output: the lattice as geometry, and one
    value per node in each column. *)
Lemma interpolate_on_shape (n : nat) (gdf : GeoDataFrame Q) (ms : list string)
      (out : GeoDataFrame num) :
  well_formed gdf ->
  interpolate_on n gdf ms = Ok out ->
  geometry out = lattice n gdf /\
  crs out = crs gdf /\
  (forall name col, In (name, col) (columns out) ->
                    List.length col = List.length (lattice n gdf)) /\
  (forall m, In m ms -> exists col, lookup m (columns out) = Some col).
Proof.
  intros Hwf H. rewrite interpolate_on_unfold in H.
  destruct (for_measures gdf (geometry gdf) (lattice n gdf) ms []) as [data|e] eqn:Hrun;
    [|discriminate].
  injection H as <-. simpl. split; [reflexivity | split; [reflexivity|]].
  destruct ms as [|m0 ms].
  - injection Hrun as <-. split; [intros name col [] | intros m []].
  - destruct (for_measures_ok_inv gdf _ Hwf _ _ _ Hrun) as ((tri & Ht) & Hall); [discriminate|].
    destruct (for_measures_ok gdf (lattice n gdf) Hwf _ Ht (m0 :: ms) [] Hall)
      as (data' & Hrun' & Hreq & _ & Hcols).
    assert (data' = data) by congruence. subst data'. split.
    + intros name col Hin. destruct (Hcols name col Hin) as [[]|Hlen]. exact Hlen.
    + intros m Hm. destruct (Hreq m Hm) as (values & _ & Hl). eauto.
Qed.

Lemma lattice_length (n : nat) (gdf : GeoDataFrame Q) :
  List.length (lattice n gdf) = (n * n)%nat.
Proof.
  unfold lattice.
  destruct (Geopandas.total_bounds (geometry gdf)) as [[[xmin ymin] xmax] ymax].
  apply mgrid_flat_length.
Qed.


Lemma three_points_well_formed : well_formed three_points.
Proof.
  intros name col [[= <- <-]|[]]. reflexivity.
Qed.

Lemma three_points_has_triangle : has_triangle (geometry three_points).
Proof.
  exists (0, 0), (1, 0), (0, 1). simpl.
  repeat split; auto. discriminate.
Qed.


(** *** Failures *)

Lemma first_absent_spec {C : Type} (gdf : GeoDataFrame C) (ms : list string) (m : string) :
  first_absent gdf ms = Some m -> In m ms /\ lookup m (columns gdf) = None.
Proof.
  unfold first_absent. intro H. apply find_some in H. destruct H as [Hin Hl].
  split; [exact Hin|]. destruct (lookup m (columns gdf)); [discriminate | reflexivity].
Qed.

Lemma some_absent_first_absent {C : Type} (gdf : GeoDataFrame C) (ms : list string) :
  (exists m, In m ms /\ lookup m (columns gdf) = None) ->
  exists m0, first_absent gdf ms = Some m0.
Proof.
  intros (m & Hin & Hl). unfold first_absent.
  destruct (find _ ms) as [m0|] eqn:E; [eauto|].
  apply (find_none _ _ E) in Hin. rewrite Hl in Hin. discriminate.
Qed.

(** What the function raises when it meets a first attribute [m]. *)
Lemma interpolate_on_head (n : nat) (gdf : GeoDataFrame Q) (m : string) (rest : list string) :
  well_formed gdf ->
  (lookup m (columns gdf) = None ->
   interpolate_on n gdf (m :: rest) = Raise (KeyError m)) /\
  (forall e, lookup m (columns gdf) <> None ->
             Scipy.Delaunay (geometry gdf) = Raise e ->
             interpolate_on n gdf (m :: rest) = Raise e).
Proof.
  intro Hwf. split.
  - intro Hl. rewrite interpolate_on_unfold, for_measures_key_error; trivial.
  - intros e Hl He. destruct (lookup m (columns gdf)) as [values|] eqn:E; [|congruence].
    rewrite interpolate_on_unfold.
    rewrite (for_measures_triangulation_error gdf _ Hwf m rest [] values e E He).
    reflexivity.
Qed.

(** C4 (as the code has it). When some requested attribute is not a column
    of the frame the interpolator fails.  It fails with [KeyError] on the
    first such attribute when that attribute heads the request or the
    points span a triangle; when an attribute that is present is requested
    first and no three points span a triangle, the triangulation error of
    that earlier attribute is raised instead. *)
Theorem interpolate_missing_attribute :
  forall (gdf : GeoDataFrame Q) (ms : list string),
    well_formed gdf ->
    geometry gdf <> [] ->
    (exists m, In m ms /\ lookup m (columns gdf) = None) ->
    exists m0 e,
      first_absent gdf ms = Some m0 /\
      interpolate_point_measures gdf ms = Raise e /\
      (hd_error ms = Some m0 \/ has_triangle (geometry gdf) -> e = KeyError m0) /\
      (hd_error ms <> Some m0 -> collinear_set (geometry gdf) -> e = QhullError).
Proof.
  intros gdf ms Hwf Hne Habs. unfold interpolate_point_measures.
  destruct (some_absent_first_absent gdf ms Habs) as [m0 Hfa].
  destruct (first_absent_spec gdf ms m0 Hfa) as [Hin Hl].
  destruct ms as [|m ms]; [destruct Hin|].
  destruct (interpolate_on_head 500 gdf m ms Hwf) as [Hkey Htri].
  destruct (lookup m (columns gdf)) as [values|] eqn:Hm.
  - (* the first requested attribute is present *)
    assert (Hhd : hd_error (m :: ms) <> Some m0).
    { simpl. intros [= ->]. congruence. }
    destruct (collinear_or_triangle (geometry gdf)) as [Hcol|Ht].
    + exists m0, QhullError. split; [exact Hfa|]. split.
      * apply Htri; [discriminate | apply Delaunay_degenerate; assumption].
      * split; [|reflexivity].
        intros [Hh|(a & b & c & Ha & Hb & Hc & Ho)]; [contradiction|].
        exfalso. apply Ho. apply Hcol; assumption.
    + exists m0, (KeyError m0). split; [exact Hfa|]. split.
      * rewrite interpolate_on_unfold.
        rewrite (for_measures_first_absent gdf _ Hwf _ (Delaunay_ok _ Ht) (m :: ms) m0 [] Hfa).
        reflexivity.
      * split; [reflexivity|].
        intros _ Hcol. destruct Ht as (a & b & c & Ha & Hb & Hc & Ho).
        exfalso. apply Ho. apply Hcol; assumption.
  - (* the first requested attribute is absent *)
    assert (Hm0 : m0 = m).
    { unfold first_absent in Hfa. simpl in Hfa. rewrite Hm in Hfa. congruence. }
    subst m0. exists m, (KeyError m). split; [exact Hfa|]. split; [apply Hkey; reflexivity|].
    split; [reflexivity|]. intros Hhd. exfalso. apply Hhd. reflexivity.
Qed.

Lemma interpolate_missing_attribute_witness :
  exists m0 e,
    first_absent three_points ["temp"; "clay"]%string = Some m0 /\
    interpolate_point_measures three_points ["temp"; "clay"]%string = Raise e /\
    (hd_error ["temp"; "clay"]%string = Some m0 \/ has_triangle (geometry three_points) ->
     e = KeyError m0) /\
    (hd_error ["temp"; "clay"]%string <> Some m0 -> collinear_set (geometry three_points) ->
     e = QhullError).
Proof.
  apply (interpolate_missing_attribute three_points ["temp"; "clay"]%string).
  - exact three_points_well_formed.
  - discriminate.
  - exists "clay"%string. split; [right; left; reflexivity | reflexivity].
Defined.

Lemma one_point_well_formed : well_formed one_point.
Proof. intros name col [[= <- <-]|[]]. reflexivity. Qed.

Lemma one_point_collinear : collinear_set (geometry one_point).
Proof.
  intros a b c [<-|[]] [<-|[]] [<-|[]]. reflexivity.
Qed.

(** C4, as stated, fails: one point with the attribute "temp", asked for
    "temp" and then for the absent "clay", fails in the triangulation of
    "temp" before "clay" is looked up. *)
Lemma missing_attribute_masked_by_triangulation :
  geometry one_point <> [] /\
  lookup "clay" (columns one_point) = None /\
  interpolate_point_measures one_point ["temp"; "clay"]%string = Raise QhullError.
Proof.
  split; [discriminate|]. split; [reflexivity|].
  apply (interpolate_on_head 500 one_point "temp" ["clay"%string] one_point_well_formed).
  - discriminate.
  - apply Delaunay_degenerate; [discriminate | exact one_point_collinear].
Qed.

(** C5 (as the code has it). With fewer than three non-collinear points the
    interpolator returns only when no attribute is requested, and then the
    bare lattice; with a request it raises: [KeyError] when the first
    requested attribute is absent, and otherwise the triangulation's
    [QhullError]. *)
Theorem interpolate_degenerate_points :
  forall (gdf : GeoDataFrame Q),
    well_formed gdf ->
    geometry gdf <> [] ->
    collinear_set (geometry gdf) ->
    interpolate_point_measures gdf []
    = Ok {| geometry := lattice 500 gdf; columns := []; crs := crs gdf |} /\
    forall m rest,
      interpolate_point_measures gdf (m :: rest)
      = Raise (match lookup m (columns gdf) with
               | Some _ => QhullError
               | None => KeyError m
               end).
Proof.
  intros gdf Hwf Hne Hcol. unfold interpolate_point_measures.
  split; [apply interpolate_on_nil|].
  intros m rest. destruct (interpolate_on_head 500 gdf m rest Hwf) as [Hkey Htri].
  destruct (lookup m (columns gdf)) as [values|].
  - apply Htri; [discriminate | apply Delaunay_degenerate; assumption].
  - apply Hkey. reflexivity.
Qed.

Lemma two_points_well_formed : well_formed two_points.
Proof. intros name col [[= <- <-]|[]]. reflexivity. Qed.

Lemma two_points_collinear : collinear_set (geometry two_points).
Proof.
  intros a b c [<-|[<-|[]]] [<-|[<-|[]]] [<-|[<-|[]]]; reflexivity.
Qed.

Lemma interpolate_degenerate_points_witness :
  interpolate_point_measures two_points []
  = Ok {| geometry := lattice 500 two_points; columns := []; crs := crs two_points |} /\
  forall m rest,
    interpolate_point_measures two_points (m :: rest)
    = Raise (match lookup m (columns two_points) with
             | Some _ => QhullError
             | None => KeyError m
             end).
Proof.
  apply (interpolate_degenerate_points two_points).
  - exact two_points_well_formed.
  - discriminate.
  - exact two_points_collinear.
Defined.

(** C5, as stated, fails: two points and a request for their attribute
    raise [QhullError]; no grid of undefined values is returned. *)
Lemma two_points_request_raises :
  collinear_set (geometry two_points) /\
  interpolate_point_measures two_points ["temp"%string] = Raise QhullError /\
  ~ (exists out, interpolate_point_measures two_points ["temp"%string] = Ok out).
Proof.
  assert (H : interpolate_point_measures two_points ["temp"%string] = Raise QhullError).
  { apply (interpolate_on_head 500 two_points "temp" [] two_points_well_formed).
    - discriminate.
    - apply Delaunay_degenerate; [discriminate | exact two_points_collinear]. }
  split; [exact two_points_collinear | split; [exact H|]].
  intros [out Hout]. congruence.
Qed.

(** C6 (as the code has it). On an empty collection the bounds are NaN and
    deriving them raises nothing.  The interpolator returns when no
    attribute is requested, a lattice of 500 by 500 nodes with undefined
    coordinates; with a request it raises [KeyError] when the first
    requested attribute is absent, and otherwise the triangulation's
    [ValueError] for a lack of points. *)
Theorem interpolate_empty_collection :
  forall (gdf : GeoDataFrame Q),
    well_formed gdf ->
    geometry gdf = [] ->
    (exists out,
        interpolate_point_measures gdf [] = Ok out /\
        columns out = [] /\
        List.length (geometry out) = (500 * 500)%nat /\
        Forall (fun g => g = (NaN, NaN)) (geometry out)) /\
    forall m rest,
      interpolate_point_measures gdf (m :: rest)
      = Raise (match lookup m (columns gdf) with
               | Some _ => ValueError "No points given"
               | None => KeyError m
               end).
Proof.
  intros gdf Hwf Hempty. unfold interpolate_point_measures. split.
  - eexists. split; [apply interpolate_on_nil|]. cbn [geometry columns].
    split; [reflexivity | split; [apply lattice_length|]].
    unfold lattice. rewrite Hempty.
    change (Geopandas.total_bounds []) with (NaN, NaN, NaN, NaN).
    cbv beta iota. apply mgrid_flat_nan.
  - intros m rest. destruct (interpolate_on_head 500 gdf m rest Hwf) as [Hkey Htri].
    destruct (lookup m (columns gdf)) as [values|].
    + apply Htri; [discriminate | rewrite Hempty; apply Delaunay_no_points].
    + apply Hkey. reflexivity.
Qed.

Lemma no_points_well_formed : well_formed no_points.
Proof. intros name col []. Qed.

Lemma interpolate_empty_collection_witness :
  (exists out,
      interpolate_point_measures no_points [] = Ok out /\
      columns out = [] /\
      List.length (geometry out) = (500 * 500)%nat /\
      Forall (fun g => g = (NaN, NaN)) (geometry out)) /\
  forall m rest,
    interpolate_point_measures no_points (m :: rest)
    = Raise (match lookup m (columns no_points) with
             | Some _ => ValueError "No points given"
             | None => KeyError m
             end).
Proof.
  apply (interpolate_empty_collection no_points).
  - exact no_points_well_formed.
  - reflexivity.
Defined.

(** C6, as stated, fails: the empty collection with an empty request is
    answered with a frame, and with a request for an attribute it lacks the
    error is the [KeyError] of the column lookup. *)
Lemma empty_collection_is_answered :
  geometry no_points = [] /\
  (exists out, interpolate_point_measures no_points [] = Ok out) /\
  interpolate_point_measures no_points ["temp"%string] = Raise (KeyError "temp").
Proof.
  split; [reflexivity|]. split.
  - eexists. apply interpolate_on_nil.
  - destruct (interpolate_on_head 500 no_points "temp" [] no_points_well_formed) as [Hkey _].
    apply Hkey. reflexivity.
Qed.

(** ** Interpolated values *)

(** The column that a successful run holds for a requested attribute. *)
Lemma interpolate_on_values (n : nat) (gdf : GeoDataFrame Q) (ms : list string)
      (out : GeoDataFrame num) (m : string) :
  well_formed gdf ->
  interpolate_on n gdf ms = Ok out ->
  In m ms ->
  exists values tri,
    lookup m (columns gdf) = Some values /\
    Scipy.Delaunay (geometry gdf) = Ok tri /\
    lookup m (columns out)
    = Some (map (Scipy.evaluate (geometry gdf) values tri) (lattice n gdf)).
Proof.
  intros Hwf H Hm. rewrite interpolate_on_unfold in H.
  destruct (for_measures gdf (geometry gdf) (lattice n gdf) ms []) as [data|e] eqn:Hrun;
    [|discriminate].
  injection H as <-. cbn [columns].
  assert (Hne : ms <> []) by (intros ->; destruct Hm).
  destruct (for_measures_ok_inv gdf _ Hwf _ _ _ Hrun Hne) as ((tri & Ht) & Hall).
  destruct (for_measures_ok gdf (lattice n gdf) Hwf _ Ht ms [] Hall)
    as (data' & Hrun' & Hreq & _).
  assert (data' = data) by congruence. subst data'.
  destruct (Hreq m Hm) as (values & Hl & Hd). eauto.
Qed.

Lemma interpolate_on_value_at (n : nat) (gdf : GeoDataFrame Q) (ms : list string)
      (out : GeoDataFrame num) (m : string) (k : nat) (g : num * num) :
  well_formed gdf ->
  interpolate_on n gdf ms = Ok out ->
  In m ms ->
  nth_error (geometry out) k = Some g ->
  exists values tri,
    lookup m (columns gdf) = Some values /\
    Scipy.Delaunay (geometry gdf) = Ok tri /\
    value_at out m k = Some (Scipy.evaluate (geometry gdf) values tri g).
Proof.
  intros Hwf H Hm Hk.
  destruct (interpolate_on_values n gdf ms out m Hwf H Hm) as (values & tri & Hl & Ht & Hc).
  destruct (interpolate_on_shape n gdf ms out Hwf H) as (Hgeo & _).
  exists values, tri. split; [exact Hl | split; [exact Ht|]].
  unfold value_at. rewrite Hc, nth_error_map, <- Hgeo, Hk. reflexivity.
Qed.

(** *** The convex hull *)

Lemma Qle_bool_true (x y : Q) : Qle_bool x y = true -> x <= y.
Proof. apply Qle_bool_iff. Qed.

(** The barycentric coordinates of a point add up to one and reproduce the
    point. *)
Lemma barycentric_spec (a b c q : point) :
  ~ orient a b c == 0 ->
  let '(c0, c1, c2) := Scipy.barycentric a b c q in
  c0 + c1 + c2 == 1 /\
  fst q == c0 * fst a + c1 * fst b + c2 * fst c /\
  snd q == c0 * snd a + c1 * snd b + c2 * snd c.
Proof.
  intro Ho. unfold Scipy.barycentric.
  destruct a as [ax ay], b as [bx by_], c as [cx cy], q as [qx qy].
  unfold orient in *. simpl in *.
  repeat split; field; exact Ho.
Qed.

(** A convex combination of three points of the hull is in the hull. *)
Lemma hull_triangle (pts : list point) (a b c q : point) (c0 c1 c2 : Q) :
  in_hull pts a -> in_hull pts b -> in_hull pts c ->
  0 <= c0 -> 0 <= c1 -> 0 <= c2 -> c0 + c1 + c2 == 1 ->
  fst q == c0 * fst a + c1 * fst b + c2 * fst c ->
  snd q == c0 * snd a + c1 * snd b + c2 * snd c ->
  in_hull pts q.
Proof.
  intros Ha Hb Hc H0 H1 H2 Hsum Hx Hy.
  destruct (Qeq_dec (c1 + c2) 0) as [Hz|Hnz].
  - (* the point is [a] *)
    assert (c1 == 0) by lra. assert (c2 == 0) by lra. assert (c0 == 1) by lra.
    apply (hull_segment pts a a 0 q Ha Ha); try lra.
    + rewrite Hx. rewrite H, H3, H4. ring.
    + rewrite Hy. rewrite H, H3, H4. ring.
  - set (m := ((c1 * fst b + c2 * fst c) / (c1 + c2),
               (c1 * snd b + c2 * snd c) / (c1 + c2))).
    assert (Hm : in_hull pts m).
    { apply (hull_segment pts b c (c2 / (c1 + c2)) m Hb Hc).
      - apply Qle_shift_div_l; lra.
      - apply Qle_shift_div_r; lra.
      - unfold m. simpl. field. exact Hnz.
      - unfold m. simpl. field. exact Hnz. }
    apply (hull_segment pts a m (c1 + c2) q Ha Hm); try lra.
    + rewrite Hx. unfold m. simpl.
      assert (E : 1 - (c1 + c2) == c0) by lra. rewrite E. field. exact Hnz.
    + rewrite Hy. unfold m. simpl.
      assert (E : 1 - (c1 + c2) == c0) by lra. rewrite E. field. exact Hnz.
Qed.

(** A point that a simplex of the triangulation holds is in the convex hull
    of the input points. *)
Lemma inside_in_hull (pts : list point) (q : point) (i j k : nat) :
  (i < List.length pts)%nat -> (j < List.length pts)%nat -> (k < List.length pts)%nat ->
  ~ orient (Scipy.vertex pts i) (Scipy.vertex pts j) (Scipy.vertex pts k) == 0 ->
  Scipy.inside pts q (i, j, k) = true ->
  in_hull pts q.
Proof.
  intros Hi Hj Hk Ho Hin. unfold Scipy.inside in Hin.
  pose proof (barycentric_spec _ _ _ q Ho) as Hb.
  destruct (Scipy.barycentric _ _ _ q) as [[c0 c1] c2].
  destruct Hb as (Hsum & Hx & Hy).
  apply andb_true_iff in Hin. destruct Hin as [Hin H2].
  apply andb_true_iff in Hin. destruct Hin as [H0 H1].
  apply Qle_bool_true in H0, H1, H2.
  assert (Hv : forall l, (l < List.length pts)%nat -> in_hull pts (Scipy.vertex pts l)).
  { intros l Hl. apply (hull_point pts (Scipy.vertex pts l)); [apply vertex_in; exact Hl|].
    split; reflexivity. }
  apply (hull_triangle pts _ _ _ q c0 c1 c2 (Hv i Hi) (Hv j Hj) (Hv k Hk)); assumption.
Qed.

(** Outside the convex hull no simplex is found. *)
Lemma find_simplex_outside (pts : list point) (tri : list Scipy.simplex) (q : point) :
  Scipy.Delaunay pts = Ok tri ->
  ~ in_hull pts q ->
  Scipy.find_simplex pts tri q = None.
Proof.
  intros Ht Hout. unfold Scipy.find_simplex.
  destruct (find (Scipy.inside pts q) tri) as [[[i j] k]|] eqn:E; [|reflexivity].
  apply find_some in E. destruct E as [Hin Hins].
  destruct (Delaunay_simplices pts tri Ht i j k Hin) as (Hidx & Ho & _).
  exfalso. apply Hout. apply (inside_in_hull pts q i j k); trivial; lia.
Qed.

(** A half-plane that holds the points holds their hull. *)
Lemma hull_half_plane (pts : list point) (a b c : Q) :
  (forall p, In p pts -> a * fst p + b * snd p <= c) ->
  forall q, in_hull pts q -> a * fst q + b * snd q <= c.
Proof.
  intros Hpts q Hq. induction Hq as [p q Hp [Hx Hy]|u v t q _ IHu _ IHv Ht0 Ht1 Hx Hy].
  - rewrite <- Hx, <- Hy. apply Hpts. exact Hp.
  - rewrite Hx, Hy.
    assert (E : a * ((1 - t) * fst u + t * fst v) + b * ((1 - t) * snd u + t * snd v)
                == (1 - t) * (a * fst u + b * snd u) + t * (a * fst v + b * snd v)) by ring.
    rewrite E.
    assert (L1 : (1 - t) * (a * fst u + b * snd u) <= (1 - t) * c).
    { rewrite (Qmult_comm (1 - t)), (Qmult_comm (1 - t) c).
      apply Qmult_le_compat_r; [exact IHu | lra]. }
    assert (L2 : t * (a * fst v + b * snd v) <= t * c).
    { rewrite (Qmult_comm t), (Qmult_comm t c).
      apply Qmult_le_compat_r; [exact IHv | exact Ht0]. }
    lra.
Qed.

Lemma interpolate_on_outside_hull (n : nat) (gdf : GeoDataFrame Q) (ms : list string)
      (out : GeoDataFrame num) :
  well_formed gdf ->
  interpolate_on n gdf ms = Ok out ->
  forall k x y,
    nth_error (geometry out) k = Some (Some x, Some y) ->
    ~ in_hull (geometry gdf) (x, y) ->
    forall m, In m ms -> value_at out m k = Some NaN.
Proof.
  intros Hwf H k x y Hk Hout m Hm.
  destruct (interpolate_on_value_at n gdf ms out m k _ Hwf H Hm Hk)
    as (values & tri & _ & Ht & ->).
  unfold Scipy.evaluate. rewrite (find_simplex_outside _ _ _ Ht Hout). reflexivity.
Qed.



(** The scenario of the three points (0,0), (1,0), (0,1): the last node of
    the lattice is the corner (1,1) of the bounding box, which is outside
    the triangle, and its value is undefined. *)
Example three_points_far_corner :
  exists out,
    interpolate_point_measures three_points ["temp"%string] = Ok out /\
    node_at (geometry out) (499 * 500 + 499) 1 1 /\
    value_at out "temp" (499 * 500 + 499) = Some NaN.
Proof.
  destruct (interpolate_on_succeeds 500 three_points ["temp"%string]
              three_points_well_formed three_points_has_triangle) as [out Hout].
  { intros m [<-|[]]. discriminate. }
  exists out. split; [exact Hout|].
  destruct (interpolate_on_shape 500 _ _ _ three_points_well_formed Hout) as (Hgeo & _).
  assert (Hn : (2 <= 500)%nat) by (apply Nat.leb_le; reflexivity).
  destruct (mgrid_flat_corners 0 1 0 1 500 Hn) as (_ & _ & _ & Hc).
  change (500 - 1)%nat with 499%nat in Hc.
  assert (Hnode : node_at (geometry out) (499 * 500 + 499) 1 1) by (rewrite Hgeo; exact Hc).
  split; [exact Hnode|].
  destruct Hnode as (x & y & Hk & Hx & Hy).
  apply (interpolate_on_outside_hull 500 _ _ _ three_points_well_formed Hout _ x y Hk);
    [|left; reflexivity].
  intro Hh. apply (hull_half_plane (geometry three_points) 1 1 1) in Hh.
  - simpl in Hh. lra.
  - intros p [<-|[<-|[<-|[]]]]; simpl; lra.
Qed.

(** *** Triangles with an empty circumcircle *)

Lemma square_nonneg (x : Q) : 0 <= x * x.
Proof.
  destruct (Qlt_le_dec x 0) as [Hn|Hp].
  - assert (E : x * x == (- x) * (- x)) by ring. rewrite E.
    apply Qmult_le_0_compat; lra.
  - apply Qmult_le_0_compat; assumption.
Qed.

Lemma square_zero (x : Q) : x * x == 0 -> x == 0.
Proof. intro H. apply Qmult_integral in H. tauto. Qed.

Lemma dist2_nonneg (p x : point) : 0 <= dist2 p x.
Proof.
  unfold dist2.
  pose proof (square_nonneg (fst x - fst p)). pose proof (square_nonneg (snd x - snd p)).
  lra.
Qed.

Lemma dist2_zero (p x : point) : dist2 p x == 0 -> peq x p.
Proof.
  unfold dist2. intro H.
  pose proof (square_nonneg (fst x - fst p)) as H1.
  pose proof (square_nonneg (snd x - snd p)) as H2.
  assert (E1 : (fst x - fst p) * (fst x - fst p) == 0) by lra.
  assert (E2 : (snd x - snd p) * (snd x - snd p) == 0) by lra.
  apply square_zero in E1, E2. split; lra.
Qed.

(** The vertices of a triangle that is not flat are pairwise apart. *)
Lemma orient_apart (a b c : point) :
  ~ orient a b c == 0 -> 0 < dist2 a b /\ 0 < dist2 a c /\ 0 < dist2 b c.
Proof.
  intro Ho.
  assert (Hpos : forall u v, ~ peq v u -> 0 < dist2 u v).
  { intros u v Hne. pose proof (dist2_nonneg u v).
    destruct (Qeq_dec (dist2 u v) 0) as [Hz|Hnz]; [|lra].
    exfalso. apply Hne, dist2_zero, Hz. }
  repeat split; apply Hpos; intro He; apply Ho.
  - rewrite (orient_peq a b c a a c (peq_refl a) He (peq_refl c)). apply orient_same12.
  - rewrite (orient_peq a b c a b a (peq_refl a) (peq_refl b) He). apply orient_same13.
  - rewrite (orient_peq a b c a b b (peq_refl a) (peq_refl b) He). apply orient_same23.
Qed.

Lemma in_circle_areas (a b c d : point) :
  Scipy.in_circle a b c d
  == - (orient a d c * orient a b d * dist2 b c
        + orient d b c * orient a b d * dist2 a c
        + orient d b c * orient a d c * dist2 a b).
Proof. unfold Scipy.in_circle, orient, dist2. ring. Qed.

Lemma in_circle_swap12 (a b c d : point) :
  Scipy.in_circle b a c d == Scipy.in_circle a b c d.
Proof. unfold Scipy.in_circle. ring. Qed.

Lemma in_circle_swap23 (a b c d : point) :
  Scipy.in_circle a c b d == Scipy.in_circle a b c d.
Proof. unfold Scipy.in_circle. ring. Qed.

Lemma in_circle_pencil (p q s d : point) :
  Scipy.in_circle p q s d
  == (excess p q d * orient p q s - excess p q s * orient p q d) * orient p q s.
Proof. unfold Scipy.in_circle, excess, dist2, along, orient. ring. Qed.

Lemma areas_sum (a b c d : point) :
  orient d b c + orient a d c + orient a b d == orient a b c.
Proof. unfold orient. ring. Qed.

(** Three non-negative weights that add up to one and whose pairwise
    products vanish: one of them is one, the others zero. *)
Lemma unit_weights (c0 c1 c2 : Q) :
  0 <= c0 -> 0 <= c1 -> 0 <= c2 -> c0 + c1 + c2 == 1 ->
  c0 * c1 == 0 -> c0 * c2 == 0 -> c1 * c2 == 0 ->
  (c0 == 1 /\ c1 == 0 /\ c2 == 0) \/
  (c0 == 0 /\ c1 == 1 /\ c2 == 0) \/
  (c0 == 0 /\ c1 == 0 /\ c2 == 1).
Proof.
  intros H0 H1 H2 Hs P01 P02 P12.
  apply Qmult_integral in P01, P02, P12.
  destruct P01 as [Z0|Z1], P02 as [Z0'|Z2], P12 as [Z1'|Z2'];
    try (left; repeat split; lra);
    try (right; left; repeat split; lra);
    try (right; right; repeat split; lra).
Qed.

(** A point of the closed triangle [a b c] that is not strictly inside its
    circumcircle is one of the three vertices: its barycentric coordinates
    are a unit vector. *)
Lemma on_circle_in_triangle (a b c d : point) :
  ~ orient a b c == 0 ->
  0 <= Scipy.in_circle a b c d ->
  let '(c0, c1, c2) := Scipy.barycentric a b c d in
  0 <= c0 -> 0 <= c1 -> 0 <= c2 ->
  (c0 == 1 /\ c1 == 0 /\ c2 == 0) \/
  (c0 == 0 /\ c1 == 1 /\ c2 == 0) \/
  (c0 == 0 /\ c1 == 0 /\ c2 == 1).
Proof.
  intros Ho Hc. unfold Scipy.barycentric.
  set (o := orient a b c) in *.
  set (A0 := orient d b c). set (A1 := orient a d c). set (A2 := orient a b d).
  intros H0 H1 H2.
  destruct (orient_apart a b c Ho) as (Dab & Dac & Dbc).
  pose proof (areas_sum a b c d) as Hsum. fold A0 A1 A2 o in Hsum.
  rewrite in_circle_areas in Hc. fold A0 A1 A2 in Hc.
  assert (Hoo : 0 < o * o).
  { pose proof (square_nonneg o).
    destruct (Qeq_dec (o * o) 0) as [Hz|Hnz]; [|lra].
    exfalso. apply Ho, square_zero, Hz. }
  assert (Hprod : forall x y, 0 <= x / o -> 0 <= y / o -> 0 <= x * y).
  { intros x y Hx Hy.
    assert (E : x * y == (x / o) * (y / o) * (o * o)) by (field; exact Ho).
    rewrite E. apply Qmult_le_0_compat; [apply Qmult_le_0_compat; assumption | lra]. }
  pose proof (Hprod A1 A2 H1 H2) as P12.
  pose proof (Hprod A0 A2 H0 H2) as P02.
  pose proof (Hprod A0 A1 H0 H1) as P01.
  assert (T12 : 0 <= A1 * A2 * dist2 b c) by (apply Qmult_le_0_compat; lra).
  assert (T02 : 0 <= A0 * A2 * dist2 a c) by (apply Qmult_le_0_compat; lra).
  assert (T01 : 0 <= A0 * A1 * dist2 a b) by (apply Qmult_le_0_compat; lra).
  assert (Z12 : A1 * A2 * dist2 b c == 0) by lra.
  assert (Z02 : A0 * A2 * dist2 a c == 0) by lra.
  assert (Z01 : A0 * A1 * dist2 a b == 0) by lra.
  apply Qmult_integral in Z12, Z02, Z01.
  destruct Z12 as [Z12|Z12]; [|lra].
  destruct Z02 as [Z02|Z02]; [|lra].
  destruct Z01 as [Z01|Z01]; [|lra].
  apply unit_weights; trivial.
  - assert (E : A0 / o + A1 / o + A2 / o == (A0 + A1 + A2) / o) by (field; exact Ho).
    rewrite E, Hsum. field. exact Ho.
  - assert (E : A0 / o * (A1 / o) == A0 * A1 / (o * o)) by (field; exact Ho).
    rewrite E, Z01. field. exact Ho.
  - assert (E : A0 / o * (A2 / o) == A0 * A2 / (o * o)) by (field; exact Ho).
    rewrite E, Z02. field. exact Ho.
  - assert (E : A1 / o * (A2 / o) == A1 * A2 / (o * o)) by (field; exact Ho).
    rewrite E, Z12. field. exact Ho.
Qed.

(** *** Every input point is a vertex of the triangulation *)

Lemma argmin (f : point -> Q) (l : list point) :
  l <> [] -> exists x, In x l /\ forall y, In y l -> f x <= f y.
Proof.
  induction l as [|a l IH]; intro Hne; [congruence|].
  destruct l as [|b l].
  - exists a. split; [left; reflexivity|]. intros y [<-|[]]. lra.
  - destruct IH as (x & Hx & Hmin); [discriminate|].
    destruct (Qlt_le_dec (f a) (f x)) as [Hlt|Hge].
    + exists a. split; [left; reflexivity|].
      intros y [<-|Hy]; [lra|]. specialize (Hmin y Hy). lra.
    + exists x. split; [right; exact Hx|].
      intros y [<-|Hy]; [exact Hge | apply Hmin; exact Hy].
Qed.

Lemma collinear_by_line (p q : point) (pts : list point) :
  0 < dist2 p q ->
  (forall x, In x pts -> orient p q x == 0) ->
  collinear_set pts.
Proof.
  intros Hd Hline a b c Ha Hb Hc.
  assert (E : dist2 p q * orient a b c
              == (along p q b - along p q a) * (orient p q c - orient p q a)
                 - (orient p q b - orient p q a) * (along p q c - along p q a)).
  { unfold orient, dist2, along. ring. }
  rewrite (Hline a Ha), (Hline b Hb), (Hline c Hc) in E.
  assert (Z : dist2 p q * orient a b c == 0) by (rewrite E; ring).
  apply Qmult_integral in Z. destruct Z as [Z|Z]; [lra | exact Z].
Qed.

Lemma collinear_by_point (p : point) (pts : list point) :
  (forall x, In x pts -> dist2 p x == 0) -> collinear_set pts.
Proof.
  intros Hall a b c Ha Hb Hc.
  pose proof (dist2_zero _ _ (Hall a Ha)) as Ea.
  pose proof (dist2_zero _ _ (Hall b Hb)) as Eb.
  pose proof (dist2_zero _ _ (Hall c Hc)) as Ec.
  rewrite (orient_peq a b c p p p Ea Eb Ec). apply orient_same12.
Qed.

Lemma has_triangle_not_collinear (pts : list point) :
  has_triangle pts -> ~ collinear_set pts.
Proof.
  intros (a & b & c & Ha & Hb & Hc & Ho) Hcol. apply Ho. apply Hcol; assumption.
Qed.

(** A point of the list that satisfies a decidable test, or none does. *)
Lemma filter_cases (f : point -> bool) (l : list point) :
  (forall x, In x l -> f x = false) \/ filter f l <> [].
Proof.
  destruct (filter f l) as [|a l'] eqn:E; [left | right; discriminate].
  intros x Hx. destruct (f x) eqn:Hf; [|reflexivity].
  assert (Hin : In x (filter f l)) by (apply filter_In; tauto).
  rewrite E in Hin. destruct Hin.
Qed.

(** Among the points away from [p] there is a nearest one. *)
Lemma nearest_neighbour (pts : list point) (p : point) :
  has_triangle pts ->
  exists q, In q pts /\ 0 < dist2 p q /\
            forall x, In x pts -> 0 < dist2 p x -> dist2 p q <= dist2 p x.
Proof.
  intro Ht.
  destruct (filter_cases (fun x => negb (Qeq_bool (dist2 p x) 0)) pts) as [Hall|Hne].
  - exfalso. apply (has_triangle_not_collinear pts Ht).
    apply (collinear_by_point p). intros x Hx.
    specialize (Hall x Hx). apply negb_false_iff, Qeq_bool_iff in Hall. exact Hall.
  - destruct (argmin (dist2 p) _ Hne) as (q & Hq & Hmin).
    apply filter_In in Hq. destruct Hq as [Hq Hqd].
    apply negb_true_iff in Hqd.
    assert (Hpos : forall x, Qeq_bool (dist2 p x) 0 = false -> 0 < dist2 p x).
    { intros x Hx. pose proof (dist2_nonneg p x).
      destruct (Qeq_dec (dist2 p x) 0) as [Hz|Hnz]; [|lra].
      apply Qeq_bool_iff in Hz. congruence. }
    exists q. split; [exact Hq | split; [apply Hpos; exact Hqd|]].
    intros x Hx Hxd. apply Hmin. apply filter_In. split; [exact Hx|].
    apply negb_true_iff. destruct (Qeq_bool (dist2 p x) 0) eqn:E; [|reflexivity].
    apply Qeq_bool_iff in E. lra.
Qed.

(** No point is strictly inside the circle whose diameter joins [p] to its
    nearest neighbour [q]. *)
Lemma excess_nonneg (pts : list point) (p q : point) :
  (forall x, In x pts -> 0 < dist2 p x -> dist2 p q <= dist2 p x) ->
  forall x, In x pts -> 0 <= excess p q x.
Proof.
  intros Hmin x Hx. unfold excess.
  pose proof (dist2_nonneg p x) as Hn.
  destruct (Qeq_dec (dist2 p x) 0) as [Hz|Hnz].
  - destruct (dist2_zero _ _ Hz) as [E1 E2].
    unfold dist2, along. rewrite E1, E2.
    assert (E : (fst p - fst p) * (fst p - fst p) + (snd p - snd p) * (snd p - snd p)
                - ((fst q - fst p) * (fst p - fst p) + (snd q - snd p) * (snd p - snd p))
                == 0) by ring.
    rewrite E. lra.
  - assert (Hle : dist2 p q <= dist2 p x) by (apply Hmin; [exact Hx | lra]).
    pose proof (dist2_nonneg q x) as Hqx.
    assert (E : dist2 q x == dist2 p x + dist2 p q - 2 * along p q x)
      by (unfold dist2, along; ring).
    lra.
Qed.

Lemma Qabs_pos_of_nonzero (x : Q) : ~ x == 0 -> 0 < Qabs x.
Proof.
  intro Hx. apply Qabs_case; intro H; lra.
Qed.

Lemma Qabs_square (x : Q) : Qabs x * Qabs x == x * x.
Proof.
  rewrite <- Qabs_Qmult. apply Qabs_pos. apply square_nonneg.
Qed.

Lemma Qmult_le_Qabs (x y : Q) : x * y <= Qabs x * Qabs y.
Proof.
  rewrite <- Qabs_Qmult. apply Qle_Qabs.
Qed.

(** Around every input point there is a triangle on input points whose
    circumcircle holds no input point in its interior. *)
Lemma empty_circle_triangle (pts : list point) (p : point) :
  has_triangle pts ->
  In p pts ->
  exists q s,
    In q pts /\ In s pts /\ ~ orient p q s == 0 /\
    forall d, In d pts -> 0 <= Scipy.in_circle p q s d.
Proof.
  intros Ht Hp.
  destruct (nearest_neighbour pts p Ht) as (q & Hq & Hpq & Hmin).
  pose proof (excess_nonneg pts p q Hmin) as Hex.
  destruct (filter_cases (fun x => negb (Qeq_bool (orient p q x) 0)) pts) as [Hall|Hne].
  { exfalso. apply (has_triangle_not_collinear pts Ht).
    apply (collinear_by_line p q pts Hpq). intros x Hx.
    specialize (Hall x Hx). apply negb_false_iff, Qeq_bool_iff in Hall. exact Hall. }
  destruct (argmin (fun x => excess p q x / Qabs (orient p q x)) _ Hne)
    as (s & Hs & Hsmin).
  apply filter_In in Hs. destruct Hs as [Hs Hso].
  assert (Hos : ~ orient p q s == 0).
  { intro Hz. apply Qeq_bool_iff in Hz. rewrite Hz in Hso. discriminate. }
  exists q, s. split; [exact Hq | split; [exact Hs | split; [exact Hos|]]].
  intros d Hd. rewrite in_circle_pencil.
  set (os := orient p q s) in *. set (od := orient p q d).
  set (es := excess p q s). set (ed := excess p q d).
  assert (Hes : 0 <= es) by (apply Hex; exact Hs).
  assert (Hed : 0 <= ed) by (apply Hex; exact Hd).
  assert (E : (ed * os - es * od) * os == ed * (os * os) - es * (od * os)) by ring.
  rewrite E.
  pose proof (square_nonneg os) as Hsq.
  destruct (Qeq_dec od 0) as [Hz|Hnz].
  - rewrite Hz.
    assert (0 <= ed * (os * os)) by (apply Qmult_le_0_compat; assumption).
    lra.
  - assert (Hdin : In d (filter (fun x => negb (Qeq_bool (orient p q x) 0)) pts)).
    { apply filter_In. split; [exact Hd|]. apply negb_true_iff.
      destruct (Qeq_bool (orient p q d) 0) eqn:Eb; [|reflexivity].
      apply Qeq_bool_iff in Eb. contradiction. }
    specialize (Hsmin d Hdin). cbv beta in Hsmin. fold os od es ed in Hsmin.
    pose proof (Qabs_pos_of_nonzero os Hos) as Pos.
    pose proof (Qabs_pos_of_nonzero od Hnz) as Pod.
    set (S := Qabs os) in *. set (D := Qabs od) in *.
    (* es * D <= ed * S *)
    assert (Hcross : es * D <= ed * S).
    { assert (E1 : es * D == es / S * (S * D)) by (field; lra).
      assert (E2 : ed * S == ed / D * (S * D)) by (field; lra).
      rewrite E1, E2. apply Qmult_le_compat_r; [exact Hsmin|].
      apply Qmult_le_0_compat; lra. }
    assert (H1 : es * (od * os) <= es * (D * S)).
    { rewrite (Qmult_comm es), (Qmult_comm es (D * S)).
      apply Qmult_le_compat_r; [apply Qmult_le_Qabs | exact Hes]. }
    assert (H2 : es * (D * S) <= ed * (S * S)).
    { assert (E1 : es * (D * S) == es * D * S) by ring.
      assert (E2 : ed * (S * S) == ed * S * S) by ring.
      rewrite E1, E2. apply Qmult_le_compat_r; [exact Hcross | lra]. }
    assert (E3 : S * S == os * os) by apply Qabs_square.
    rewrite E3 in H2. lra.
Qed.

Lemma Delaunay_has_triangle (pts : list point) (tri : list Scipy.simplex) :
  Scipy.Delaunay pts = Ok tri -> has_triangle pts.
Proof.
  intro H. destruct (collinear_or_triangle pts) as [Hcol|Ht]; [|exact Ht].
  destruct pts as [|p pts]; [discriminate|].
  rewrite Delaunay_degenerate in H; [discriminate | discriminate | exact Hcol].
Qed.

Lemma in_Delaunay (pts : list point) (tri : list Scipy.simplex) (i j k : nat) :
  Scipy.Delaunay pts = Ok tri ->
  (i < j /\ j < k /\ k < List.length pts)%nat ->
  ~ orient (Scipy.vertex pts i) (Scipy.vertex pts j) (Scipy.vertex pts k) == 0 ->
  (forall d, In d pts ->
             0 <= Scipy.in_circle (Scipy.vertex pts i) (Scipy.vertex pts j)
                                  (Scipy.vertex pts k) d) ->
  In (i, j, k) tri.
Proof.
  intros H Hidx Ho Hc.
  rewrite (Delaunay_ok pts (Delaunay_has_triangle pts tri H)) in H.
  injection H as <-.
  apply filter_In. split.
  - apply filter_In. split; [apply triples_spec; exact Hidx|].
    apply negb_true_iff, flat_false. exact Ho.
  - unfold Scipy.circumcircle_empty. apply forallb_forall.
    intros d Hd. apply Qle_bool_iff. apply Hc. exact Hd.
Qed.

(** A triangle on input points with an empty circumcircle is, with its
    vertices in index order, a simplex of the triangulation. *)
Lemma triangle_in_Delaunay (pts : list point) (tri : list Scipy.simplex) (a b c : point) :
  Scipy.Delaunay pts = Ok tri ->
  In a pts -> In b pts -> In c pts ->
  ~ orient a b c == 0 ->
  (forall d, In d pts -> 0 <= Scipy.in_circle a b c d) ->
  exists i j k,
    In (i, j, k) tri /\
    (Scipy.vertex pts i = a \/ Scipy.vertex pts j = a \/ Scipy.vertex pts k = a).
Proof.
  intros H Ha Hb Hc Ho Hcirc.
  apply in_vertex in Ha, Hb, Hc.
  destruct Ha as (i & Hi & Ea), Hb as (j & Hj & Eb), Hc as (k & Hk & Ec).
  subst a b c.
  assert (Hij : i <> j) by (intros ->; apply Ho, orient_same12).
  assert (Hik : i <> k) by (intros ->; apply Ho, orient_same13).
  assert (Hjk : j <> k) by (intros ->; apply Ho, orient_same23).
  set (A := Scipy.vertex pts i) in *. set (B := Scipy.vertex pts j) in *.
  set (C := Scipy.vertex pts k) in *.
  pose proof (orient_swap12 A B C). pose proof (orient_swap23 A B C).
  pose proof (orient_swap12 A C B). pose proof (orient_swap23 B A C).
  pose proof (orient_swap12 B C A). pose proof (orient_swap23 C A B).
  pose proof (orient_swap12 C A B). pose proof (orient_swap23 B C A).
  assert (Cases : (i < j < k \/ i < k < j \/ j < i < k \/ j < k < i \/ k < i < j \/ k < j < i)%nat)
    by lia.
  destruct Cases as [Hc|[Hc|[Hc|[Hc|[Hc|Hc]]]]].
  - exists i, j, k. split; [|left; reflexivity].
    apply (in_Delaunay pts tri i j k H); [lia | exact Ho | exact Hcirc].
  - exists i, k, j. split; [|left; reflexivity].
    apply (in_Delaunay pts tri i k j H); [lia | fold A B C; lra |].
    intros d Hd. fold A B C. rewrite in_circle_swap23. apply Hcirc, Hd.
  - exists j, i, k. split; [|right; left; reflexivity].
    apply (in_Delaunay pts tri j i k H); [lia | fold A B C; lra |].
    intros d Hd. fold A B C. rewrite in_circle_swap12. apply Hcirc, Hd.
  - exists j, k, i. split; [|right; right; reflexivity].
    apply (in_Delaunay pts tri j k i H); [lia | fold A B C; lra |].
    intros d Hd. fold A B C. rewrite in_circle_swap23, in_circle_swap12. apply Hcirc, Hd.
  - exists k, i, j. split; [|right; left; reflexivity].
    apply (in_Delaunay pts tri k i j H); [lia | fold A B C; lra |].
    intros d Hd. fold A B C. rewrite in_circle_swap12, in_circle_swap23. apply Hcirc, Hd.
  - exists k, j, i. split; [|right; right; reflexivity].
    apply (in_Delaunay pts tri k j i H); [lia | fold A B C; lra |].
    intros d Hd. fold A B C.
    rewrite in_circle_swap12, in_circle_swap23, in_circle_swap12. apply Hcirc, Hd.
Qed.

Lemma inside_spec (pts : list point) (q : point) (i j k : nat) :
  Scipy.inside pts q (i, j, k) = true <->
  let a := Scipy.vertex pts i in
  let b := Scipy.vertex pts j in
  let c := Scipy.vertex pts k in
  0 <= orient q b c / orient a b c /\
  0 <= orient a q c / orient a b c /\
  0 <= orient a b q / orient a b c.
Proof.
  unfold Scipy.inside, Scipy.barycentric. cbv zeta.
  rewrite !andb_true_iff, !Qle_bool_iff. tauto.
Qed.

Lemma inside_peq (pts : list point) (q q' : point) (s : Scipy.simplex) :
  peq q q' -> Scipy.inside pts q s = true -> Scipy.inside pts q' s = true.
Proof.
  destruct s as [[i j] k]. intros Hq. rewrite !inside_spec. cbv zeta.
  rewrite (orient_peq q _ _ q' _ _ Hq (peq_refl _) (peq_refl _)).
  rewrite (orient_peq _ q _ _ q' _ (peq_refl _) Hq (peq_refl _)).
  rewrite (orient_peq _ _ q _ _ q' (peq_refl _) (peq_refl _) Hq).
  tauto.
Qed.

(** A simplex holds each of its vertices. *)
Lemma vertex_inside (pts : list point) (p : point) (i j k : nat) :
  ~ orient (Scipy.vertex pts i) (Scipy.vertex pts j) (Scipy.vertex pts k) == 0 ->
  Scipy.vertex pts i = p \/ Scipy.vertex pts j = p \/ Scipy.vertex pts k = p ->
  Scipy.inside pts p (i, j, k) = true.
Proof.
  intros Ho Hv. apply inside_spec. cbv zeta.
  set (a := Scipy.vertex pts i) in *. set (b := Scipy.vertex pts j) in *.
  set (c := Scipy.vertex pts k) in *.
  assert (E1 : orient a b c / orient a b c == 1) by (field; exact Ho).
  assert (Z : forall z, z == 0 -> z / orient a b c == 0).
  { intros z Hz. rewrite Hz. field. exact Ho. }
  destruct Hv as [<-|[<-|<-]].
  - rewrite E1, (Z _ (orient_same12 a c)), (Z _ (orient_same13 a b)). lra.
  - rewrite E1, (Z _ (orient_same12 b c)), (Z _ (orient_same23 a b)). lra.
  - rewrite E1, (Z _ (orient_same13 c b)), (Z _ (orient_same23 a c)). lra.
Qed.

Lemma find_exists {A : Type} (f : A -> bool) (l : list A) (x : A) :
  In x l -> f x = true -> exists y, find f l = Some y.
Proof.
  intros Hx Hf. destruct (find f l) as [y|] eqn:E; [eauto|].
  rewrite (find_none _ _ E x Hx) in Hf. discriminate.
Qed.

(** The location of an input point is always found in some simplex. *)
Lemma find_simplex_sample (pts : list point) (tri : list Scipy.simplex) (p q : point) :
  Scipy.Delaunay pts = Ok tri ->
  In p pts -> peq p q ->
  exists i j k,
    Scipy.find_simplex pts tri q = Some (i, j, k) /\
    In (i, j, k) tri /\
    Scipy.inside pts p (i, j, k) = true.
Proof.
  intros H Hp Hq.
  destruct (empty_circle_triangle pts p (Delaunay_has_triangle _ _ H) Hp)
    as (b & c & Hb & Hc & Ho & Hcirc).
  destruct (triangle_in_Delaunay pts tri p b c H Hp Hb Hc Ho Hcirc)
    as (i0 & j0 & k0 & Hin & Hv).
  destruct (Delaunay_simplices pts tri H i0 j0 k0 Hin) as (_ & Ho0 & _).
  pose proof (vertex_inside pts p i0 j0 k0 Ho0 Hv) as Hins.
  apply (inside_peq pts p q _ Hq) in Hins.
  destruct (find_exists (Scipy.inside pts q) tri _ Hin Hins) as [[[i j] k] Hfind].
  exists i, j, k. split; [exact Hfind|].
  apply find_some in Hfind. destruct Hfind as [Hin' Hins'].
  split; [exact Hin'|]. apply (inside_peq pts q p _ (peq_sym _ _ Hq)). exact Hins'.
Qed.

(** *** Exactness at the sample locations *)

Lemma nth_defined (values : list num) (l : nat) :
  (forall j u, nth_error values j = Some u -> u <> NaN) ->
  (l < List.length values)%nat ->
  exists w, nth_error values l = Some (Some w) /\ nth l values NaN = Some w.
Proof.
  intros Hdef Hl.
  destruct (nth_error values l) as [u|] eqn:E;
    [|apply nth_error_None in E; lia].
  destruct u as [w|]; [|exfalso; apply (Hdef l NaN E); reflexivity].
  exists w. split; [reflexivity|]. apply nth_error_nth. exact E.
Qed.

(** At the location of an input point the interpolant takes the value that
    the records at that location carry. *)
Lemma evaluate_sample (pts : list point) (values : list num) (tri : list Scipy.simplex)
      (i : nat) (p : point) (v x y : Q) :
  Scipy.Delaunay pts = Ok tri ->
  List.length values = List.length pts ->
  nth_error pts i = Some p ->
  x == fst p -> y == snd p ->
  (forall j p', nth_error pts j = Some p' -> peq p' p ->
                exists v', nth_error values j = Some (Some v') /\ v' == v) ->
  (forall j u, nth_error values j = Some u -> u <> NaN) ->
  exists w, Scipy.evaluate pts values tri (Some x, Some y) = Some w /\ w == v.
Proof.
  intros H Hlen Hi Hx Hy Hsame Hdef.
  assert (Hp : In p pts) by (eapply nth_error_In; exact Hi).
  assert (Hq : peq p (x, y)) by (split; simpl; symmetry; assumption).
  destruct (find_simplex_sample pts tri p (x, y) H Hp Hq)
    as (i1 & j1 & k1 & Hfind & Hin & Hins).
  destruct (Delaunay_simplices pts tri H i1 j1 k1 Hin) as (Hidx & Ho & Hcirc).
  specialize (Hcirc p Hp).
  set (a := Scipy.vertex pts i1) in *. set (b := Scipy.vertex pts j1) in *.
  set (c := Scipy.vertex pts k1) in *.
  apply inside_spec in Hins. cbv zeta in Hins. fold a b c in Hins.
  destruct Hins as (N0 & N1 & N2).
  pose proof (on_circle_in_triangle a b c p Ho Hcirc) as Hunit.
  pose proof (barycentric_spec a b c p Ho) as Hbary.
  unfold Scipy.barycentric in Hunit, Hbary.
  specialize (Hunit N0 N1 N2). destruct Hbary as (_ & Bx & By).
  (* the values at the three vertices are defined *)
  destruct (nth_defined values i1 Hdef) as (w1 & E1 & V1); [lia|].
  destruct (nth_defined values j1 Hdef) as (w2 & E2 & V2); [lia|].
  destruct (nth_defined values k1 Hdef) as (w3 & E3 & V3); [lia|].
  unfold Scipy.evaluate. rewrite Hfind. unfold Scipy.barycentric.
  fold a b c. rewrite V1, V2, V3. cbn [nadd nmul nlift2].
  eexists. split; [reflexivity|].
  rewrite <- (orient_peq p b c (x, y) b c Hq (peq_refl _) (peq_refl _)).
  rewrite <- (orient_peq a p c a (x, y) c (peq_refl _) Hq (peq_refl _)).
  rewrite <- (orient_peq a b p a b (x, y) (peq_refl _) (peq_refl _) Hq).
  assert (Hvert : forall l, (l < List.length pts)%nat ->
                            nth_error pts l = Some (Scipy.vertex pts l)).
  { intros l Hl. destruct (nth_error pts l) as [u|] eqn:E;
      [|apply nth_error_None in E; lia].
    f_equal. symmetry. unfold Scipy.vertex. apply nth_error_nth. exact E. }
  destruct Hunit as [(U0 & U1 & U2)|[(U0 & U1 & U2)|(U0 & U1 & U2)]];
    rewrite U0, U1, U2 in Bx, By; rewrite U0, U1, U2.
  - destruct (Hsame i1 a) as (v' & Ev & Hv); [apply Hvert; lia | split; lra |].
    assert (v' = w1) by congruence. subst v'. rewrite <- Hv. ring.
  - destruct (Hsame j1 b) as (v' & Ev & Hv); [apply Hvert; lia | split; lra |].
    assert (v' = w2) by congruence. subst v'. rewrite <- Hv. ring.
  - destruct (Hsame k1 c) as (v' & Ev & Hv); [apply Hvert; lia | split; lra |].
    assert (v' = w3) by congruence. subst v'. rewrite <- Hv. ring.
Qed.

(** C9 (as the code has it). With at least three non-collinear points the
    interpolator returns, and at a lattice node that coincides with an input
    point the value of an attribute equals the value of that point, provided
    the records at that location agree on the attribute and no record has
    an undefined value for it. *)
Theorem interpolate_exact_at_samples :
  forall (gdf : GeoDataFrame Q) (ms : list string),
    well_formed gdf ->
    has_triangle (geometry gdf) ->
    (forall m, In m ms -> lookup m (columns gdf) <> None) ->
    exists out,
      interpolate_point_measures gdf ms = Ok out /\
      forall m values i p v k x y,
        In m ms ->
        lookup m (columns gdf) = Some values ->
        nth_error (geometry gdf) i = Some p ->
        nth_error values i = Some (Some v) ->
        nth_error (geometry out) k = Some (Some x, Some y) ->
        x == fst p -> y == snd p ->
        (forall j p' v', nth_error (geometry gdf) j = Some p' -> peq p' p ->
                         nth_error values j = Some (Some v') -> v' == v) ->
        (forall j u, nth_error values j = Some u -> u <> NaN) ->
        exists w, value_at out m k = Some (Some w) /\ w == v.
Proof.
  intros gdf ms Hwf Ht Hall.
  destruct (interpolate_on_succeeds 500 gdf ms Hwf Ht Hall) as [out Hout].
  exists out. split; [exact Hout|].
  intros m values i p v k x y Hm Hl Hi Hv Hk Hx Hy Hagree Hdef.
  destruct (interpolate_on_value_at 500 gdf ms out m k _ Hwf Hout Hm Hk)
    as (values' & tri & Hl' & Htri & ->).
  assert (values' = values) by congruence. subst values'.
  pose proof (lookup_length gdf Hwf m values Hl) as Hlen.
  destruct (evaluate_sample (geometry gdf) values tri i p v x y Htri Hlen Hi Hx Hy)
    as (w & -> & Hw).
  - intros j p' Hj Hpeq.
    destruct (nth_defined values j Hdef) as (v' & Ev & _).
    { rewrite Hlen. apply (proj1 (nth_error_Some (geometry gdf) j)).
      intro E. pose proof (eq_trans (eq_sym Hj) E) as F. discriminate F. }
    exists v'. split; [exact Ev | apply (Hagree j p' v' Hj Hpeq Ev)].
  - exact Hdef.
  - exists w. split; [reflexivity | exact Hw].
Qed.

Lemma interpolate_exact_at_samples_witness :
  exists out,
    interpolate_point_measures three_points ["temp"%string] = Ok out /\
    forall m values i p v k x y,
      In m ["temp"%string] ->
      lookup m (columns three_points) = Some values ->
      nth_error (geometry three_points) i = Some p ->
      nth_error values i = Some (Some v) ->
      nth_error (geometry out) k = Some (Some x, Some y) ->
      x == fst p -> y == snd p ->
      (forall j p' v', nth_error (geometry three_points) j = Some p' -> peq p' p ->
                       nth_error values j = Some (Some v') -> v' == v) ->
      (forall j u, nth_error values j = Some u -> u <> NaN) ->
      exists w, value_at out m k = Some (Some w) /\ w == v.
Proof.
  apply (interpolate_exact_at_samples three_points ["temp"%string]).
  - exact three_points_well_formed.
  - exact three_points_has_triangle.
  - intros m [<-|[]]. discriminate.
Defined.

Lemma coincident_points_well_formed : well_formed coincident_points.
Proof. intros name col [[= <- <-]|[]]. reflexivity. Qed.

Lemma coincident_points_has_triangle : has_triangle (geometry coincident_points).
Proof.
  exists (0, 0), (1, 0), (0, 1). simpl.
  repeat split; auto. discriminate.
Qed.

(** The first node of the lattice of a frame whose bounds start at (0,0). *)
Lemma first_node_origin (gdf : GeoDataFrame Q) (out : GeoDataFrame num) (ms : list string)
      (xmax ymax : Q) :
  well_formed gdf ->
  Geopandas.total_bounds (geometry gdf) = (Some 0, Some 0, Some xmax, Some ymax) ->
  interpolate_on 500 gdf ms = Ok out ->
  node_at (geometry out) 0 0 0.
Proof.
  intros Hwf Hb Hout.
  destruct (interpolate_on_shape 500 gdf ms out Hwf Hout) as (Hgeo & _).
  rewrite Hgeo. unfold lattice. rewrite Hb.
  assert (Hn : (2 <= 500)%nat) by (apply Nat.leb_le; reflexivity).
  destruct (mgrid_flat_corners 0 xmax 0 ymax 500 Hn) as (Hc & _). exact Hc.
Qed.

(** C9, as stated, fails: two records sit at (0,0), the first node of the
    lattice, one with the value 10 and one with 99; the node has one value
    and cannot equal both. *)
Lemma coincident_samples_disagree :
  has_triangle (geometry coincident_points) /\
  exists out,
    interpolate_point_measures coincident_points ["temp"%string] = Ok out /\
    node_at (geometry out) 0 0 0 /\
    ~ (forall i p v,
          nth_error (geometry coincident_points) i = Some p ->
          nth_error [Some 10; Some 99; Some 20; Some 30] i = Some (Some v) ->
          peq p (0, 0) ->
          exists w, value_at out "temp" 0 = Some (Some w) /\ w == v).
Proof.
  split; [exact coincident_points_has_triangle|].
  destruct (interpolate_on_succeeds 500 coincident_points ["temp"%string]
              coincident_points_well_formed coincident_points_has_triangle) as [out Hout].
  { intros m [<-|[]]. discriminate. }
  exists out. split; [exact Hout|]. split.
  - apply (first_node_origin coincident_points out ["temp"%string] 1 1
             coincident_points_well_formed); [reflexivity | exact Hout].
  - intro Hclaim.
    destruct (Hclaim 0%nat (0, 0) 10) as (w1 & E1 & H1);
      [reflexivity | reflexivity | apply peq_refl |].
    destruct (Hclaim 1%nat (0, 0) 99) as (w2 & E2 & H2);
      [reflexivity | reflexivity | apply peq_refl |].
    assert (w1 = w2) by congruence. subst w2.
    rewrite H1 in H2. discriminate.
Qed.

Lemma gap_points_well_formed : well_formed gap_points.
Proof. intros name col [[= <- <-]|[]]. reflexivity. Qed.

Lemma gap_points_has_triangle : has_triangle (geometry gap_points).
Proof.
  exists (0, 0), (1, 0), (0, 1). simpl.
  repeat split; auto. discriminate.
Qed.

(** An undefined value at one vertex makes the whole simplex undefined,
    also at the other vertices: the sample (0,0) with value 10 is the first
    node of the lattice, and the interpolated value there is NaN. *)
Example interpolate_gap_spreads :
  exists out,
    interpolate_point_measures gap_points ["temp"%string] = Ok out /\
    node_at (geometry out) 0 0 0 /\
    value_at out "temp" 0 = Some NaN.
Proof.
  destruct (interpolate_on_succeeds 500 gap_points ["temp"%string]
              gap_points_well_formed gap_points_has_triangle) as [out Hout].
  { intros m [<-|[]]. discriminate. }
  exists out. split; [exact Hout|].
  pose proof (first_node_origin gap_points out ["temp"%string] 1 1
                gap_points_well_formed eq_refl Hout) as Hnode.
  split; [exact Hnode|].
  destruct (interpolate_on_shape 500 _ _ _ gap_points_well_formed Hout) as (Hgeo & _).
  assert (Hk : nth_error (geometry out) 0
               = Some (Some (of_nat 0 * ((1 - 0) / of_nat (500 - 1)) + 0),
                       Some (of_nat 0 * ((1 - 0) / of_nat (500 - 1)) + 0))).
  { rewrite Hgeo.
    change (lattice 500 gap_points)
      with (Numpy.mgrid_flat (Some 0) (Some 1) (Some 0) (Some 1) 500).
    apply (mgrid_flat_nth_error _ _ _ _ 500 0 0);
      (rewrite axis_nth_error by (apply Nat.ltb_lt; reflexivity)); reflexivity. }
  destruct (interpolate_on_value_at 500 _ _ _ "temp" 0 _ gap_points_well_formed Hout
              (or_introl eq_refl) Hk) as (values & tri & Hl & Ht & ->).
  vm_compute in Hl, Ht. injection Hl as <-. injection Ht as <-.
  vm_compute. reflexivity.
Qed.

(** * Further properties of the grid generator *)




Section Sweep.

Variable poly : Shapely.Polygon.
Variables maxy resolution_m : Q.


Variables miny maxx : Q.


End Sweep.



Section Stuck.

Variable poly : Shapely.Polygon.
Variables miny maxx maxy resolution_m : Q.


End Stuck.



(** * Further properties of the surface interpolator *)

Lemma three_points_with_clay_well_formed : well_formed three_points_with_clay.
Proof.
  intros name col [[= <- <-]|[[= <- <-]|[]]]; reflexivity.
Qed.

Lemma filter_twice {A : Type} (f g : A -> bool) (l : list A) :
  filter f (filter g l) = filter (fun x => g x && f x) l.
Proof.
  induction l as [|a l IH]; simpl; [reflexivity|].
  destruct (g a); simpl; [destruct (f a)|]; rewrite IH; reflexivity.
Qed.

Lemma keys_dict_set (d : list (string * list num)) (k : string) (v : list num) :
  map fst (dict_set d k v)
  = if existsb (String.eqb k) (map fst d) then map fst d else map fst d ++ [k].
Proof.
  induction d as [|[k0 v0] d IH]; simpl; [reflexivity|].
  rewrite (String.eqb_sym k k0).
  destruct (String.eqb k0 k) eqn:E; simpl.
  - reflexivity.
  - rewrite IH. destruct (existsb (String.eqb k) (map fst d)); reflexivity.
Qed.

Lemma for_measures_keys (gdf : GeoDataFrame Q) (pts : list point) (grid : list (num * num)) :
  forall ms data data',
    for_measures gdf pts grid ms data = Ok data' ->
    map fst data' = map fst data ++ filter (absent (map fst data)) (first_occurrences ms).
Proof.
  induction ms as [|m ms IH]; intros data data' H.
  - injection H as <-. simpl. symmetry. apply app_nil_r.
  - simpl in H. destruct (getitem gdf m) as [values|e]; [|discriminate]. simpl in H.
    destruct (Scipy.griddata pts values grid) as [col|e]; [|discriminate]. simpl in H.
    apply IH in H. rewrite H, keys_dict_set. clear H IH.
    cbn [first_occurrences filter]. unfold absent at 2.
    destruct (existsb (String.eqb m) (map fst data)) eqn:E; cbn [negb].
    + f_equal. rewrite filter_twice. apply filter_ext_in. intros x _.
      destruct (String.eqb_spec x m) as [->|]; [|reflexivity].
      unfold absent. rewrite E. reflexivity.
    + rewrite <- app_assoc. f_equal. cbn [app]. f_equal.
      rewrite filter_twice. apply filter_ext. intro x.
      unfold absent. rewrite existsb_app. cbn [existsb]. rewrite orb_false_r.
      rewrite negb_orb, andb_comm. reflexivity.
Qed.

(** X3. The attribute columns of an output are the requested attributes,
    each once, in the order of their first request: a repeated request does
    not make a second column. *)
Theorem interpolate_columns_in_request_order :
  forall (gdf : GeoDataFrame Q) (ms : list string) (out : GeoDataFrame num),
    interpolate_point_measures gdf ms = Ok out ->
    map fst (columns out) = first_occurrences ms.
Proof.
  intros gdf ms out H. unfold interpolate_point_measures in H.
  rewrite interpolate_on_unfold in H.
  destruct (for_measures gdf (geometry gdf) (lattice 500 gdf) ms []) as [data|e] eqn:Hrun;
    [|discriminate].
  injection H as <-. cbn [columns].
  rewrite (for_measures_keys _ _ _ _ _ _ Hrun). cbn [map app].
  apply forallb_filter_id. apply forallb_forall. intros x _. reflexivity.
Qed.

Lemma interpolate_columns_in_request_order_witness :
  exists out,
    interpolate_point_measures three_points_with_clay
      ["temp"%string; "clay"%string; "temp"%string] = Ok out /\
    map fst (columns out) = first_occurrences ["temp"%string; "clay"%string; "temp"%string].
Proof.
  destruct (interpolate_on_succeeds 500 three_points_with_clay
              ["temp"%string; "clay"%string; "temp"%string]
              three_points_with_clay_well_formed three_points_has_triangle) as [out Hout].
  { intros m [<-|[<-|[<-|[]]]]; discriminate. }
  exists out. split; [exact Hout|].
  apply (interpolate_columns_in_request_order three_points_with_clay _ out). exact Hout.
Defined.

Lemma nth_defined_in (values : list num) (i : nat) (v : Q) :
  nth i values NaN = Some v -> In (Some v) values.
Proof.
  intro H. destruct (nth_in_or_default i values NaN) as [Hin|Hd].
  - rewrite H in Hin. exact Hin.
  - rewrite H in Hd. discriminate.
Qed.

Lemma convex_combination_between (c0 c1 c2 v0 v1 v2 lo hi : Q) :
  0 <= c0 -> 0 <= c1 -> 0 <= c2 -> c0 + c1 + c2 == 1 ->
  lo <= v0 <= hi -> lo <= v1 <= hi -> lo <= v2 <= hi ->
  lo <= 0 + c0 * v0 + c1 * v1 + c2 * v2 <= hi.
Proof.
  intros H0 H1 H2 Hs [L0 U0] [L1 U1] [L2 U2].
  assert (A0 : 0 <= c0 * (v0 - lo)) by (apply Qmult_le_0_compat; lra).
  assert (A1 : 0 <= c1 * (v1 - lo)) by (apply Qmult_le_0_compat; lra).
  assert (A2 : 0 <= c2 * (v2 - lo)) by (apply Qmult_le_0_compat; lra).
  assert (B0 : 0 <= c0 * (hi - v0)) by (apply Qmult_le_0_compat; lra).
  assert (B1 : 0 <= c1 * (hi - v1)) by (apply Qmult_le_0_compat; lra).
  assert (B2 : 0 <= c2 * (hi - v2)) by (apply Qmult_le_0_compat; lra).
  assert (E : lo == (c0 + c1 + c2) * lo) by (rewrite Hs; ring).
  assert (F : hi == (c0 + c1 + c2) * hi) by (rewrite Hs; ring).
  split.
  - rewrite E. 
    setoid_replace (0 + c0 * v0 + c1 * v1 + c2 * v2)
      with ((c0 + c1 + c2) * lo + (c0 * (v0 - lo) + c1 * (v1 - lo) + c2 * (v2 - lo))) by ring.
    lra.
  - rewrite F.
    setoid_replace (0 + c0 * v0 + c1 * v1 + c2 * v2)
      with ((c0 + c1 + c2) * hi - (c0 * (hi - v0) + c1 * (hi - v1) + c2 * (hi - v2))) by ring.
    lra.
Qed.

Lemma evaluate_between (pts : list point) (values : list num) (tri : list Scipy.simplex)
      (g : num * num) (lo hi v : Q) :
  Scipy.Delaunay pts = Ok tri ->
  (forall u, In (Some u) values -> lo <= u <= hi) ->
  Scipy.evaluate pts values tri g = Some v ->
  lo <= v <= hi.
Proof.
  intros Ht Hr H. unfold Scipy.evaluate in H.
  destruct g as [[x|] [y|]]; try discriminate.
  destruct (Scipy.find_simplex pts tri (x, y)) as [[[i j] k]|] eqn:Hf; [|discriminate].
  unfold Scipy.find_simplex in Hf. apply find_some in Hf. destruct Hf as [Hin Hins].
  destruct (Delaunay_simplices pts tri Ht i j k Hin) as (_ & Ho & _).
  pose proof (barycentric_spec _ _ _ (x, y) Ho) as Hb.
  unfold Scipy.inside in Hins.
  destruct (Scipy.barycentric (Scipy.vertex pts i) (Scipy.vertex pts j)
              (Scipy.vertex pts k) (x, y)) as [[c0 c1] c2].
  destruct Hb as (Hs & _ & _).
  apply andb_true_iff in Hins. destruct Hins as [Hins H2].
  apply andb_true_iff in Hins. destruct Hins as [H0 H1].
  apply Qle_bool_true in H0, H1, H2.
  destruct (nth i values NaN) as [vi|] eqn:Ei; [|discriminate].
  destruct (nth j values NaN) as [vj|] eqn:Ej; [|discriminate].
  destruct (nth k values NaN) as [vk|] eqn:Ek; [|discriminate].
  simpl in H. injection H as <-.
  apply convex_combination_between; trivial; apply Hr;
    [apply (nth_defined_in _ i) | apply (nth_defined_in _ j) | apply (nth_defined_in _ k)];
    assumption.
Qed.

(** X5. Linear interpolation does not overshoot: when the values of an
    attribute that are defined lie between [lo] and [hi], so does every
    defined value of the interpolated column. *)
Theorem interpolate_within_range :
  forall (gdf : GeoDataFrame Q) (ms : list string) (out : GeoDataFrame num)
         (m : string) (values : list num) (lo hi : Q),
    well_formed gdf ->
    interpolate_point_measures gdf ms = Ok out ->
    In m ms ->
    lookup m (columns gdf) = Some values ->
    (forall u, In (Some u) values -> lo <= u <= hi) ->
    forall k v, value_at out m k = Some (Some v) -> lo <= v <= hi.
Proof.
  intros gdf ms out m values lo hi Hwf H Hm Hl Hr k v Hv.
  unfold interpolate_point_measures in H.
  destruct (interpolate_on_values 500 gdf ms out m Hwf H Hm) as (values' & tri & Hl' & Ht & Hc).
  assert (values' = values) by congruence. subst values'.
  unfold value_at in Hv. rewrite Hc in Hv.
  rewrite nth_error_map in Hv.
  destruct (nth_error (lattice 500 gdf) k) as [g|]; [|discriminate].
  injection Hv as Hv.
  exact (evaluate_between _ _ _ g lo hi v Ht Hr Hv).
Qed.

Lemma interpolate_within_range_witness :
  exists out,
    interpolate_point_measures three_points ["temp"%string] = Ok out /\
    forall k v, value_at out "temp" k = Some (Some v) -> 10 <= v <= 30.
Proof.
  destruct (interpolate_on_succeeds 500 three_points ["temp"%string]
              three_points_well_formed three_points_has_triangle) as [out Hout].
  { intros m [<-|[]]. discriminate. }
  exists out. split; [exact Hout|].
  apply (interpolate_within_range three_points ["temp"%string] out "temp"
           [Some 10; Some 20; Some 30]).
  - exact three_points_well_formed.
  - exact Hout.
  - left. reflexivity.
  - reflexivity.
  - intros u [E|[E|[E|[]]]]; injection E as <-; lra.
Defined.

(** X4. The surface of an attribute depends on the points and on the
    column of that attribute only: two calls on frames with the same points
    and the same column, whatever else the frames hold and whatever else is
    requested, build the same lattice and the same interpolated column. *)
Theorem interpolate_attribute_independent :
  forall (gdf1 gdf2 : GeoDataFrame Q) (ms1 ms2 : list string)
         (out1 out2 : GeoDataFrame num) (m : string),
    well_formed gdf1 -> well_formed gdf2 ->
    geometry gdf1 = geometry gdf2 ->
    lookup m (columns gdf1) = lookup m (columns gdf2) ->
    In m ms1 -> In m ms2 ->
    interpolate_point_measures gdf1 ms1 = Ok out1 ->
    interpolate_point_measures gdf2 ms2 = Ok out2 ->
    geometry out1 = geometry out2 /\
    lookup m (columns out1) = lookup m (columns out2).
Proof.
  intros gdf1 gdf2 ms1 ms2 out1 out2 m Hwf1 Hwf2 Hg Hc Hm1 Hm2 H1 H2.
  unfold interpolate_point_measures in *.
  destruct (interpolate_on_shape 500 gdf1 ms1 out1 Hwf1 H1) as (G1 & _).
  destruct (interpolate_on_shape 500 gdf2 ms2 out2 Hwf2 H2) as (G2 & _).
  destruct (interpolate_on_values 500 gdf1 ms1 out1 m Hwf1 H1 Hm1) as (v1 & t1 & L1 & T1 & C1).
  destruct (interpolate_on_values 500 gdf2 ms2 out2 m Hwf2 H2 Hm2) as (v2 & t2 & L2 & T2 & C2).
  assert (Hlat : lattice 500 gdf1 = lattice 500 gdf2) by (unfold lattice; rewrite Hg; reflexivity).
  split; [rewrite G1, G2; exact Hlat|].
  rewrite C1, C2, Hlat. rewrite Hg in T1. rewrite Hg.
  assert (v1 = v2) by congruence. assert (t1 = t2) by congruence. subst. reflexivity.
Qed.

Lemma interpolate_attribute_independent_witness :
  exists out1 out2,
    interpolate_point_measures three_points ["temp"%string] = Ok out1 /\
    interpolate_point_measures three_points_with_clay ["clay"%string; "temp"%string] = Ok out2 /\
    geometry out1 = geometry out2 /\
    lookup "temp" (columns out1) = lookup "temp" (columns out2).
Proof.
  destruct (interpolate_on_succeeds 500 three_points ["temp"%string]
              three_points_well_formed three_points_has_triangle) as [out1 Hout1].
  { intros m [<-|[]]. discriminate. }
  destruct (interpolate_on_succeeds 500 three_points_with_clay ["clay"%string; "temp"%string]
              three_points_with_clay_well_formed three_points_has_triangle) as [out2 Hout2].
  { intros m [<-|[<-|[]]]; discriminate. }
  exists out1, out2. split; [exact Hout1|]. split; [exact Hout2|].
  apply (interpolate_attribute_independent three_points three_points_with_clay
           ["temp"%string] ["clay"%string; "temp"%string] out1 out2 "temp").
  - exact three_points_well_formed.
  - exact three_points_with_clay_well_formed.
  - reflexivity.
  - reflexivity.
  - left. reflexivity.
  - right. left. reflexivity.
  - exact Hout1.
  - exact Hout2.
Defined.

Lemma of_nat_le (i n : nat) : (i <= n)%nat -> of_nat i <= of_nat n.
Proof. intro H. unfold of_nat. rewrite <- Zle_Qle. lia. Qed.

(** Node [i * n + j] of the flattened lattice is the [i]-th abscissa with
    the [j]-th ordinate, each a whole number of steps from the minimum and
    within the bounds. *)
Lemma mgrid_flat_nodes (xmin xmax ymin ymax : Q) (n i j : nat) :
  (2 <= n)%nat -> (i < n)%nat -> (j < n)%nat ->
  xmin <= xmax -> ymin <= ymax ->
  let x := xmin + of_nat i * ((xmax - xmin) / of_nat (n - 1)) in
  let y := ymin + of_nat j * ((ymax - ymin) / of_nat (n - 1)) in
  node_at (Numpy.mgrid_flat (Some xmin) (Some xmax) (Some ymin) (Some ymax) n) (i * n + j) x y /\
  xmin <= x <= xmax /\ ymin <= y <= ymax.
Proof.
  intros Hn Hi Hj Hx Hy x y.
  assert (Hne : Nat.eqb n 1 = false) by (apply Nat.eqb_neq; lia).
  assert (Hd : 0 < of_nat (n - 1)).
  { unfold of_nat. change 0 with (inject_Z 0). rewrite <- Zlt_Qlt. lia. }
  assert (Hax : forall a b k, (k < n)%nat ->
              nth_error (Numpy.axis (Some a) (Some b) n) k
              = Some (Some (of_nat k * ((b - a) / of_nat (n - 1)) + a))).
  { intros a b k Hk. rewrite axis_nth_error by exact Hk. rewrite Hne. reflexivity. }
  assert (Hin : forall a b k, (k < n)%nat -> a <= b ->
              a <= a + of_nat k * ((b - a) / of_nat (n - 1)) <= b).
  { intros a b k Hk Hab.
    assert (Hs : 0 <= (b - a) / of_nat (n - 1)).
    { apply Qle_shift_div_l; [exact Hd | lra]. }
    assert (H0 : 0 <= of_nat k) by (rewrite <- of_nat_0; apply of_nat_le; lia).
    assert (H1 : of_nat k <= of_nat (n - 1)) by (apply of_nat_le; lia).
    assert (L : 0 <= of_nat k * ((b - a) / of_nat (n - 1)))
      by (apply Qmult_le_0_compat; assumption).
    assert (U : of_nat k * ((b - a) / of_nat (n - 1))
                <= of_nat (n - 1) * ((b - a) / of_nat (n - 1)))
      by (apply Qmult_le_compat_r; assumption).
    assert (E : of_nat (n - 1) * ((b - a) / of_nat (n - 1)) == b - a)
      by (field; lra).
    rewrite E in U. lra. }
  split; [|split; [apply Hin | apply Hin]; assumption].
  exists (of_nat i * ((xmax - xmin) / of_nat (n - 1)) + xmin),
         (of_nat j * ((ymax - ymin) / of_nat (n - 1)) + ymin).
  split; [|split; unfold x, y; ring].
  apply (mgrid_flat_nth_error _ _ _ _ n i j); apply Hax; assumption.
Qed.

(** X6. The geometry of an output is flattened row by row: node
    [i * 500 + j] is the [i]-th of 500 evenly spaced abscissas with the
    [j]-th of 500 evenly spaced ordinates, and every node lies within the
    bounding box of the input points. *)
Theorem interpolate_lattice_row_major :
  forall (gdf : GeoDataFrame Q) (ms : list string) (out : GeoDataFrame num),
    well_formed gdf ->
    geometry gdf <> [] ->
    interpolate_point_measures gdf ms = Ok out ->
    exists xmin ymin xmax ymax,
      Geopandas.total_bounds (geometry gdf) = (Some xmin, Some ymin, Some xmax, Some ymax) /\
      forall i j,
        (i < 500)%nat -> (j < 500)%nat ->
        let x := xmin + of_nat i * ((xmax - xmin) / 499) in
        let y := ymin + of_nat j * ((ymax - ymin) / 499) in
        node_at (geometry out) (i * 500 + j) x y /\
        xmin <= x <= xmax /\ ymin <= y <= ymax.
Proof.
  intros gdf ms out Hwf Hne H. unfold interpolate_point_measures in H.
  destruct (interpolate_on_shape 500 gdf ms out Hwf H) as (Hgeo & _).
  destruct (total_bounds_spec (geometry gdf) Hne) as (xmin & ymin & xmax & ymax & Hb & Hbox).
  exists xmin, ymin, xmax, ymax. split; [exact Hb|].
  intros i j Hi Hj.
  assert (Hlat : lattice 500 gdf
                 = Numpy.mgrid_flat (Some xmin) (Some xmax) (Some ymin) (Some ymax) 500).
  { unfold lattice. rewrite Hb. reflexivity. }
  assert (Hn : (2 <= 500)%nat) by (apply Nat.leb_le; reflexivity).
  destruct (geometry gdf) as [|p pts] eqn:Hg; [congruence|].
  destruct (Hbox p (or_introl eq_refl)) as [Hx Hy].
  assert (Hxx : xmin <= xmax) by lra.
  assert (Hyy : ymin <= ymax) by lra.
  pose proof (mgrid_flat_nodes xmin xmax ymin ymax 500 i j Hn Hi Hj Hxx Hyy) as Hnode.
  cbv zeta in Hnode. rewrite <- Hlat, <- Hgeo in Hnode.
  change (500 - 1)%nat with 499%nat in Hnode.
  assert (E : of_nat 499 == 499) by reflexivity.
  cbv zeta. destruct Hnode as (Hnode & Bx & By).
  unfold node_at in *. destruct Hnode as (x' & y' & Hnth & Ex & Ey).
  rewrite E in Bx, By.
  split; [|split; [exact Bx | exact By]].
  exists x', y'. split; [exact Hnth|]. rewrite Ex, Ey, E. split; reflexivity.
Qed.

Lemma interpolate_lattice_row_major_witness :
  exists out,
    interpolate_point_measures three_points ["temp"%string] = Ok out /\
    exists xmin ymin xmax ymax,
      Geopandas.total_bounds (geometry three_points)
      = (Some xmin, Some ymin, Some xmax, Some ymax) /\
      forall i j,
        (i < 500)%nat -> (j < 500)%nat ->
        let x := xmin + of_nat i * ((xmax - xmin) / 499) in
        let y := ymin + of_nat j * ((ymax - ymin) / 499) in
        node_at (geometry out) (i * 500 + j) x y /\
        xmin <= x <= xmax /\ ymin <= y <= ymax.
Proof.
  destruct (interpolate_on_succeeds 500 three_points ["temp"%string]
              three_points_well_formed three_points_has_triangle) as [out Hout].
  { intros m [<-|[]]. discriminate. }
  exists out. split; [exact Hout|].
  apply (interpolate_lattice_row_major three_points ["temp"%string] out).
  - exact three_points_well_formed.
  - discriminate.
  - exact Hout.
Defined.

Lemma samples_plane_vertex (a b c : Q) (pts : list point) (values : list num) (i : nat) (v : Q) :
  samples_plane a b c pts values ->
  (i < List.length pts)%nat ->
  nth i values NaN = Some v ->
  v == a * fst (Scipy.vertex pts i) + b * snd (Scipy.vertex pts i) + c.
Proof.
  intros Hs Hi Hv.
  destruct (nth_error pts i) as [p|] eqn:Hp; [|apply nth_error_None in Hp; lia].
  destruct (Hs i p Hp) as (v' & Hv' & E).
  unfold Scipy.vertex. rewrite (nth_error_nth _ _ _ Hp).
  rewrite (nth_error_nth _ _ NaN Hv') in Hv. injection Hv as <-. exact E.
Qed.

Lemma evaluate_plane (a b c : Q) (pts : list point) (values : list num)
      (tri : list Scipy.simplex) (x y v : Q) :
  Scipy.Delaunay pts = Ok tri ->
  samples_plane a b c pts values ->
  Scipy.evaluate pts values tri (Some x, Some y) = Some v ->
  v == a * x + b * y + c.
Proof.
  intros Ht Hs H. unfold Scipy.evaluate in H.
  destruct (Scipy.find_simplex pts tri (x, y)) as [[[i j] k]|] eqn:Hf; [|discriminate].
  unfold Scipy.find_simplex in Hf. apply find_some in Hf. destruct Hf as [Hin _].
  destruct (Delaunay_simplices pts tri Ht i j k Hin) as (Hidx & Ho & _).
  pose proof (barycentric_spec _ _ _ (x, y) Ho) as Hb.
  destruct (Scipy.barycentric (Scipy.vertex pts i) (Scipy.vertex pts j)
              (Scipy.vertex pts k) (x, y)) as [[c0 c1] c2].
  destruct Hb as (Hsum & Hx & Hy). cbn [fst snd] in Hx, Hy.
  destruct (nth i values NaN) as [vi|] eqn:Ei; [|discriminate].
  destruct (nth j values NaN) as [vj|] eqn:Ej; [|discriminate].
  destruct (nth k values NaN) as [vk|] eqn:Ek; [|discriminate].
  simpl in H. injection H as <-.
  rewrite (samples_plane_vertex a b c pts values i vi Hs) by (trivial; lia).
  rewrite (samples_plane_vertex a b c pts values j vj Hs) by (trivial; lia).
  rewrite (samples_plane_vertex a b c pts values k vk Hs) by (trivial; lia).
  rewrite Hx, Hy.
  setoid_replace c with ((c0 + c1 + c2) * c) at 4 by (rewrite Hsum; ring).
  ring.
Qed.

(** X15. Linear interpolation reproduces planes: when the input values of
    an attribute are [a x + b y + c] at every point, the interpolated value
    is [a x + b y + c] at every node where it is defined; a constant
    attribute stays constant. *)
Theorem interpolate_reproduces_planes :
  forall (gdf : GeoDataFrame Q) (ms : list string) (out : GeoDataFrame num)
         (m : string) (values : list num) (a b c : Q),
    well_formed gdf ->
    interpolate_point_measures gdf ms = Ok out ->
    In m ms ->
    lookup m (columns gdf) = Some values ->
    samples_plane a b c (geometry gdf) values ->
    forall k x y v,
      nth_error (geometry out) k = Some (Some x, Some y) ->
      value_at out m k = Some (Some v) ->
      v == a * x + b * y + c.
Proof.
  intros gdf ms out m values a b c Hwf H Hm Hl Hs k x y v Hk Hv.
  unfold interpolate_point_measures in H.
  destruct (interpolate_on_value_at 500 gdf ms out m k (Some x, Some y) Hwf H Hm Hk)
    as (values' & tri & Hl' & Ht & Hval).
  assert (values' = values) by congruence. subst values'.
  rewrite Hval in Hv. injection Hv as Hv.
  exact (evaluate_plane a b c _ _ tri x y v Ht Hs Hv).
Qed.

Lemma interpolate_reproduces_planes_witness :
  exists out,
    interpolate_point_measures three_points ["temp"%string] = Ok out /\
    forall k x y v,
      nth_error (geometry out) k = Some (Some x, Some y) ->
      value_at out "temp" k = Some (Some v) ->
      v == 10 * x + 20 * y + 10.
Proof.
  destruct (interpolate_on_succeeds 500 three_points ["temp"%string]
              three_points_well_formed three_points_has_triangle) as [out Hout].
  { intros m [<-|[]]. discriminate. }
  exists out. split; [exact Hout|].
  apply (interpolate_reproduces_planes three_points ["temp"%string] out "temp"
           [Some 10; Some 20; Some 30]).
  - exact three_points_well_formed.
  - exact Hout.
  - left. reflexivity.
  - reflexivity.
  - intros [|[|[|i]]] p Hp.
    + injection Hp as <-. exists 10. split; reflexivity.
    + injection Hp as <-. exists 20. split; reflexivity.
    + injection Hp as <-. exists 30. split; reflexivity.
    + destruct i; discriminate Hp.
Defined.

(** * The soil-grid client *)

Lemma bodies_cons (response : Requests.Response) (responses : list Requests.Response) :
  bodies (response :: responses)
  = (if accepted response
     then match Requests.body response with Some data => [data] | None => [] end
     else []) ++ bodies responses.
Proof.
  unfold bodies. cbn [filter]. destruct (accepted response); reflexivity.
Qed.

Lemma error_lines_cons (response : Requests.Response) (responses : list Requests.Response) :
  error_lines (response :: responses)
  = (if accepted response then []
     else [("Error: " ++ str (Requests.status_code response))%string])
    ++ error_lines responses.
Proof.
  unfold error_lines. cbn [filter]. destruct (accepted response); reflexivity.
Qed.

Lemma request_for_unfold (p : point) :
  {| Requests.url := url;
     Requests.params := [("lon"%string, fst p); ("lat"%string, snd p)] |}
  = request_for p.
Proof. reflexivity. Qed.

Lemma for_points_collects (net : Requests.Network) :
  forall points responses w api_responses,
    answers net (List.length (sent w)) points responses ->
    (forall response, In response responses -> accepted response = true ->
                      Requests.body response <> None) ->
    for_points net points w api_responses
    = (Py.Return (api_responses ++ bodies responses),
       {| sent := sent w ++ map request_for points;
          stdout := stdout w ++ error_lines responses |}).
Proof.
  induction points as [|p points IH]; intros [|response responses] w acc Ha Hb;
    try (destruct Ha; fail).
  - simpl. unfold bodies, error_lines. simpl. rewrite !app_nil_r. destruct w. reflexivity.
  - destruct Ha as [Hp Ha].
    cbn [for_points]. unfold requests_get. rewrite request_for_unfold, Hp.
    rewrite bodies_cons, error_lines_cons. fold (accepted response).
    destruct (accepted response) eqn:Hs.
    + assert (Hbody : Requests.body response <> None)
        by (apply Hb; [left; reflexivity | exact Hs]).
      unfold Requests.json.
      destruct (Requests.body response) as [data|] eqn:Hd; [|congruence].
      rewrite IH with (responses := responses).
      * cbn [sent stdout map]. rewrite <- !app_assoc. reflexivity.
      * cbn [sent]. rewrite length_app, Nat.add_1_r. exact Ha.
      * intros r Hr. apply Hb. right. exact Hr.
    + rewrite IH with (responses := responses).
      * unfold print. cbn [sent stdout map]. rewrite <- !app_assoc. reflexivity.
      * unfold print. cbn [sent]. rewrite length_app, Nat.add_1_r. exact Ha.
      * intros r Hr. apply Hb. right. exact Hr.
Qed.

(** X7. When no call raises, [get_all_soilgrid_for_points] returns the
    bodies of the replies with status 200, in the order of the points; a
    reply with another status adds the line ["Error: <status>"] to the
    output and nothing to the result, so the result can be shorter than the
    points; one request is sent per point, with its coordinates as [lon] and
    [lat]. *)
Theorem get_all_soilgrid_collects_accepted :
  forall (net : Requests.Network) (points : list point)
         (responses : list Requests.Response) (w : World),
    answers net (List.length (sent w)) points responses ->
    (forall response, In response responses -> accepted response = true ->
                      Requests.body response <> None) ->
    get_all_soilgrid_for_points net points w
    = (Py.Return (bodies responses),
       {| sent := sent w ++ map request_for points;
          stdout := stdout w ++ error_lines responses |}).
Proof.
  intros net points responses w Ha Hb. unfold get_all_soilgrid_for_points.
  rewrite (for_points_collects net points responses w [] Ha Hb). reflexivity.
Qed.

Lemma get_all_soilgrid_collects_accepted_witness :
  get_all_soilgrid_for_points sample_network sample_points quiet
  = (Py.Return [sample_response 5 52 (13 # 2) 20 40; sample_response 6 53 7 30 50],
     {| sent := map request_for sample_points;
        stdout := ["Error: 404"%string] |}).
Proof.
  apply (get_all_soilgrid_collects_accepted sample_network sample_points
           [{| Requests.status_code := 200;
               Requests.body := Some (sample_response 5 52 (13 # 2) 20 40) |};
            {| Requests.status_code := 404; Requests.body := None |};
            {| Requests.status_code := 200;
               Requests.body := Some (sample_response 6 53 7 30 50) |}] quiet).
  - simpl. repeat split.
  - intros response [<-|[<-|[<-|[]]]]; simpl; discriminate.
Defined.

Lemma for_points_accounts (net : Requests.Network) :
  forall points w api_responses api_responses' w',
    for_points net points w api_responses = (Py.Return api_responses', w') ->
    (List.length api_responses' + List.length (stdout w')
     = List.length api_responses + List.length (stdout w) + List.length points)%nat /\
    (List.length (stdout w) <= List.length (stdout w'))%nat /\
    (List.length (sent w') = List.length (sent w) + List.length points)%nat.
Proof.
  induction points as [|p points IH]; intros w acc acc' w' H.
  - simpl in H. injection H as <- <-. simpl. lia.
  - cbn [for_points] in H. unfold requests_get in H.
    destruct (net _ _) as [response|e]; [|discriminate].
    destruct (Requests.status_code response =? 200)%Z.
    + destruct (Requests.json response) as [data|e]; [|discriminate].
      apply IH in H. cbn [sent stdout] in H. rewrite !length_app in H. simpl in *. lia.
    + apply IH in H. unfold print in H. cbn [sent stdout] in H.
      rewrite !length_app in H. simpl in *. lia.
Qed.

(** X8. Whenever [get_all_soilgrid_for_points] returns, every point is
    accounted for by one response in the result or by one printed line, and
    one request was sent per point. *)
Theorem get_all_soilgrid_accounts_for_points :
  forall (net : Requests.Network) (points : list point) (w w' : World)
         (api_responses : list Py.json),
    get_all_soilgrid_for_points net points w = (Py.Return api_responses, w') ->
    (List.length api_responses + (List.length (stdout w') - List.length (stdout w))
     = List.length points)%nat /\
    (List.length (stdout w) <= List.length (stdout w'))%nat /\
    (List.length (sent w') = List.length (sent w) + List.length points)%nat.
Proof.
  intros net points w w' rs H. unfold get_all_soilgrid_for_points in H.
  apply for_points_accounts in H. simpl in H. lia.
Qed.

Lemma get_all_soilgrid_accounts_for_points_witness :
  (List.length [sample_response 5 52 (13 # 2) 20 40; sample_response 6 53 7 30 50]
   + (List.length ["Error: 404"%string] - List.length (stdout quiet))
   = List.length sample_points)%nat /\
  (List.length (stdout quiet) <= List.length ["Error: 404"%string])%nat /\
  (List.length (map request_for sample_points)
   = List.length (sent quiet) + List.length sample_points)%nat.
Proof.
  apply (get_all_soilgrid_accounts_for_points sample_network sample_points
           quiet
           {| sent := map request_for sample_points;
              stdout := ["Error: 404"%string] |}
           [sample_response 5 52 (13 # 2) 20 40; sample_response 6 53 7 30 50]).
  reflexivity.
Defined.

Lemma for_points_aborts (net : Requests.Network) :
  forall before responses p after e w api_responses,
    answers net (List.length (sent w)) before responses ->
    (forall response, In response responses -> accepted response = true ->
                      Requests.body response <> None) ->
    (net (List.length (sent w) + List.length before)%nat (request_for p) = Py.Throw e \/
     exists response,
       net (List.length (sent w) + List.length before)%nat (request_for p)
       = Py.Return response /\
       accepted response = true /\ Requests.body response = None /\
       e = Py.JSONDecodeError) ->
    for_points net (before ++ p :: after) w api_responses
    = (Py.Throw e,
       {| sent := sent w ++ map request_for (before ++ [p]);
          stdout := stdout w ++ error_lines responses |}).
Proof.
  induction before as [|q before IH]; intros [|response responses] p after e w acc Ha Hb Hp;
    try (destruct Ha; fail).
  - cbn [app for_points]. unfold requests_get. rewrite request_for_unfold.
    simpl in Hp. rewrite Nat.add_0_r in Hp.
    unfold error_lines. cbn [filter map]. rewrite app_nil_r.
    destruct Hp as [Hp|(response & Hp & Hs & Hd & ->)]; rewrite Hp; [reflexivity|].
    fold (accepted response). rewrite Hs. unfold Requests.json. rewrite Hd. reflexivity.
  - destruct Ha as [Hq Ha].
    cbn [app for_points]. unfold requests_get. rewrite request_for_unfold, Hq.
    rewrite error_lines_cons. fold (accepted response).
    assert (Hnext : forall w1 : World,
               List.length (sent w1) = S (List.length (sent w)) ->
               (List.length (sent w1) + List.length before
                = List.length (sent w) + List.length (q :: before))%nat)
      by (intros w1 E; rewrite E; simpl; lia).
    destruct (accepted response) eqn:Hs.
    + assert (Hbody : Requests.body response <> None)
        by (apply Hb; [left; reflexivity | exact Hs]).
      unfold Requests.json.
      destruct (Requests.body response) as [data|] eqn:Hd; [|congruence].
      rewrite IH with (responses := responses) (e := e).
      * cbn [sent stdout map app]. rewrite <- !app_assoc. reflexivity.
      * cbn [sent]. rewrite length_app, Nat.add_1_r. exact Ha.
      * intros r Hr. apply Hb. right. exact Hr.
      * rewrite Hnext; [exact Hp|]. cbn [sent]. rewrite length_app. simpl. lia.
    + rewrite IH with (responses := responses) (e := e).
      * unfold print. cbn [sent stdout map app]. rewrite <- !app_assoc. reflexivity.
      * unfold print. cbn [sent]. rewrite length_app, Nat.add_1_r. exact Ha.
      * intros r Hr. apply Hb. right. exact Hr.
      * rewrite Hnext; [exact Hp|]. unfold print. cbn [sent]. rewrite length_app. simpl. lia.
Qed.

(** X9. An exception from [requests.get], or a reply with status 200
    whose body is not JSON, ends [get_all_soilgrid_for_points]: the
    exception propagates, the responses collected so far are not returned,
    and no request is sent for the points that follow. *)
Theorem get_all_soilgrid_aborts_on_exception :
  forall (net : Requests.Network) (before after : list point) (p : point)
         (responses : list Requests.Response) (e : Py.error) (w : World),
    answers net (List.length (sent w)) before responses ->
    (forall response, In response responses -> accepted response = true ->
                      Requests.body response <> None) ->
    (net (List.length (sent w) + List.length before)%nat (request_for p) = Py.Throw e \/
     exists response,
       net (List.length (sent w) + List.length before)%nat (request_for p)
       = Py.Return response /\
       accepted response = true /\ Requests.body response = None /\
       e = Py.JSONDecodeError) ->
    get_all_soilgrid_for_points net (before ++ p :: after) w
    = (Py.Throw e,
       {| sent := sent w ++ map request_for (before ++ [p]);
          stdout := stdout w ++ error_lines responses |}).
Proof.
  intros net before after p responses e w Ha Hb Hp.
  unfold get_all_soilgrid_for_points.
  exact (for_points_aborts net before responses p after e w [] Ha Hb Hp).
Qed.

Lemma get_all_soilgrid_aborts_on_exception_witness :
  get_all_soilgrid_for_points sample_network
    (sample_points ++ (6, 54) :: [(7, 54)]) quiet
  = (Py.Throw Py.JSONDecodeError,
     {| sent := sent quiet ++ map request_for (sample_points ++ [(6, 54)]);
        stdout := stdout quiet
                  ++ error_lines
                       [{| Requests.status_code := 200;
                           Requests.body := Some (sample_response 5 52 (13 # 2) 20 40) |};
                        {| Requests.status_code := 404; Requests.body := None |};
                        {| Requests.status_code := 200;
                           Requests.body := Some (sample_response 6 53 7 30 50) |}] |}).
Proof.
  apply (get_all_soilgrid_aborts_on_exception sample_network).
  - simpl. repeat split.
  - intros response [<-|[<-|[<-|[]]]]; simpl; discriminate.
  - right. eexists. simpl. repeat split.
Defined.

(** * Formatting the replies *)

Lemma comprehension_spec {A B : Type} (f : A -> Py.outcome B) (xs : list A) (ys : list B) :
  Py.comprehension f xs = Py.Return ys <-> Forall2 (fun x y => f x = Py.Return y) xs ys.
Proof.
  revert ys. induction xs as [|x xs IH]; intros ys; simpl.
  - split.
    + intros [= <-]. constructor.
    + intro H. inversion H. reflexivity.
  - split.
    + intro H. destruct (f x) as [y|e] eqn:Hx; [|discriminate]. simpl in H.
      destruct (Py.comprehension f xs) as [ys'|e]; [|discriminate]. simpl in H.
      injection H as <-. constructor; [exact Hx | apply IH; reflexivity].
    + intro H. inversion H as [|x' y xs' ys' Hx Hrest]. subst.
      rewrite Hx. simpl. apply IH in Hrest. rewrite Hrest. reflexivity.
Qed.

Lemma comprehension_ext {A B : Type} (f g : A -> Py.outcome B) (xs : list A) :
  (forall x, f x = g x) -> Py.comprehension f xs = Py.comprehension g xs.
Proof.
  intro H. induction xs as [|x xs IH]; simpl; [reflexivity|]. rewrite H, IH. reflexivity.
Qed.

Lemma value_in_property (feat_key : string) (api_response : Py.json) :
  (properties <~ feature_properties api_response ;;
   entry <~ Py.getitem properties (Py.Key feat_key) ;;
   Py.getitem entry (Py.Key "value"))
  = value_in feat_key None api_response.
Proof.
  unfold value_in, entry_at.
  destruct (feature_properties api_response) as [properties|e]; [|reflexivity]. simpl.
  destruct (Py.getitem properties (Py.Key feat_key)); reflexivity.
Qed.

Lemma value_in_group (feat_key nested_key : string) (api_response : Py.json) :
  (properties <~ feature_properties api_response ;;
   group <~ Py.getitem properties (Py.Key feat_key) ;;
   entry <~ Py.getitem group (Py.Key nested_key) ;;
   Py.getitem entry (Py.Key "value"))
  = value_in feat_key (Some nested_key) api_response.
Proof.
  unfold value_in, entry_at.
  destruct (feature_properties api_response) as [properties|e]; [|reflexivity]. simpl.
  destruct (Py.getitem properties (Py.Key feat_key)); reflexivity.
Qed.

Lemma has_metadata_keys (x : Py.json) (feat_keys : list string) :
  Py.keys x = Py.Return feat_keys ->
  existsb (String.eqb "metadata") feat_keys = has_metadata x.
Proof.
  destruct x; simpl; try discriminate. intros [= <-]. reflexivity.
Qed.

Section Recorded.

Variable api_responses : list Py.json.

Lemma for_nested_recorded (feat_key : string) :
  forall nested gdf gdf',
    for_nested recorder api_responses feat_key nested gdf = Py.Return gdf' ->
    exists cols,
      gdf' = {| given := given gdf; assigned := assigned gdf ++ cols |} /\
      Forall2 (column_of api_responses)
              (map (fun nkv => (feat_key, Some (fst nkv), snd nkv)) nested) cols.
Proof.
  induction nested as [|[nested_key nested_value] nested IH]; intros gdf gdf' H.
  - injection H as <-. exists []. rewrite app_nil_r. destruct gdf. split; [reflexivity | constructor].
  - cbn [for_nested] in H.
    rewrite (comprehension_ext _ _ _ (value_in_group feat_key nested_key)) in H.
    destruct (Py.comprehension (value_in feat_key (Some nested_key)) api_responses)
      as [values|e] eqn:Hv; [|discriminate].
    cbn [Py.bind] in H.
    destruct (short_description nested_value) as [label|e] eqn:Hl; [|discriminate].
    cbn [Py.bind setitem recorder] in H.
    apply IH in H. destruct H as (cols & -> & Hcols).
    exists ((label, values) :: cols). cbn [given assigned]. rewrite <- app_assoc.
    split; [reflexivity|]. cbn [map]. constructor; [|exact Hcols].
    split; [exact Hl|]. apply comprehension_spec. exact Hv.
Qed.

Lemma for_features_recorded :
  forall features gdf gdf',
    for_features recorder api_responses features gdf = Py.Return gdf' ->
    exists cols,
      gdf' = {| given := given gdf; assigned := assigned gdf ++ cols |} /\
      Forall2 (column_of api_responses) (column_sources features) cols.
Proof.
  induction features as [|[feat_key feat_value] features IH]; intros gdf gdf' H.
  - injection H as <-. exists []. rewrite app_nil_r. destruct gdf. split; [reflexivity | constructor].
  - cbn [for_features] in H.
    destruct (Py.keys feat_value) as [feat_keys|e] eqn:Hk; [|discriminate].
    cbn [Py.bind] in H. rewrite (has_metadata_keys _ _ Hk) in H.
    unfold column_sources. cbn [flat_map fst snd]. fold (column_sources features).
    destruct (has_metadata feat_value) eqn:Hm.
    + rewrite (comprehension_ext _ _ _ (value_in_property feat_key)) in H.
      destruct (Py.comprehension (value_in feat_key None) api_responses)
        as [values|e] eqn:Hv; [|discriminate].
      cbn [Py.bind] in H.
      destruct (short_description feat_value) as [label|e] eqn:Hl; [|discriminate].
      cbn [Py.bind setitem recorder] in H.
      apply IH in H. destruct H as (cols & -> & Hcols).
      exists ((label, values) :: cols). cbn [given assigned]. rewrite <- app_assoc.
      split; [reflexivity|]. cbn [app]. constructor; [|exact Hcols].
      split; [exact Hl|]. apply comprehension_spec. exact Hv.
    + destruct feat_value as [| | | | |nested]; try discriminate. cbn [Py.items Py.bind] in H.
      destruct (for_nested recorder api_responses feat_key nested gdf) as [gdf1|e] eqn:Hn;
        [|discriminate].
      cbn [Py.bind] in H.
      apply for_nested_recorded in Hn. destruct Hn as (cols1 & -> & Hcols1).
      apply IH in H. destruct H as (cols & -> & Hcols).
      exists (cols1 ++ cols). cbn [given assigned]. rewrite <- app_assoc.
      split; [reflexivity|]. apply Forall2_app; assumption.
Qed.

End Recorded.

Lemma comprehension_return {A : Type} (xs : list A) :
  Py.comprehension (fun x => Py.Return x) xs = Py.Return xs.
Proof.
  induction xs as [|x xs IH]; simpl; [reflexivity|]. rewrite IH. reflexivity.
Qed.

(** X10. The columns that [format_soilgrid_response] assigns, read off a
    library that records its calls: the input is not empty; [Point] is
    given, response by response, the coordinates of all the features of the
    response; and the assignments are, in order, one for each property of
    the first response that carries metadata and one for each entry of a
    property that does not, labelled by the short description found in the
    first response, with one value per response, the [i]-th read at the
    same place in the first feature of the [i]-th response. *)
Theorem format_soilgrid_columns :
  forall (api_responses : list Py.json) (gdf : Recorded),
    format_soilgrid_response recorder api_responses = Py.Return gdf ->
    exists first rest properties features,
      api_responses = first :: rest /\
      feature_properties first = Py.Return properties /\
      Py.items properties = Py.Return features /\
      Forall2 (fun api_response coord => feature_coordinates api_response = Py.Return coord)
              api_responses (given gdf) /\
      Forall2 (column_of api_responses) (column_sources features) (assigned gdf).
Proof.
  intros rs gdf H. unfold format_soilgrid_response in H.
  destruct (Py.comprehension feature_coordinates rs) as [coordinates|e] eqn:Hc; [|discriminate].
  cbn [Py.bind] in H. cbn [Point recorder] in H.
  rewrite comprehension_return in H. cbn [Py.bind new_frame recorder] in H.
  destruct rs as [|first rest]; [discriminate|]. cbn [Py.bind] in H.
  destruct (feature_properties first) as [properties|e] eqn:Hp; [|discriminate].
  cbn [Py.bind] in H.
  destruct (Py.items properties) as [features|e] eqn:Hi; [|discriminate].
  cbn [Py.bind] in H.
  apply for_features_recorded in H. destruct H as (cols & -> & Hcols).
  exists first, rest, properties, features. cbn [given assigned app].
  split; [reflexivity|]. split; [exact Hp|]. split; [exact Hi|].
  split; [apply comprehension_spec; exact Hc | exact Hcols].
Qed.

Lemma format_soilgrid_columns_witness :
  exists first rest properties features,
    [sample_response 5 52 (13 # 2) 20 40; sample_response 6 53 7 30 50] = first :: rest /\
    feature_properties first = Py.Return properties /\
    Py.items properties = Py.Return features /\
    Forall2 (fun api_response coord => feature_coordinates api_response = Py.Return coord)
            [sample_response 5 52 (13 # 2) 20 40; sample_response 6 53 7 30 50]
            [[Py.JArr [Py.JNum 5; Py.JNum 52]]; [Py.JArr [Py.JNum 6; Py.JNum 53]]] /\
    Forall2 (column_of [sample_response 5 52 (13 # 2) 20 40; sample_response 6 53 7 30 50])
            (column_sources features)
            [(Py.JStr "pH in water", [Py.JNum (13 # 2); Py.JNum 7]);
             (Py.JStr "Clay content", [Py.JNum 20; Py.JNum 30]);
             (Py.JStr "Sand content", [Py.JNum 40; Py.JNum 50])].
Proof.
  apply (format_soilgrid_columns
           [sample_response 5 52 (13 # 2) 20 40; sample_response 6 53 7 30 50]
           {| given := [[Py.JArr [Py.JNum 5; Py.JNum 52]]; [Py.JArr [Py.JNum 6; Py.JNum 53]]];
              assigned := [(Py.JStr "pH in water", [Py.JNum (13 # 2); Py.JNum 7]);
                           (Py.JStr "Clay content", [Py.JNum 20; Py.JNum 30]);
                           (Py.JStr "Sand content", [Py.JNum 40; Py.JNum 50])] |}).
  reflexivity.
Defined.

Lemma assign_all_app (L : Frames) (cols1 cols2 : list (Py.json * list Py.json)) :
  forall gdf gdf1,
    assign_all L gdf cols1 = Py.Return gdf1 ->
    assign_all L gdf (cols1 ++ cols2) = assign_all L gdf1 cols2.
Proof.
  induction cols1 as [|[label values] cols1 IH]; intros gdf gdf1 H.
  - injection H as <-. reflexivity.
  - cbn [assign_all app] in *.
    destruct (setitem L gdf label values) as [gdf'|e]; [|discriminate].
    cbn [Py.bind] in *. apply IH. exact H.
Qed.

Section Replay.

Variable L : Frames.
Variable api_responses : list Py.json.

Lemma for_nested_replay (feat_key : string) :
  forall nested gdf gdf' (rec : Recorded),
    for_nested L api_responses feat_key nested gdf = Py.Return gdf' ->
    exists cols,
      for_nested recorder api_responses feat_key nested rec
      = Py.Return {| given := given rec; assigned := assigned rec ++ cols |} /\
      assign_all L gdf cols = Py.Return gdf'.
Proof.
  induction nested as [|[nested_key nested_value] nested IH]; intros gdf gdf' rec H.
  - injection H as <-. exists []. rewrite app_nil_r. destruct rec. split; reflexivity.
  - cbn [for_nested] in *.
    destruct (Py.comprehension _ api_responses) as [values|e]; [|discriminate].
    cbn [Py.bind] in *.
    destruct (short_description nested_value) as [label|e]; [|discriminate].
    cbn [Py.bind] in *.
    destruct (setitem L gdf label values) as [gdf1|e] eqn:Hs; [|discriminate].
    cbn [Py.bind setitem recorder] in *.
    destruct (IH gdf1 gdf' {| given := given rec; assigned := assigned rec ++ [(label, values)] |} H)
      as (cols & Hrec & Hrun).
    exists ((label, values) :: cols). cbn [given assigned] in Hrec.
    rewrite <- app_assoc in Hrec. split; [exact Hrec|].
    cbn [assign_all]. rewrite Hs. exact Hrun.
Qed.

Lemma for_features_replay :
  forall features gdf gdf' (rec : Recorded),
    for_features L api_responses features gdf = Py.Return gdf' ->
    exists cols,
      for_features recorder api_responses features rec
      = Py.Return {| given := given rec; assigned := assigned rec ++ cols |} /\
      assign_all L gdf cols = Py.Return gdf'.
Proof.
  induction features as [|[feat_key feat_value] features IH]; intros gdf gdf' rec H.
  - injection H as <-. exists []. rewrite app_nil_r. destruct rec. split; reflexivity.
  - cbn [for_features] in *.
    destruct (Py.keys feat_value) as [feat_keys|e]; [|discriminate].
    cbn [Py.bind] in *.
    destruct (existsb (String.eqb "metadata") feat_keys).
    + destruct (Py.comprehension _ api_responses) as [values|e]; [|discriminate].
      cbn [Py.bind] in *.
      destruct (short_description feat_value) as [label|e]; [|discriminate].
      cbn [Py.bind] in *.
      destruct (setitem L gdf label values) as [gdf1|e] eqn:Hs; [|discriminate].
      cbn [Py.bind setitem recorder] in *.
      destruct (IH gdf1 gdf' {| given := given rec; assigned := assigned rec ++ [(label, values)] |} H)
        as (cols & Hrec & Hrun).
      exists ((label, values) :: cols). cbn [given assigned] in Hrec.
      rewrite <- app_assoc in Hrec. split; [exact Hrec|].
      cbn [assign_all]. rewrite Hs. exact Hrun.
    + destruct (Py.items feat_value) as [nested|e]; [|discriminate].
      cbn [Py.bind] in *.
      destruct (for_nested L api_responses feat_key nested gdf) as [gdf1|e] eqn:Hn;
        [|discriminate].
      cbn [Py.bind] in *.
      destruct (for_nested_replay feat_key nested gdf gdf1 rec Hn) as (cols1 & Hrec1 & Hrun1).
      rewrite Hrec1. cbn [Py.bind].
      destruct (IH gdf1 gdf' {| given := given rec; assigned := assigned rec ++ cols1 |} H)
        as (cols & Hrec & Hrun).
      exists (cols1 ++ cols). cbn [given assigned] in Hrec.
      rewrite <- app_assoc in Hrec. split; [exact Hrec|].
      rewrite (assign_all_app L cols1 cols gdf gdf1 Hrun1). exact Hrun.
Qed.

End Replay.

(** X11. With any library, whenever [format_soilgrid_response] returns,
    the frame is what the library makes of the recorded calls: the points
    of the recorded coordinates, the frame of these points, and the
    recorded assignments in order. *)
Theorem format_soilgrid_library_calls :
  forall (L : Frames) (api_responses : list Py.json) (gdf : Frame L),
    format_soilgrid_response L api_responses = Py.Return gdf ->
    exists (rec : Recorded) (geometries : list (Geometry L)) (empty : Frame L),
      format_soilgrid_response recorder api_responses = Py.Return rec /\
      Py.comprehension (Point L) (given rec) = Py.Return geometries /\
      new_frame L geometries = Py.Return empty /\
      assign_all L empty (assigned rec) = Py.Return gdf.
Proof.
  intros L rs gdf H. unfold format_soilgrid_response in *.
  destruct (Py.comprehension feature_coordinates rs) as [coordinates|e]; [|discriminate].
  cbn [Py.bind] in *. cbn [Point recorder]. rewrite comprehension_return.
  destruct (Py.comprehension (Point L) coordinates) as [geometries|e] eqn:Hg; [|discriminate].
  cbn [Py.bind new_frame recorder] in *.
  destruct (new_frame L geometries) as [empty|e] eqn:Hn; [|discriminate].
  cbn [Py.bind] in *.
  destruct rs as [|first rest]; [discriminate|]. cbn [Py.bind] in *.
  destruct (feature_properties first) as [properties|e]; [|discriminate].
  cbn [Py.bind] in *.
  destruct (Py.items properties) as [features|e]; [|discriminate].
  cbn [Py.bind] in *.
  destruct (for_features_replay L (first :: rest) features empty gdf
              {| given := coordinates; assigned := [] |} H) as (cols & Hrec & Hrun).
  exists {| given := coordinates; assigned := cols |}, geometries, empty.
  split; [exact Hrec|]. cbn [given assigned].
  split; [exact Hg|]. split; [exact Hn | exact Hrun].
Qed.

Lemma format_soilgrid_library_calls_witness :
  exists (rec : Recorded) (geometries : list point) (empty : Table),
    format_soilgrid_response recorder
      [sample_response 5 52 (13 # 2) 20 40; sample_response 6 53 7 30 50] = Py.Return rec /\
    Py.comprehension (Point table) (given rec) = Py.Return geometries /\
    new_frame table geometries = Py.Return empty /\
    assign_all table empty (assigned rec)
    = Py.Return {| table_points := [(5, 52); (6, 53)];
                   table_columns := [("pH in water"%string, [Py.JNum (13 # 2); Py.JNum 7]);
                                     ("Clay content"%string, [Py.JNum 20; Py.JNum 30]);
                                     ("Sand content"%string, [Py.JNum 40; Py.JNum 50])] |}.
Proof.
  apply (format_soilgrid_library_calls table
           [sample_response 5 52 (13 # 2) 20 40; sample_response 6 53 7 30 50]).
  reflexivity.
Defined.

Lemma Forall2_in_left {A B : Type} (R : A -> B -> Prop) (xs : list A) (ys : list B) (x : A) :
  Forall2 R xs ys -> In x xs -> exists y, In y ys /\ R x y.
Proof.
  induction 1 as [|x0 y0 xs ys Hxy _ IH]; intros Hin; [destruct Hin|].
  destruct Hin as [->|Hin].
  - exists y0. split; [left; reflexivity | exact Hxy].
  - destruct (IH Hin) as (y & Hy & Hr). exists y. split; [right; exact Hy | exact Hr].
Qed.

(** X12. With any library, [format_soilgrid_response] returns only if
    every response has, in its first feature, each property of the first
    response that makes a column (and each entry of a group that does),
    with a [value]: a response that lacks one fails the whole call. *)
Theorem format_soilgrid_needs_every_property :
  forall (L : Frames) (api_responses : list Py.json) (gdf : Frame L),
    format_soilgrid_response L api_responses = Py.Return gdf ->
    exists first rest properties features,
      api_responses = first :: rest /\
      feature_properties first = Py.Return properties /\
      Py.items properties = Py.Return features /\
      forall feat_key nested_key source api_response,
        In (feat_key, nested_key, source) (column_sources features) ->
        In api_response api_responses ->
        exists label v,
          short_description source = Py.Return label /\
          value_in feat_key nested_key api_response = Py.Return v.
Proof.
  intros L rs gdf H. unfold format_soilgrid_response in H.
  destruct (Py.comprehension feature_coordinates rs) as [coordinates|e]; [|discriminate].
  cbn [Py.bind] in H.
  destruct (Py.comprehension (Point L) coordinates) as [geometries|e]; [|discriminate].
  cbn [Py.bind] in H.
  destruct (new_frame L geometries) as [empty|e]; [|discriminate].
  cbn [Py.bind] in H.
  destruct rs as [|first rest]; [discriminate|]. cbn [Py.bind] in H.
  destruct (feature_properties first) as [properties|e] eqn:Hp; [|discriminate].
  cbn [Py.bind] in H.
  destruct (Py.items properties) as [features|e] eqn:Hi; [|discriminate].
  cbn [Py.bind] in H.
  destruct (for_features_replay L (first :: rest) features empty gdf
              {| given := coordinates; assigned := [] |} H) as (cols & Hrec & _).
  apply for_features_recorded in Hrec. destruct Hrec as (cols' & _ & Hcols).
  exists first, rest, properties, features.
  split; [reflexivity|]. split; [exact Hp|]. split; [exact Hi|].
  intros feat_key nested_key source r Hs Hr.
  destruct (Forall2_in_left _ _ _ _ Hcols Hs) as ([label values] & _ & Hl & Hv).
  cbn [fst snd] in Hl, Hv.
  destruct (Forall2_in_left _ _ _ _ Hv Hr) as (v & _ & Hval).
  exists label, v. split; [exact Hl | exact Hval].
Qed.

Lemma format_soilgrid_needs_every_property_witness :
  exists first rest properties features,
    [sample_response 5 52 (13 # 2) 20 40; sample_response 6 53 7 30 50] = first :: rest /\
    feature_properties first = Py.Return properties /\
    Py.items properties = Py.Return features /\
    forall feat_key nested_key source api_response,
      In (feat_key, nested_key, source) (column_sources features) ->
      In api_response [sample_response 5 52 (13 # 2) 20 40; sample_response 6 53 7 30 50] ->
      exists label v,
        short_description source = Py.Return label /\
        value_in feat_key nested_key api_response = Py.Return v.
Proof.
  apply (format_soilgrid_needs_every_property table
           [sample_response 5 52 (13 # 2) 20 40; sample_response 6 53 7 30 50]
           {| table_points := [(5, 52); (6, 53)];
              table_columns := [("pH in water"%string, [Py.JNum (13 # 2); Py.JNum 7]);
                                ("Clay content"%string, [Py.JNum 20; Py.JNum 30]);
                                ("Sand content"%string, [Py.JNum 40; Py.JNum 50])] |}).
  reflexivity.
Defined.

(** X13. A response without a readable [features] list of features with
    [geometry] and [coordinates] fails the whole call, with the exception of
    the first such response, before the library is called at all. *)
Theorem format_soilgrid_malformed_response :
  forall (L : Frames) (before after : list Py.json) (api_response : Py.json) (e : Py.error),
    (forall r, In r before -> exists coord, feature_coordinates r = Py.Return coord) ->
    feature_coordinates api_response = Py.Throw e ->
    format_soilgrid_response L (before ++ api_response :: after) = Py.Throw e.
Proof.
  intros L before after r e Hbefore Hr. unfold format_soilgrid_response.
  assert (H : Py.comprehension feature_coordinates (before ++ r :: after) = Py.Throw e).
  { induction before as [|r0 before IH]; cbn [app Py.comprehension].
    - rewrite Hr. reflexivity.
    - destruct (Hbefore r0 (or_introl eq_refl)) as [coord ->]. cbn [Py.bind].
      rewrite IH; [reflexivity|]. intros r' Hr'. apply Hbefore. right. exact Hr'. }
  rewrite H. reflexivity.
Qed.

Lemma format_soilgrid_malformed_response_witness :
  format_soilgrid_response table
    ([sample_response 5 52 (13 # 2) 20 40] ++ Py.JObj [] :: [sample_response 6 53 7 30 50])
  = Py.Throw (Py.KeyError (Py.Key "features")).
Proof.
  apply (format_soilgrid_malformed_response table).
  - intros r [<-|[]]. eexists. reflexivity.
  - reflexivity.
Defined.

(** X14. When the service rejects every request, the client returns an
    empty list (and prints one line per point), and formatting that list
    raises [IndexError] once the frame without rows has been made: the
    formatter never returns a frame for an empty list. *)
Theorem soilgrid_all_rejected_then_format_fails :
  forall (net : Requests.Network) (points : list point)
         (responses : list Requests.Response) (w : World)
         (L : Frames) (empty : Frame L),
    answers net (List.length (sent w)) points responses ->
    (forall response, In response responses -> accepted response = false) ->
    new_frame L [] = Py.Return empty ->
    fst (get_all_soilgrid_for_points net points w) = Py.Return [] /\
    List.length (stdout (snd (get_all_soilgrid_for_points net points w)))
    = (List.length (stdout w) + List.length points)%nat /\
    (api_responses <~ fst (get_all_soilgrid_for_points net points w) ;;
     format_soilgrid_response L api_responses) = Py.Throw Py.IndexError.
Proof.
  intros net points responses w L empty Ha Hrej Hnew.
  assert (Hb : forall response, In response responses -> accepted response = true ->
                                Requests.body response <> None).
  { intros r Hr Hacc. rewrite (Hrej r Hr) in Hacc. discriminate. }
  unfold get_all_soilgrid_for_points.
  rewrite (for_points_collects net points responses w [] Ha Hb). cbn [app].
  cbn [fst snd stdout].
  assert (Hnone : bodies responses = []).
  { unfold bodies. replace (filter accepted responses) with (@nil Requests.Response);
      [reflexivity|].
    symmetry. clear Ha Hb. induction responses as [|r rs IH]; [reflexivity|].
    cbn [filter]. rewrite (Hrej r (or_introl eq_refl)). apply IH.
    intros r' Hr'. apply Hrej. right. exact Hr'. }
  assert (Hlen : List.length (error_lines responses) = List.length points).
  { unfold error_lines. rewrite length_map.
    replace (filter (fun response => negb (accepted response)) responses) with responses.
    - clear Hb Hrej Hnone. revert Ha. generalize (List.length (sent w)).
      revert responses. induction points as [|p points IH]; intros [|r rs] n Ha;
        try (destruct Ha; fail); [reflexivity|].
      destruct Ha as [_ Ha]. simpl. f_equal. exact (IH rs (S n) Ha).
    - symmetry. apply forallb_filter_id. apply forallb_forall. intros r Hr.
      rewrite (Hrej r Hr). reflexivity. }
  rewrite Hnone, length_app, Hlen.
  split; [reflexivity|]. split; [reflexivity|].
  cbn [Py.bind]. unfold format_soilgrid_response. cbn [Py.comprehension Py.bind].
  rewrite Hnew. reflexivity.
Qed.

Lemma soilgrid_all_rejected_then_format_fails_witness :
  fst (get_all_soilgrid_for_points unavailable [(5, 52); (5, 53)] quiet) = Py.Return [] /\
  List.length (stdout (snd (get_all_soilgrid_for_points unavailable [(5, 52); (5, 53)] quiet)))
  = (List.length (stdout quiet) + List.length [(5, 52); (5, 53)])%nat /\
  (api_responses <~ fst (get_all_soilgrid_for_points unavailable [(5, 52); (5, 53)] quiet) ;;
   format_soilgrid_response table api_responses) = Py.Throw Py.IndexError.
Proof.
  apply (soilgrid_all_rejected_then_format_fails unavailable [(5, 52); (5, 53)]
           [{| Requests.status_code := 503; Requests.body := None |};
            {| Requests.status_code := 503; Requests.body := None |}]
           quiet table {| table_points := []; table_columns := [] |}).
  - simpl. repeat split.
  - intros response [<-|[<-|[]]]; reflexivity.
  - reflexivity.
Defined.
